(** * Bot_BTC: signal engine, live position ledger and backtest replay

    A shallow embedding of the decision logic of the trading bot:

    - [src/config/settings.py]  -> module [Config]
    - [src/bot/strategy.py]     -> module [strategy]   (Strategy.analyze)
    - [src/bot/trader.py]       -> module [trader]     (Trader.run_analysis,
                                                        open_position, close_position)
    - [src/bot/backtester.py]   -> module [backtester] (simulate_trade,
                                                        check_stop_loss_take_profit,
                                                        run_backtest, generate_report)
                                   module [history]    (fetch_historical_data)
    - [src/bot/exchange.py]     -> module [exchange]   (get_ticker, create_order)
    - [src/bot/storage.py]      -> module [storage]    (save_trade, get_open_position,
                                                        close_trade)
    - [src/main.py]             -> module [main]       (trading_loop)
    - [src/api/server.py]       -> module [api]        (get_status)

    The module [live] runs a tick of the trader against the exchange interface
    and the storage.

    Numbers are the binary64 floats of the kernel ([PrimFloat]): Python and
    numpy floats are binary64 as well, so comparisons with NaN are false and
    division by zero gives an infinity or NaN exactly as in the numpy scalars
    the code computes with.  Python dictionaries are finite maps from strings
    ([gmap string _]); objects that the code mutates are threaded through the
    functions as explicit state. *)

From Stdlib Require Import ZArith Floats.PrimFloat.
From Stdlib Require Floats.
From stdpp Require Import base option list gmap strings.

Set Warnings "-inexact-float".

(** ** Python values and outcomes *)

(** Python's comparison operators on floats, written as in the source. *)
Module pyfloat.
Local Open Scope float_scope.

Definition gtb (x y : float) : bool := y <? x.
Definition geb (x y : float) : bool := y <=? x.
Definition neb (x y : float) : bool := negb (x =? y).

(** [float(n)] for a non-negative Python int (exact below 2^53). *)
Fixpoint of_nat (n : nat) : float :=
  match n with
  | O => 0
  | S k => of_nat k + 1
  end.

(** The builtin [sum(xs)]: starts from [0] and adds from the left. *)
Definition fsum (xs : list float) : float := fold_left add xs 0.

End pyfloat.

Notation "x >? y" := (pyfloat.gtb x y) (at level 70, no associativity) : float_scope.
Notation "x >=? y" := (pyfloat.geb x y) (at level 70, no associativity) : float_scope.
Notation "x !=? y" := (pyfloat.neb x y) (at level 70, no associativity) : float_scope.

(** One entry of the [reason] list that [Strategy.analyze] builds; the source
    text of each entry is given on the right ([{x:.1f}] is a formatted float,
    kept here as the float itself). *)
Inductive ReasonItem :=
  | OkUptrend                       (* "✓ Uptrend" *)
  | OkRsiHealthy (rsi : float)      (* "✓ RSI healthy ({rsi:.1f})" *)
  | OkMacdBullish                   (* "✓ MACD bullish cross" *)
  | OkVolume (ratio : float)        (* "✓ Volume confirmed ({volume/volume_avg:.1f}x)" *)
  | OkCrossedAboveEma50             (* "✓ Price crossed above EMA50" *)
  | OkNearEma20                     (* "✓ Price near EMA20" *)
  | NoEmaEntry                      (* "✗ No EMA entry signal" *)
  | LowVolume (ratio : float)       (* "✗ Low volume ({volume/volume_avg:.1f}x)" *)
  | NoMacdBullish                   (* "✗ No MACD bullish cross" *)
  | RsiOutOfRange (rsi : float)     (* "✗ RSI out of range ({rsi:.1f})" *)
  | Downtrend                       (* "✗ Downtrend (price < EMA200)" *)
  | ExtremeOverbought (rsi : float) (* "⚠️ Extreme overbought (RSI {rsi:.1f})" *)
  | MacdBearish                     (* "⚠️ MACD bearish crossover" *)
  | CrossedBelowEma50.              (* "⚠️ Price crossed below EMA50" *)

(** The Python values that occur in the dictionaries of the program.
    [VJoined items] is the string [' | '.join(items)]. *)
Inductive pyval :=
  | VNone
  | VStr (s : string)
  | VFloat (f : float)
  | VInt (z : Z)
  | VBool (b : bool)
  | VJoined (items : list ReasonItem).

Abbreviation dict := (gmap string pyval).

(** [d.get(key)] and [d.get(key, default)]. *)
Definition dict_get (d : dict) (key : string) : pyval := default VNone (d !! key).
Definition dict_get_default (d : dict) (key : string) (dflt : pyval) : pyval :=
  default dflt (d !! key).

(** Exceptions the modelled code can raise. *)
Inductive exn := IndexError | TypeError.

(** A call either returns a value or raises. *)
Inductive outcome (A : Type) :=
  | Returned (a : A)
  | Raised (e : exn).
Arguments Returned {A} a.
Arguments Raised {A} e.

(** ** pandas operations used by the strategy

    Series are lists of floats.  [diff] leaves NaN in the first place.  The
    two window operations are the kernels of pandas
    ([_libs/window/aggregations.pyx]), which [src/] calls and does not
    contain:

    - [rolling(w).mean()] is [roll_mean]: a running sum with Kahan
      compensation, to which the value entering the window is added and from
      which the values leaving it are removed; NaN values are not counted,
      infinities are read as NaN, and the mean is NaN until [w] values are
      counted;
    - [ewm(span, adjust=False).mean()] is [ewm] with [com = (span - 1) / 2]:
      the average is kept when the value equals it, a NaN value is skipped
      and ages the average, and otherwise the average becomes
      [(old_wt * average + new_wt * value) / (old_wt + new_wt)].

    pandas raises ValueError for a span below 1; the periods of the strategy
    are the literals of [Config], all at least 9. *)
Module pd.
Local Open Scope float_scope.

Definition diff (xs : list float) : list float :=
  match xs with
  | [] => []
  | _ :: rest => nan :: zip_with (fun prev cur => cur - prev) xs rest
  end.

(** [s.where(cond, other)] *)
Definition where_ (cond : float -> bool) (other : float) (xs : list float) : list float :=
  map (fun x => if cond x then x else other) xs.

(** The variables of [roll_mean]. *)
Record Roll := {
  nobs : nat;
  sum_x : float;
  neg_ct : nat;
  compensation_add : float;
  compensation_remove : float;
  num_consecutive_same_value : nat;
  prev_value : float
}.

(** [add_mean(val, ...)] *)
Definition add_mean (st : Roll) (val : float) : Roll :=
  if is_nan val then st
  else
    let y := val - compensation_add st in
    let t := sum_x st + y in
    {| nobs := nobs st + 1;
       sum_x := t;
       neg_ct := if get_sign val then neg_ct st + 1 else neg_ct st;
       compensation_add := t - sum_x st - y;
       compensation_remove := compensation_remove st;
       num_consecutive_same_value :=
         if val =? prev_value st then num_consecutive_same_value st + 1 else 1;
       prev_value := val |}.

(** [remove_mean(val, ...)] *)
Definition remove_mean (st : Roll) (val : float) : Roll :=
  if is_nan val then st
  else
    let y := - val - compensation_remove st in
    let t := sum_x st + y in
    {| nobs := nobs st - 1;
       sum_x := t;
       neg_ct := if get_sign val then neg_ct st - 1 else neg_ct st;
       compensation_add := compensation_add st;
       compensation_remove := t - sum_x st - y;
       num_consecutive_same_value := num_consecutive_same_value st;
       prev_value := prev_value st |}.

(** [calc_mean(minp, ...)] *)
Definition calc_mean (minp : nat) (st : Roll) : float :=
  if (minp <=? nobs st)%nat && (0 <? nobs st)%nat then
    let result := sum_x st / pyfloat.of_nat (nobs st) in
    if (nobs st <=? num_consecutive_same_value st)%nat then prev_value st
    else if (neg_ct st =? 0)%nat && (result <? 0) then 0
    else if (neg_ct st =? nobs st)%nat && (result >? 0) then 0
    else result
  else nan.

(** The bounds of the window that ends at the index [i]. *)
Definition window_start (w i : nat) : nat := i + 1 - w.
Definition window_end (i : nat) : nat := i + 1.

Definition slice (values : list float) (lo hi : nat) : list float :=
  take (hi - lo) (drop lo values).

(** The variables as [roll_mean] sets them up for a window that starts at
    [s]. *)
Definition roll_setup (values : list float) (s : nat) : Roll := {|
  nobs := 0; sum_x := 0; neg_ct := 0;
  compensation_add := 0; compensation_remove := 0;
  num_consecutive_same_value := 0;
  prev_value := default nan (values !! s)
|}.

(** One turn of the loop of [roll_mean], for the window that ends at [i]:
    the variables are set up and filled for the first window (and for a
    window that has nothing in common with the one before); otherwise the
    values that left the window are removed and the value that entered is
    added. *)
Definition roll_turn (w : nat) (values : list float) (st : Roll) (i : nat) : Roll :=
  let s := window_start w i in
  let e := window_end i in
  match i with
  | 0 => foldl add_mean (roll_setup values s) (slice values s e)
  | S j =>
      if (window_end j <=? s)%nat
      then foldl add_mean (roll_setup values s) (slice values s e)
      else
        let removed := foldl remove_mean st (slice values (window_start w j) s) in
        foldl add_mean removed (slice values (window_end j) e)
  end.

(** The loop of [roll_mean] from the index [i] on, [turns] times. *)
Fixpoint roll_loop (w : nat) (values : list float) (st : Roll) (i turns : nat)
  : list float :=
  match turns with
  | 0 => []
  | S turns =>
      let st := roll_turn w values st i in
      calc_mean w st :: roll_loop w values st (S i) turns
  end.

(** [xs.rolling(window=w).mean()]; a window of no value has no mean. *)
Definition rolling_mean (w : nat) (xs : list float) : list float :=
  if (w =? 0)%nat then map (fun _ => nan) xs
  else
    let values := map (fun x => if is_infinity x then nan else x) xs in
    roll_loop w values (roll_setup values 0) 0 (length xs).

(** The value of [xs.rolling(window=w).mean()] at the index [t]. *)
Definition window_mean (w : nat) (xs : list float) (t : nat) : float :=
  default nan (rolling_mean w xs !! t).

(** The variables of [ewm] that change in its loop. *)
Record Ewm := {
  weighted : float;
  old_wt : float;
  new_wt : float
}.

(** One turn of the loop of [ewm] ([adjust=False], [ignore_na=False]), for
    the value [cur]. *)
Definition ewm_step (com : float) (st : Ewm) (cur : float) : Ewm :=
  let alpha := 1 / (1 + com) in
  let old_wt_factor := 1 - alpha in
  if is_nan (weighted st) then
    if is_nan cur then st
    else {| weighted := cur; old_wt := old_wt st; new_wt := new_wt st |}
  else
    let aged := old_wt st * old_wt_factor in
    if is_nan cur then {| weighted := weighted st; old_wt := aged; new_wt := new_wt st |}
    else if weighted st !=? cur then
      let fresh := if com =? 1 then 1 - aged else new_wt st in
      {| weighted := (aged * weighted st + fresh * cur) / (aged + fresh);
         old_wt := 1; new_wt := fresh |}
    else {| weighted := weighted st; old_wt := 1; new_wt := new_wt st |}.

Fixpoint ewm_from (com : float) (st : Ewm) (xs : list float) : list float :=
  match xs with
  | [] => []
  | x :: rest =>
      let st := ewm_step com st x in
      weighted st :: ewm_from com st rest
  end.

Definition ewm_mean (span : nat) (xs : list float) : list float :=
  let com := (pyfloat.of_nat span - 1) / 2 in
  match xs with
  | [] => []
  | x :: rest =>
      x :: ewm_from com {| weighted := x; old_wt := 1; new_wt := 1 / (1 + com) |} rest
  end.

End pd.

(** ** Candles and data frames *)

Record Candle := {
  timestamp : Z;
  open : float;
  high : float;
  low : float;
  close : float;
  volume : float
}.

(** A pandas DataFrame of candles: the six candle columns, row by row, and
    the derived columns that have been assigned to it ([df[name] = series]). *)
Record DataFrame := {
  rows : list Candle;
  columns : gmap string (list float)
}.

(** [pd.DataFrame()] *)
Definition empty_frame : DataFrame := {| rows := []; columns := ∅ |}.

(** [len(df)] and [df.empty] *)
Definition len (df : DataFrame) : nat := length (rows df).
Definition is_empty (df : DataFrame) : bool := bool_decide (len df = 0).

(** [df[name] = series] : the frame itself is changed. *)
Definition set_column (name : string) (series : list float) (df : DataFrame) : DataFrame :=
  {| rows := rows df; columns := <[name := series]> (columns df) |}.

(** [df.iloc[lo:hi].copy()] *)
Definition iloc_slice (df : DataFrame) (lo hi : nat) : DataFrame :=
  {| rows := take (hi - lo) (drop lo (rows df));
     columns := (fun col => take (hi - lo) (drop lo col)) <$> columns df |}.

(** ** Configuration ([src/config/settings.py]) *)
Module Config.
Local Open Scope float_scope.

(** [os.getenv(key, fallback)] in the environment [environ]. *)
Definition getenv (environ : gmap string string) (key fallback : string) : string :=
  default fallback (environ !! key).

(** The market settings are read from the environment when the module is
    loaded. *)
Definition TIMEFRAME_in (environ : gmap string string) : string :=
  getenv environ "TIMEFRAME" "1m".
Definition SYMBOL_in (environ : gmap string string) : string :=
  getenv environ "SYMBOL" "BTC/USDT".

(** The settings with neither variable set, as the traders below take
    them. *)
Definition TIMEFRAME : string := TIMEFRAME_in ∅.
Definition SYMBOL : string := SYMBOL_in ∅.
Definition EMA_TREND : nat := 200.
Definition EMA_FAST : nat := 20.
Definition EMA_SLOW : nat := 50.
Definition VOLUME_PERIOD : nat := 20.
Definition VOLUME_MULTIPLIER : float := 0.5.
Definition RSI_PERIOD : nat := 14.
Definition RSI_MIN : float := 40.
Definition RSI_MAX : float := 70.
Definition RSI_EXIT : float := 75.
Definition MACD_FAST : nat := 12.
Definition MACD_SLOW : nat := 26.
Definition MACD_SIGNAL : nat := 9.
Definition STOP_LOSS_PCT : float := 0.02.
Definition TAKE_PROFIT_PCT : float := 0.05.

End Config.

(** ** The strategy ([src/bot/strategy.py]) *)
Module strategy.
Local Open Scope float_scope.

(** The fields that [Strategy.__init__] sets. *)
Record Strategy := {
  ema_trend : nat;
  ema_fast : nat;
  ema_slow : nat;
  volume_period : nat;
  volume_multiplier : float;
  rsi_period : nat;
  rsi_min : float;
  rsi_max : float;
  rsi_exit : float;
  macd_fast : nat;
  macd_slow : nat;
  macd_signal : nat
}.

(** [Strategy()] : every field is read from [Config]. *)
Definition Strategy_init : Strategy := {|
  ema_trend := Config.EMA_TREND;
  ema_fast := Config.EMA_FAST;
  ema_slow := Config.EMA_SLOW;
  volume_period := Config.VOLUME_PERIOD;
  volume_multiplier := Config.VOLUME_MULTIPLIER;
  rsi_period := Config.RSI_PERIOD;
  rsi_min := Config.RSI_MIN;
  rsi_max := Config.RSI_MAX;
  rsi_exit := Config.RSI_EXIT;
  macd_fast := Config.MACD_FAST;
  macd_slow := Config.MACD_SLOW;
  macd_signal := Config.MACD_SIGNAL
|}.

Definition calculate_ema (series : list float) (period : nat) : list float :=
  pd.ewm_mean period series.

Definition calculate_rsi (series : list float) (period : nat) : list float :=
  let delta := pd.diff series in
  let gain := pd.rolling_mean period (pd.where_ (fun d => d >? 0) 0 delta) in
  let loss := pd.rolling_mean period (map opp (pd.where_ (fun d => d <? 0) 0 delta)) in
  let rs := zip_with div gain loss in
  map (fun r => 100 - 100 / (1 + r)) rs.

Definition calculate_macd (series : list float) (fast slow signal : nat)
  : list float * list float :=
  let exp1 := pd.ewm_mean fast series in
  let exp2 := pd.ewm_mean slow series in
  let macd := zip_with sub exp1 exp2 in
  let signal_line := pd.ewm_mean signal macd in
  (macd, signal_line).

(** The warm-up threshold of [analyze]: [max(self.ema_trend, self.macd_slow)]. *)
Definition warmup (self : Strategy) : nat := Nat.max (ema_trend self) (macd_slow self).

(** The guard of [analyze]: [df.empty or len(df) < max(...)]. *)
Definition insufficient (self : Strategy) (df : DataFrame) : bool :=
  is_empty df || (len df <? warmup self)%nat.

(** Lines 90-97 of [analyze]: the seven derived columns are assigned to the
    frame that was passed in. *)
Definition add_indicators (self : Strategy) (df : DataFrame) : DataFrame :=
  let closes := map close (rows df) in
  let df := set_column "ema_trend" (calculate_ema closes (ema_trend self)) df in
  let df := set_column "ema_fast" (calculate_ema closes (ema_fast self)) df in
  let df := set_column "ema_slow" (calculate_ema closes (ema_slow self)) df in
  let df := set_column "rsi" (calculate_rsi closes (rsi_period self)) df in
  let '(macd, signal_line) :=
    calculate_macd closes (macd_fast self) (macd_slow self) (macd_signal self) in
  let df := set_column "macd" macd df in
  let df := set_column "macd_signal" signal_line df in
  set_column "volume_avg"
    (pd.rolling_mean (volume_period self) (map volume (rows df))) df.

(** The names of the derived columns. *)
Definition indicator_columns : list string :=
  ["ema_trend"; "ema_fast"; "ema_slow"; "rsi"; "macd"; "macd_signal"; "volume_avg"].

(** The entries of one row ([df.iloc[i]]) that [analyze] reads. *)
Record Row := {
  r_close : float;
  r_volume : float;
  r_ema_trend : float;
  r_ema_fast : float;
  r_ema_slow : float;
  r_rsi : float;
  r_macd : float;
  r_macd_signal : float;
  r_volume_avg : float
}.

(** [df.iloc[i]] for a position [i] counted from the start; [None] stands for
    the IndexError (or KeyError) of an absent row (or column). *)
Definition iloc (df : DataFrame) (i : nat) : option Row :=
  c ← rows df !! i;
  let col name := columns df !! name ≫= (.!! i) in
  v_ema_trend ← col "ema_trend";
  v_ema_fast ← col "ema_fast";
  v_ema_slow ← col "ema_slow";
  v_rsi ← col "rsi";
  v_macd ← col "macd";
  v_macd_signal ← col "macd_signal";
  v_volume_avg ← col "volume_avg";
  Some {| r_close := close c; r_volume := volume c;
          r_ema_trend := v_ema_trend; r_ema_fast := v_ema_fast;
          r_ema_slow := v_ema_slow; r_rsi := v_rsi; r_macd := v_macd;
          r_macd_signal := v_macd_signal; r_volume_avg := v_volume_avg |}.

(** [df.iloc[-k]] *)
Definition iloc_back (df : DataFrame) (k : nat) : option Row :=
  if (len df <? k)%nat then None else iloc df (len df - k).

(** The derived booleans of lines 119-130. *)
Definition trend (last : Row) : string :=
  if r_close last >? r_ema_trend last then "uptrend" else "downtrend".

Definition volume_confirmed (self : Strategy) (last : Row) : bool :=
  r_volume last >? r_volume_avg last * volume_multiplier self.

Definition macd_bullish_cross (last prev : Row) : bool :=
  (r_macd prev <? r_macd_signal prev) && (r_macd last >? r_macd_signal last).

Definition macd_bearish_cross (last prev : Row) : bool :=
  (r_macd prev >? r_macd_signal prev) && (r_macd last <? r_macd_signal last).

Definition price_cross_above_ema50 (last prev : Row) : bool :=
  (r_close prev <? r_ema_slow prev) && (r_close last >? r_ema_slow last).

Definition price_bounce_ema20 (last : Row) : bool :=
  abs (r_close last - r_ema_fast last) / r_close last <? 0.005.

(** The third sell condition (line 178). *)
Definition price_cross_below_ema50 (last prev : Row) : bool :=
  (r_close prev >? r_ema_slow prev) && (r_close last <? r_ema_slow last).

(** Lines 132-164: the nested buy conditions, with the reason list they
    build.  The result is the value of [signal] and of [reason] before the
    sell conditions are looked at. *)
Definition buy_conditions (self : Strategy) (last prev : Row) : pyval * list ReasonItem :=
  let rsi := r_rsi last in
  let ratio := r_volume last / r_volume_avg last in
  if bool_decide (trend last = "uptrend") then
    if (rsi_min self <=? rsi) && (rsi <=? rsi_max self) then
      if macd_bullish_cross last prev then
        if volume_confirmed self last then
          if price_cross_above_ema50 last prev || price_bounce_ema20 last then
            (VStr "buy",
             [OkUptrend; OkRsiHealthy rsi; OkMacdBullish; OkVolume ratio;
              if price_cross_above_ema50 last prev
              then OkCrossedAboveEma50 else OkNearEma20])
          else
            (VNone, [OkUptrend; OkRsiHealthy rsi; OkMacdBullish; OkVolume ratio; NoEmaEntry])
        else
          (VNone, [OkUptrend; OkRsiHealthy rsi; OkMacdBullish; LowVolume ratio])
      else
        (VNone, [OkUptrend; OkRsiHealthy rsi; NoMacdBullish])
    else
      (VNone, [OkUptrend; RsiOutOfRange rsi])
  else
    (VNone, [Downtrend]).

(** Lines 166-180: the sell conditions, which replace [signal] and [reason]. *)
Definition sell_conditions (self : Strategy) (last prev : Row)
    (tentative : pyval * list ReasonItem) : pyval * list ReasonItem :=
  if r_rsi last >? rsi_exit self then
    (VStr "sell", [ExtremeOverbought (r_rsi last)])
  else if macd_bearish_cross last prev then
    (VStr "sell", [MacdBearish])
  else if price_cross_below_ema50 last prev then
    (VStr "sell", [CrossedBelowEma50])
  else tentative.

(** Lines 103-194: the decision on the last two rows and the result
    dictionary. *)
Definition evaluate (self : Strategy) (last prev : Row) : dict :=
  let '(signal, reason) :=
    sell_conditions self last prev (buy_conditions self last prev) in
  list_to_map [
    ("signal", signal);
    ("price", VFloat (r_close last));
    ("rsi", VFloat (r_rsi last));
    ("macd", VFloat (r_macd last));
    ("trend", VStr (trend last));
    ("volume_confirmed", VBool (volume_confirmed self last));
    ("volume_ratio",
       if r_volume_avg last >? 0
       then VFloat (r_volume last / r_volume_avg last) else VInt 0);
    ("ema_trend", VFloat (r_ema_trend last));
    ("ema_slow", VFloat (r_ema_slow last));
    ("ema_fast", VFloat (r_ema_fast last));
    ("reason",
       match reason with
       | [] => VStr "Market Scanning..."
       | _ => VJoined reason
       end)
  ].

(** The dictionary returned on too short a series (line 87). *)
Definition insufficient_data : dict :=
  list_to_map [("signal", VNone); ("reason", VStr "Insufficient data")].

(** [Strategy.analyze(df)].  The first component is the frame [df] as the
    call leaves it: [analyze] assigns the indicator columns to the frame it
    was given. *)
Definition analyze (self : Strategy) (df : DataFrame) : DataFrame * outcome dict :=
  if insufficient self df then (df, Returned insufficient_data)
  else
    let df := add_indicators self df in
    match iloc_back df 1, iloc_back df 2 with
    | Some last, Some prev => (df, Returned (evaluate self last prev))
    | _, _ => (df, Raised IndexError)
    end.

End strategy.

(** Python truthiness and the conversions that arithmetic and comparisons
    with a float apply to the other operand. *)
Definition truthy (v : pyval) : bool :=
  match v with
  | VNone => false
  | VStr s => negb (bool_decide (s = ""))
  | VFloat f => (f !=? 0)%float
  | VInt z => negb (Z.eqb z 0)
  | VBool b => b
  | VJoined items => negb (bool_decide (items = []))
  end.

(** [v == s] for a string literal [s]. *)
Definition is_str (v : pyval) (s : string) : bool :=
  match v with
  | VStr s' => bool_decide (s' = s)
  | _ => false
  end.

(** The float a value stands for in [v * x] or [v <= x] with [x] a float;
    [None] where Python raises TypeError (None, strings). *)
Definition as_float (v : pyval) : option float :=
  match v with
  | VFloat f => Some f
  | VInt z =>
      Some (if (z <? 0)%Z then (- pyfloat.of_nat (Z.to_nat (- z)))%float
            else pyfloat.of_nat (Z.to_nat z))
  | VBool b => Some (if b then 1 else 0)%float
  | VNone | VStr _ | VJoined _ => None
  end.

(** ** The live trader ([src/bot/trader.py]) *)
Module trader.
Local Open Scope float_scope.

(** [self.position]: the dictionary built by [open_position] (or read back by
    [Storage.get_open_position]); the key ['id'] is always present, its value
    may be [None]. *)
Record Position := {
  symbol : string;
  type : string;
  entry_price : pyval;
  amount : float;
  sl : float;
  tp : float;
  id : option Z
}.

(** A non-empty order dictionary as the exchange returns it. *)
Record Order := {
  order_side : string;
  order_filled : float
}.

(** The calls made on the [Storage] collaborator. *)
Inductive StorageCall :=
  | SaveTrade (trade_data : Position)
  | CloseTrade (trade_id : option Z) (exit_price : pyval).

(** What the collaborators answer during one call:
    [exchange.fetch_ohlcv(symbol, timeframe)],
    [exchange.create_order(symbol, 'market', side, amount)] ([None] when the
    order fails) and [storage.save_trade(trade_data)] ([None] on a database
    error). *)
Record World := {
  fetch_ohlcv : DataFrame;
  create_order : string -> string -> string -> float -> option Order;
  save_trade : Position -> option Z
}.

Record Trader := {
  strategy_ : strategy.Strategy;
  symbol_ : string;
  stop_loss_pct : float;
  take_profit_pct : float;
  position : option Position;
  latest_analysis : option dict;
  storage_calls : list StorageCall
}.

(** [Trader()] with the position that the storage holds at start-up. *)
Definition Trader_init (resumed : option Position) : Trader := {|
  strategy_ := strategy.Strategy_init;
  symbol_ := Config.SYMBOL;
  stop_loss_pct := Config.STOP_LOSS_PCT;
  take_profit_pct := Config.TAKE_PROFIT_PCT;
  position := resumed;
  latest_analysis := None;
  storage_calls := []
|}.

Definition set_position (self : Trader) (p : option Position) (call : StorageCall) : Trader := {|
  strategy_ := strategy_ self;
  symbol_ := symbol_ self;
  stop_loss_pct := stop_loss_pct self;
  take_profit_pct := take_profit_pct self;
  position := p;
  latest_analysis := latest_analysis self;
  storage_calls := storage_calls self ++ [call]
|}.

Definition set_latest_analysis (self : Trader) (analysis : dict) : Trader := {|
  strategy_ := strategy_ self;
  symbol_ := symbol_ self;
  stop_loss_pct := stop_loss_pct self;
  take_profit_pct := take_profit_pct self;
  position := position self;
  latest_analysis := Some analysis;
  storage_calls := storage_calls self
|}.

(** [Trader.open_position(side, price)] *)
Definition open_position (self : Trader) (world : World) (side : string) (price : pyval)
  : Trader * outcome (option dict) :=
  match as_float price with
  | None => (self, Raised TypeError)
  | Some p =>
      let amount := 0.001 in
      let sl := p * (1 - stop_loss_pct self) in
      let tp := p * (1 + take_profit_pct self) in
      match create_order world (symbol_ self) "market" side amount with
      | Some order =>
          let trade_data := {| symbol := symbol_ self; type := side; entry_price := price;
                               amount := amount; sl := sl; tp := tp; id := None |} in
          let trade_id := save_trade world trade_data in
          let opened := {| symbol := symbol_ self; type := side; entry_price := price;
                           amount := amount; sl := sl; tp := tp; id := trade_id |} in
          (set_position self (Some opened) (SaveTrade trade_data),
           Returned (Some (list_to_map [("action", VStr "buy"); ("price", price);
                                        ("sl", VFloat sl); ("tp", VFloat tp)])))
      | None => (self, Returned None)
      end
  end.

(** [Trader.close_position(price, reason="Signal")] *)
Definition close_position (self : Trader) (world : World) (price : pyval) (reason : string)
  : Trader * outcome (option dict) :=
  match position self with
  | None => (self, Returned None)
  | Some p =>
      match create_order world (symbol_ self) "market" "sell" (amount p) with
      | Some order =>
          (set_position self None (CloseTrade (id p) price),
           Returned (Some (list_to_map [("action", VStr "sell"); ("price", price);
                                        ("reason", VStr reason)])))
      | None => (self, Returned None)
      end
  end.

(** Lines 33-55 of [run_analysis]: what is done with the analysis. *)
Definition trade (self : Trader) (world : World) (analysis : dict)
  : Trader * outcome (option dict) :=
  let signal := dict_get analysis "signal" in
  let price := dict_get analysis "price" in
  if is_str signal "buy" && negb (bool_decide (is_Some (position self))) then
    open_position self world "buy" price
  else if is_str signal "sell" && bool_decide (is_Some (position self)) then
    close_position self world price "Signal"
  else
    match position self with
    | Some p =>
        match as_float price with
        | None => (self, Raised TypeError)
        | Some pr =>
            if pr <=? sl p then close_position self world price "Stop Loss"
            else if pr >=? tp p then close_position self world price "Take Profit"
            else (self, Returned None)
        end
    | None => (self, Returned None)
    end.

(** [Trader.run_analysis()] *)
Definition run_analysis (self : Trader) (world : World) : Trader * outcome (option dict) :=
  let df := fetch_ohlcv world in
  if is_empty df then (self, Returned None)
  else
    match strategy.analyze (strategy_ self) df with
    | (_, Raised e) => (self, Raised e)
    | (_, Returned analysis) => trade (set_latest_analysis self analysis) world analysis
    end.

End trader.

(** ** The backtester ([src/bot/backtester.py]) *)
Module backtester.
Local Open Scope float_scope.

(** [self.position] of the backtester. *)
Record Position := {
  type : string;
  entry_price : float;
  entry_time : Z;
  amount_btc : float;
  amount_usd : float;
  sl : float;
  tp : float;
  reason : pyval
}.

(** An entry of [self.trades]; only a signal exit has the key ['reason']. *)
Record Trade := {
  t_entry_time : Z;
  t_exit_time : Z;
  t_entry_price : float;
  t_exit_price : float;
  pnl_usd : float;
  pnl_pct : float;
  exit_reason : string;
  t_reason : option pyval
}.

Record EquitySample := {
  e_timestamp : Z;
  equity : float
}.

Record Backtester := {
  strategy_ : strategy.Strategy;
  stop_loss_pct : float;
  take_profit_pct : float;
  trades : list Trade;
  equity_curve : list EquitySample;
  initial_capital : float;
  capital : float;
  position : option Position
}.

(** [Backtester()] *)
Definition Backtester_init : Backtester := {|
  strategy_ := strategy.Strategy_init;
  stop_loss_pct := Config.STOP_LOSS_PCT;
  take_profit_pct := Config.TAKE_PROFIT_PCT;
  trades := [];
  equity_curve := [];
  initial_capital := 10000;
  capital := 10000;
  position := None
|}.

Definition with_position (self : Backtester) (p : Position) : Backtester := {|
  strategy_ := strategy_ self;
  stop_loss_pct := stop_loss_pct self;
  take_profit_pct := take_profit_pct self;
  trades := trades self;
  equity_curve := equity_curve self;
  initial_capital := initial_capital self;
  capital := capital self;
  position := Some p
|}.

(** [self.capital += pnl; self.trades.append(trade); self.position = None] *)
Definition with_closed (self : Backtester) (t : Trade) : Backtester := {|
  strategy_ := strategy_ self;
  stop_loss_pct := stop_loss_pct self;
  take_profit_pct := take_profit_pct self;
  trades := trades self ++ [t];
  equity_curve := equity_curve self;
  initial_capital := initial_capital self;
  capital := capital self + pnl_usd t;
  position := None
|}.

(** [self.equity_curve.append(sample)] *)
Definition with_equity (self : Backtester) (e : EquitySample) : Backtester := {|
  strategy_ := strategy_ self;
  stop_loss_pct := stop_loss_pct self;
  take_profit_pct := take_profit_pct self;
  trades := trades self;
  equity_curve := equity_curve self ++ [e];
  initial_capital := initial_capital self;
  capital := capital self;
  position := position self
|}.

(** The trade record of a position closed at [exit_price]. *)
Definition closing_trade (p : Position) (exit_price : float) (timestamp : Z)
    (why : string) (note : option pyval) : Trade := {|
  t_entry_time := entry_time p;
  t_exit_time := timestamp;
  t_entry_price := entry_price p;
  t_exit_price := exit_price;
  pnl_usd := (exit_price - entry_price p) * amount_btc p;
  pnl_pct := (exit_price - entry_price p) / entry_price p * 100;
  exit_reason := why;
  t_reason := note
|}.

(** [Backtester.simulate_trade(signal, price, timestamp, analysis)]: the
    first branch needs [signal == 'buy'] and no position, the second
    [signal == 'sell'] and a position; the cases are split on the position
    first, to have it at hand. *)
Definition simulate_trade (self : Backtester) (signal : pyval) (price : float)
    (timestamp : Z) (analysis : dict) : Backtester :=
  match position self with
  | None =>
      if is_str signal "buy" then
        let amount_usd := capital self * 0.95 in
        let amount_btc := amount_usd / price in
        let sl_price := price * (1 - stop_loss_pct self) in
        let tp_price := price * (1 + take_profit_pct self) in
        with_position self
          {| type := "long"; entry_price := price; entry_time := timestamp;
             amount_btc := amount_btc; amount_usd := amount_usd;
             sl := sl_price; tp := tp_price;
             reason := dict_get_default analysis "reason" (VStr "") |}
      else self
  | Some p =>
      if is_str signal "buy" then self
      else if is_str signal "sell" then
        with_closed self
          (closing_trade p price timestamp "signal"
             (Some (dict_get_default analysis "reason" (VStr ""))))
      else self
  end.

(** [Backtester.check_stop_loss_take_profit(row)] *)
Definition check_stop_loss_take_profit (self : Backtester) (row : Candle) : Backtester :=
  match position self with
  | None => self
  | Some p =>
      let price_high := high row in
      let price_low := low row in
      if price_low <=? sl p then
        with_closed self (closing_trade p (sl p) (timestamp row) "stop_loss" None)
      else if price_high >=? tp p then
        with_closed self (closing_trade p (tp p) (timestamp row) "take_profit" None)
      else self
  end.

(** The window handed to the strategy for candle [i]:
    [df.iloc[max(0, i-100):i+1].copy()]. *)
Definition window (df : DataFrame) (i : nat) : DataFrame :=
  iloc_slice df (Nat.max 0 (i - 100)) (i + 1).

(** The body of the loop of [run_backtest] for index [i]. *)
Definition replay_candle (df : DataFrame) (self : Backtester) (i : nat)
  : outcome Backtester :=
  match strategy.analyze (strategy_ self) (window df i) with
  | (_, Raised e) => Raised e
  | (_, Returned analysis) =>
      match rows df !! i with
      | None => Raised IndexError
      | Some current_row =>
          let price := close current_row in
          let self := check_stop_loss_take_profit self current_row in
          let signal := dict_get analysis "signal" in
          let self :=
            if truthy signal
            then simulate_trade self signal price (timestamp current_row) analysis
            else self in
          let current_equity :=
            match position self with
            | Some p => capital self + (price - entry_price p) * amount_btc p
            | None => capital self
            end in
          Returned (with_equity self
                      {| e_timestamp := timestamp current_row; equity := current_equity |})
      end
  end.

(** [for i in range(200, len(df))] : the loop stops at the first exception. *)
Fixpoint replay (df : DataFrame) (self : Backtester) (indices : list nat)
  : outcome Backtester :=
  match indices with
  | [] => Returned self
  | i :: rest =>
      match replay_candle df self i with
      | Returned self' => replay df self' rest
      | Raised e => Raised e
      end
  end.

(** The figures that [generate_report] logs. *)
Record Report := {
  total_trades : nat;
  winning_trades : list Trade;
  losing_trades : list Trade;
  win_rate : float;
  total_pnl : float;
  avg_win : float;
  avg_loss : float;
  profit_factor : float;
  final_capital : float;
  total_return_pct : float;
  sl_exits : nat;
  tp_exits : nat;
  signal_exits : nat
}.

Definition sum_pnl (ts : list Trade) : float := pyfloat.fsum (map pnl_usd ts).

Definition count_exits (why : string) (ts : list Trade) : nat :=
  length (filter (fun t => exit_reason t = why) ts).

(** [Backtester.generate_report()]; [None] when it returns before computing
    anything ("No trades executed during backtest period"). *)
Definition generate_report (self : Backtester) : option Report :=
  match trades self with
  | [] => None
  | _ =>
      let total := length (trades self) in
      let winning := filter (fun t => (pnl_usd t >? 0) = true) (trades self) in
      let losing := filter (fun t => (pnl_usd t <=? 0) = true) (trades self) in
      Some {|
        total_trades := total;
        winning_trades := winning;
        losing_trades := losing;
        win_rate :=
          if (0 <? total)%nat
          then pyfloat.of_nat (length winning) / pyfloat.of_nat total * 100 else 0;
        total_pnl := sum_pnl (trades self);
        avg_win :=
          match winning with
          | [] => 0
          | _ => sum_pnl winning / pyfloat.of_nat (length winning)
          end;
        avg_loss :=
          match losing with
          | [] => 0
          | _ => sum_pnl losing / pyfloat.of_nat (length losing)
          end;
        profit_factor :=
          if negb (bool_decide (losing = [])) && (sum_pnl losing !=? 0)
          then abs (sum_pnl winning / sum_pnl losing)
          else infinity;
        final_capital := capital self;
        total_return_pct :=
          (capital self - initial_capital self) / initial_capital self * 100;
        sl_exits := count_exits "stop_loss" (trades self);
        tp_exits := count_exits "take_profit" (trades self);
        signal_exits := count_exits "signal" (trades self)
      |}
  end.

(** [Backtester.run_backtest()] on the frame that [fetch_historical_data]
    obtained from the exchange (an empty one makes it return at once). *)
Definition run_backtest (self : Backtester) (fetched : DataFrame)
  : outcome (Backtester * option Report) :=
  if is_empty fetched then Returned (self, None)
  else
    match replay fetched self (seq 200 (len fetched - 200)) with
    | Returned self' => Returned (self', generate_report self')
    | Raised e => Raised e
    end.

End backtester.

(** ** Sample inputs *)
Module samples.
Local Open Scope float_scope.

(** A one-minute candle that opens, trades and closes at [c], with volume 1. *)
Definition candle_of (t : nat) (c : float) : Candle := {|
  timestamp := Z.of_nat t * 60000;
  open := c; high := c; low := c; close := c;
  volume := 1
|}.

(** The frame that [fetch_ohlcv] builds from a list of closing prices. *)
Definition frame_of (closes : list float) : DataFrame :=
  {| rows := imap candle_of closes; columns := ∅ |}.

Definition flat (n : nat) : DataFrame := frame_of (replicate n 100).

(** 200 candles: flat at 100, a tick up to 101, then a drop to 94. *)
Definition falling : DataFrame := frame_of (replicate 198 100 ++ [101; 94]).

(** 200 candles: flat at 100, then 97, 96 and 94. *)
Definition sliding : DataFrame := frame_of (replicate 197 100 ++ [97; 96; 94]).

(** 201 candles: flat at 100, a dip and a recovery that ends at 100.25. *)
Definition rising : DataFrame :=
  frame_of (replicate 190 100 ++
            [98; 99.5; 102; 101.5; 98; 98; 99.75; 100; 99.5; 99.25; 100.25]).

(** Paper trading: every order is filled, every trade is stored. *)
Definition paper_world (df : DataFrame) : trader.World := {|
  trader.fetch_ohlcv := df;
  trader.create_order := fun _ _ side amount =>
    Some {| trader.order_side := side; trader.order_filled := amount |};
  trader.save_trade := fun _ => Some 1%Z
|}.

(** An exchange that rejects every order. *)
Definition failing_world (df : DataFrame) : trader.World := {|
  trader.fetch_ohlcv := df;
  trader.create_order := fun _ _ _ _ => None;
  trader.save_trade := fun _ => Some 1%Z
|}.

(** A live position bought at 100 with stop-loss 95 and take-profit 110. *)
Definition live_position : trader.Position := {|
  trader.symbol := Config.SYMBOL;
  trader.type := "buy";
  trader.entry_price := VFloat 100;
  trader.amount := 0.001;
  trader.sl := 95;
  trader.tp := 110;
  trader.id := Some 1%Z
|}.

(** The same position in a backtest, holding [amount] BTC. *)
Definition replay_position (amount : float) : backtester.Position := {|
  backtester.type := "long";
  backtester.entry_price := 100;
  backtester.entry_time := 0;
  backtester.amount_btc := amount;
  backtester.amount_usd := 100 * amount;
  backtester.sl := 95;
  backtester.tp := 110;
  backtester.reason := VStr ""
|}.

(** A backtester in the middle of a run. *)
Definition holding (p : option backtester.Position) (done : list backtester.Trade)
  : backtester.Backtester := {|
  backtester.strategy_ := strategy.Strategy_init;
  backtester.stop_loss_pct := Config.STOP_LOSS_PCT;
  backtester.take_profit_pct := Config.TAKE_PROFIT_PCT;
  backtester.trades := done;
  backtester.equity_curve := [];
  backtester.initial_capital := 10000;
  backtester.capital := 10000;
  backtester.position := p
|}.

(** A closed trade with the given profit or loss. *)
Definition trade_with_pnl (pnl : float) : backtester.Trade := {|
  backtester.t_entry_time := 0;
  backtester.t_exit_time := 60000;
  backtester.t_entry_price := 100;
  backtester.t_exit_price := 100 + pnl;
  backtester.pnl_usd := pnl;
  backtester.pnl_pct := pnl;
  backtester.exit_reason := "signal";
  backtester.t_reason := Some (VStr "")
|}.

End samples.

(** ** The exchange ([src/bot/exchange.py]) *)
Module exchange.

(** The interface with the ccxt client behind it: a client call either
    answers or raises ([None]). *)
Record ExchangeInterface := {
  paper_trading : bool;
  ccxt_fetch_ticker : string -> option dict;
  ccxt_create_order : string -> string -> string -> float -> option trader.Order
}.

(** [ExchangeInterface.get_ticker(symbol)]: an exception becomes [None]. *)
Definition get_ticker (self : ExchangeInterface) (symbol : string) : option dict :=
  ccxt_fetch_ticker self symbol.

(** [ExchangeInterface.create_order(symbol, type, side, amount)]: in paper
    trading the order is made up and the client is not called; otherwise an
    exception of the client becomes [None]. *)
Definition create_order (self : ExchangeInterface) (symbol kind side : string)
    (amount : float) : option trader.Order :=
  if paper_trading self
  then Some {| trader.order_side := side; trader.order_filled := amount |}
  else ccxt_create_order self symbol kind side amount.

End exchange.

(** ** The storage ([src/bot/storage.py])

    The table [trades] is the list of its rows in the order of their ids;
    rows are never deleted, so the AUTOINCREMENT id of a new row is one more
    than the largest id in the table.  The clock ([CURRENT_TIMESTAMP],
    [datetime.now()]) and a failure of the database are inputs of a call. *)
Module storage.
Local Open Scope float_scope.

(** A float bound to a parameter of a statement: SQLite stores NaN as
    NULL. *)
Definition bind (x : float) : option float := if is_nan x then None else Some x.

Record Row := {
  id : Z;
  symbol : string;
  type : string;
  entry_price : float;            (* REAL NOT NULL *)
  amount : float;                 (* REAL NOT NULL *)
  stop_loss : option float;
  take_profit : option float;
  status : string;
  entry_time : Z;
  exit_time : option Z;
  exit_price : option float;
  pnl : option float
}.

(** The values [save_trade] reads from [trade_data]; the trader passes
    numbers. *)
Record TradeData := {
  d_symbol : string;
  d_type : string;
  d_entry_price : float;
  d_amount : float;
  d_sl : float;
  d_tp : float
}.

Definition next_id (table : list Row) : Z :=
  (1 + foldr Z.max 0 (id <$> table))%Z.

(** [Storage.save_trade(trade_data)]: the table afterwards and the returned
    [cursor.lastrowid], or the table as it was and [None] on an exception (a
    database error, or a NOT NULL column that would receive NULL). *)
Definition save_trade (table : list Row) (db_error : bool) (now : Z) (data : TradeData)
  : list Row * option Z :=
  if db_error then (table, None)
  else
    match bind (d_entry_price data), bind (d_amount data) with
    | Some entry, Some size =>
        (table ++ [{| id := next_id table; symbol := d_symbol data; type := d_type data;
                      entry_price := entry; amount := size;
                      stop_loss := bind (d_sl data); take_profit := bind (d_tp data);
                      status := "open"; entry_time := now;
                      exit_time := None; exit_price := None; pnl := None |}],
         Some (next_id table))
    | _, _ => (table, None)
    end.

(** The dictionary [get_open_position] builds from a row. *)
Record OpenPosition := {
  p_id : Z;
  p_symbol : string;
  p_type : string;
  p_entry_price : float;
  p_amount : float;
  p_sl : option float;
  p_tp : option float
}.

(** [Storage.get_open_position(symbol)]: the first open row of the symbol. *)
Definition get_open_position (table : list Row) (sym : string) : option OpenPosition :=
  match filter (fun r => symbol r = sym ∧ status r = "open") table with
  | [] => None
  | row :: _ =>
      Some {| p_id := id row; p_symbol := symbol row; p_type := type row;
              p_entry_price := entry_price row; p_amount := amount row;
              p_sl := stop_loss row; p_tp := take_profit row |}
  end.

(** The UPDATE of [close_trade] on one row. *)
Definition closed_row (row : Row) (exit : float) (now : Z) (gain : float) : Row :=
  {| id := id row; symbol := symbol row; type := type row;
     entry_price := entry_price row; amount := amount row;
     stop_loss := stop_loss row; take_profit := take_profit row;
     status := "closed"; entry_time := entry_time row;
     exit_time := Some now; exit_price := bind exit; pnl := bind gain |}.

(** [Storage.close_trade(trade_id, exit_price)]: nothing happens when no row
    has the id, and an exception (a database error, or an exit price that
    cannot be subtracted from) is logged and leaves the table as it was. *)
Definition close_trade (table : list Row) (db_error : bool) (now : Z)
    (trade_id : option Z) (exit : pyval) : list Row :=
  if db_error then table
  else
    match trade_id with
    | None => table
    | Some i =>
        match filter (fun r => id r = i) table with
        | [] => table
        | row :: _ =>
            match as_float exit with
            | None => table
            | Some x =>
                let gain :=
                  if bool_decide (type row = "buy")
                  then (x - entry_price row) * amount row
                  else (entry_price row - x) * amount row in
                (fun r => if bool_decide (id r = i) then closed_row r x now gain else r)
                  <$> table
            end
        end
    end.

End storage.

(** ** The trading loop ([src/main.py]) *)
Module main.

(** The first iterations of [trading_loop], one per element of [worlds]:
    the trader at the end and the signals handed to the notifier.  An
    exception in a tick is logged and the loop goes on. *)
Fixpoint trading_loop (self : trader.Trader) (worlds : list trader.World)
  : trader.Trader * list dict :=
  match worlds with
  | [] => (self, [])
  | world :: rest =>
      let '(self', result) := trader.run_analysis self world in
      let sent :=
        match result with
        | Returned (Some signal_data) =>
            if bool_decide (size signal_data = 0) then [] else [signal_data]
        | _ => []
        end in
      let '(final, more) := trading_loop self' rest in
      (final, sent ++ more)
  end.

End main.

(** ** The status endpoint ([src/api/server.py]) *)
Module api.
Local Open Scope float_scope.

Inductive error := AttributeError | KeyError.

(** The dictionary [get_status] returns while a trader is set. *)
Record Status := {
  status : string;
  symbol : string;
  price : pyval;
  timeframe : string;
  high : pyval;
  low : pyval;
  volume : pyval;
  change : pyval;
  last_signal : pyval;
  signal_reason : pyval;
  rsi : pyval;
  macd : pyval;
  trend : pyval;
  volume_confirmed : pyval;
  volume_ratio : pyval
}.

Inductive Reply :=
  | Initializing          (* {"status": "initializing"} *)
  | Active (s : Status)
  | Failed (e : error).

(** [get_status()] with [bot_trader] and the answer of
    [bot_trader.exchange.get_ticker(bot_trader.symbol)]. *)
Definition get_status (bot_trader : option trader.Trader) (ticker : option dict) : Reply :=
  match bot_trader with
  | None => Initializing
  | Some t =>
      match ticker with
      | None => Failed AttributeError
      | Some tk =>
          let latest := default ∅ (trader.latest_analysis t) in
          let reply last := Active {|
            status := "active";
            symbol := trader.symbol_ t;
            price := last;
            timeframe := Config.TIMEFRAME;
            high := dict_get_default tk "high" (VFloat 0);
            low := dict_get_default tk "low" (VFloat 0);
            volume := dict_get_default tk "baseVolume" (VFloat 0);
            change := dict_get_default tk "percentage" (VFloat 0);
            last_signal := dict_get_default latest "signal" VNone;
            signal_reason := dict_get_default latest "reason" (VStr "Esperando datos...");
            rsi := dict_get_default latest "rsi" (VFloat 50);
            macd := dict_get_default latest "macd" (VFloat 0);
            trend := dict_get_default latest "trend" (VStr "neutral");
            volume_confirmed := dict_get_default latest "volume_confirmed" (VBool false);
            volume_ratio := dict_get_default latest "volume_ratio" (VFloat 1)
          |} in
          if bool_decide (size tk = 0%nat) then reply (VFloat 0)
          else
            match tk !! "last" with
            | Some last => reply last
            | None => Failed KeyError
            end
      end
  end.

End api.

(** ** The trader with its collaborators

    [Trader.__init__] creates the exchange interface and the storage that a
    tick calls; here a tick of the trader is run against them. *)
Module live.
Local Open Scope float_scope.

(** [trade_data] as [save_trade] reads it.  [open_position] has multiplied
    the price by a float before it builds the dictionary, so the price is a
    number there. *)
Definition trade_data (data : trader.Position) : option storage.TradeData :=
  entry ← as_float (trader.entry_price data);
  Some {| storage.d_symbol := trader.symbol data; storage.d_type := trader.type data;
          storage.d_entry_price := entry; storage.d_amount := trader.amount data;
          storage.d_sl := trader.sl data; storage.d_tp := trader.tp data |}.

(** What the exchange interface and the table answer during one tick. *)
Definition world (df : DataFrame) (ex : exchange.ExchangeInterface)
    (table : list storage.Row) (db_error : bool) (now : Z) : trader.World := {|
  trader.fetch_ohlcv := df;
  trader.create_order := exchange.create_order ex;
  trader.save_trade := fun data =>
    match trade_data data with
    | Some d => (storage.save_trade table db_error now d).2
    | None => None
    end
|}.

(** The effect on the table of a call that the trader made. *)
Definition store (table : list storage.Row) (db_error : bool) (now : Z)
    (call : trader.StorageCall) : list storage.Row :=
  match call with
  | trader.SaveTrade data =>
      match trade_data data with
      | Some d => (storage.save_trade table db_error now d).1
      | None => table
      end
  | trader.CloseTrade trade_id exit => storage.close_trade table db_error now trade_id exit
  end.

(** One tick: the trader, the table and the result afterwards.  The calls
    that the tick added to the trader's record are carried out on the
    table. *)
Definition tick (self : trader.Trader) (table : list storage.Row) (df : DataFrame)
    (ex : exchange.ExchangeInterface) (db_error : bool) (now : Z)
  : trader.Trader * list storage.Row * outcome (option dict) :=
  let '(self', result) := trader.run_analysis self (world df ex table db_error now) in
  (self',
   foldl (fun t call => store t db_error now call) table
     (drop (length (trader.storage_calls self)) (trader.storage_calls self')),
   result).

(** What one tick is given: the candles fetched, the exchange interface and
    the time. *)
Record Input := {
  candles : DataFrame;
  interface : exchange.ExchangeInterface;
  clock : Z
}.

(** Ticks in a row, the database never failing. *)
Fixpoint ticks (self : trader.Trader) (table : list storage.Row) (inputs : list Input)
  : trader.Trader * list storage.Row :=
  match inputs with
  | [] => (self, table)
  | input :: rest =>
      let '(self', table', _) :=
        tick self table (candles input) (interface input) false (clock input) in
      ticks self' table' rest
  end.

(** The position dictionary that [open_position] builds at the price
    [price], with the id that the storage returned. *)
Definition opened (self : trader.Trader) (price : float) (trade_id : option Z)
  : trader.Position := {|
  trader.symbol := trader.symbol_ self;
  trader.type := "buy";
  trader.entry_price := VFloat price;
  trader.amount := 0.001;
  trader.sl := price * (1 - trader.stop_loss_pct self);
  trader.tp := price * (1 + trader.take_profit_pct self);
  trader.id := trade_id
|}.

(** The open rows of the trader's symbol. *)
Definition open_rows (self : trader.Trader) (table : list storage.Row) : list storage.Row :=
  filter (fun r => storage.symbol r = trader.symbol_ self ∧ storage.status r = "open") table.

(** The trader holds what the table holds: no position and no open row of
    the symbol, or one open row and the position with its values. *)
Definition in_sync (self : trader.Trader) (table : list storage.Row) : Prop :=
  NoDup (storage.id <$> table)
  ∧ match trader.position self with
    | None => open_rows self table = []
    | Some p =>
        ∃ row, open_rows self table = [row]
          ∧ storage.stop_loss row = Some (trader.sl p)
          ∧ storage.take_profit row = Some (trader.tp p)
          ∧ p = {| trader.symbol := storage.symbol row; trader.type := storage.type row;
                   trader.entry_price := VFloat (storage.entry_price row);
                   trader.amount := storage.amount row;
                   trader.sl := trader.sl p; trader.tp := trader.tp p;
                   trader.id := Some (storage.id row) |}
    end.

(** What [Trader()] would load from the table is the position held. *)
Definition resumes (self : trader.Trader) (table : list storage.Row) : Prop :=
  match trader.position self with
  | None => storage.get_open_position table (trader.symbol_ self) = None
  | Some p =>
      ∃ i entry,
        trader.id p = Some i ∧ trader.entry_price p = VFloat entry
        ∧ storage.get_open_position table (trader.symbol_ self)
          = Some {| storage.p_id := i; storage.p_symbol := trader.symbol p;
                    storage.p_type := trader.type p; storage.p_entry_price := entry;
                    storage.p_amount := trader.amount p;
                    storage.p_sl := Some (trader.sl p); storage.p_tp := Some (trader.tp p) |}
  end.

End live.

(** A signal handed to the notifier tells what the trader asked of the
    storage in a call. *)
Definition announces (signal_data : dict) (call : trader.StorageCall) : Prop :=
  match call with
  | trader.SaveTrade data =>
      signal_data !! "action" = Some (VStr "buy")
      ∧ signal_data !! "price" = Some (trader.entry_price data)
      ∧ signal_data !! "sl" = Some (VFloat (trader.sl data))
      ∧ signal_data !! "tp" = Some (VFloat (trader.tp data))
  | trader.CloseTrade _ exit =>
      signal_data !! "action" = Some (VStr "sell")
      ∧ signal_data !! "price" = Some exit
  end.

(** Buys and sells in turn, a sell first when a position is held. *)
Fixpoint alternates (holding : bool) (actions : list pyval) : Prop :=
  match actions with
  | [] => True
  | action :: rest =>
      action = VStr (if holding then "sell" else "buy") ∧ alternates (negb holding) rest
  end.

(** ** Fetching the history ([Backtester.fetch_historical_data]) *)
Module history.

Definition candles_per_day (timeframe : string) : Z :=
  if bool_decide (timeframe = "15m") then 96%Z
  else if bool_decide (timeframe = "1h") then 24%Z
  else if bool_decide (timeframe = "5m") then 288%Z
  else 1440%Z.

(** The [limit] passed to [fetch_ohlcv]. *)
Definition request_limit (days : Z) (timeframe : string) : Z :=
  Z.min (days * candles_per_day timeframe) 1000%Z.

(** [fetch_historical_data()] for [self.symbol], [self.days] and
    [self.timeframe], with the exchange's [fetch_ohlcv(symbol, timeframe,
    limit)]. *)
Definition fetch_historical_data (symbol : string) (days : Z) (timeframe : string)
    (fetch_ohlcv : string -> string -> Z -> DataFrame) : option DataFrame :=
  let df := fetch_ohlcv symbol timeframe (request_limit days timeframe) in
  if is_empty df then None else Some df.

End history.

(** ** More sample inputs *)
Module more_samples.
Local Open Scope float_scope.

(** A strategy with short periods, whose warm-up is three candles. *)
Definition quick_strategy : strategy.Strategy := {|
  strategy.ema_trend := 3;
  strategy.ema_fast := 2;
  strategy.ema_slow := 3;
  strategy.volume_period := 2;
  strategy.volume_multiplier := 0.5;
  strategy.rsi_period := 3;
  strategy.rsi_min := 40;
  strategy.rsi_max := 70;
  strategy.rsi_exit := 75;
  strategy.macd_fast := 2;
  strategy.macd_slow := 3;
  strategy.macd_signal := 2
|}.

(** A backtester in its initial state, with the quick strategy. *)
Definition quick_backtester : backtester.Backtester := {|
  backtester.strategy_ := quick_strategy;
  backtester.stop_loss_pct := Config.STOP_LOSS_PCT;
  backtester.take_profit_pct := Config.TAKE_PROFIT_PCT;
  backtester.trades := [];
  backtester.equity_curve := [];
  backtester.initial_capital := 10000;
  backtester.capital := 10000;
  backtester.position := None
|}.

(** Ten candles of a choppy market. *)
Definition choppy : DataFrame :=
  samples.frame_of [102.5; 101.5; 100; 104; 96; 97.5; 104; 96; 102; 100].

End more_samples.

(** ** The ledger of a replay step

    What a step of the replay does to the books: the trades [new] are
    appended, each has one of the three exit reasons, the capital grows by
    their PnL in turn, and the initial capital and the strategy stay. *)
Definition books (before after : backtester.Backtester) (new : list backtester.Trade) : Prop :=
  backtester.trades after = backtester.trades before ++ new
  ∧ Forall (fun t => backtester.exit_reason t ∈ ["signal"; "stop_loss"; "take_profit"]) new
  ∧ backtester.capital after
    = fold_left PrimFloat.add (map backtester.pnl_usd new) (backtester.capital before)
  ∧ backtester.initial_capital after = backtester.initial_capital before
  ∧ backtester.strategy_ after = backtester.strategy_ before.

(** ** Windows over one value

    The variables of [roll_mean] while every value it has counted is [v]:
    the run of equal values is at least as long as the count, and the value
    seen last is [v]. *)
Definition counts_only (v : float) (st : pd.Roll) : Prop :=
  (pd.nobs st ≤ pd.num_consecutive_same_value st)%nat
  ∧ ((0 < pd.nobs st)%nat → pd.prev_value st = v).

(** ** Checks and their trail

    The trail of a sequence of checks as the specification words it: each
    check is recorded as passed, up to the first one that fails, which is
    recorded as failed and ends the trail. *)
Fixpoint recorded_checks (checks : list (bool * ReasonItem * ReasonItem)) : list ReasonItem :=
  match checks with
  | [] => []
  | (holds, passed, failed) :: rest =>
      if holds then passed :: recorded_checks rest else [failed]
  end.

(** The entry [key] of the dictionary a call returned ([None] when the call
    raised or the key is absent). *)
Definition answer (o : outcome dict) (key : string) : option pyval :=
  match o with
  | Returned d => d !! key
  | Raised _ => None
  end.

(** The entry [key] of the action dictionary a trader call returned ([None]
    when it returned [None] or raised). *)
Definition reported (o : outcome (option dict)) (key : string) : option pyval :=
  match o with
  | Returned (Some d) => d !! key
  | _ => None
  end.

(** Case analysis on the float comparisons of the goal, one at a time. *)
Ltac case_float_tests :=
  repeat (match goal with
          | |- context [PrimFloat.ltb ?a ?b] => destruct (PrimFloat.ltb a b) eqn:?
          | |- context [PrimFloat.leb ?a ?b] => destruct (PrimFloat.leb a b) eqn:?
          end; simpl).

(** * Properties *)

(** ** Series keep their length *)
Section series_lengths.
Local Open Scope float_scope.

Lemma length_ewm_from com st xs : length (pd.ewm_from com st xs) = length xs.
Proof.
  revert st. induction xs as [|x xs IH]; intros st; simpl; [done|].
  by rewrite IH.
Qed.

Lemma length_ewm_mean span xs : length (pd.ewm_mean span xs) = length xs.
Proof. destruct xs as [|x xs]; simpl; [done|]. by rewrite length_ewm_from. Qed.

Lemma length_roll_loop w values st i turns :
  length (pd.roll_loop w values st i turns) = turns.
Proof.
  revert st i. induction turns as [|turns IH]; intros st i; simpl; [done|].
  by rewrite IH.
Qed.

Lemma length_rolling_mean w xs : length (pd.rolling_mean w xs) = length xs.
Proof.
  unfold pd.rolling_mean. destruct (w =? 0)%nat; [by rewrite length_map|].
  by rewrite length_roll_loop.
Qed.

Lemma length_diff xs : length (pd.diff xs) = length xs.
Proof.
  destruct xs as [|x xs]; [done|].
  unfold pd.diff. rewrite length_cons, length_zip_with, !length_cons. lia.
Qed.

Lemma length_calculate_rsi xs period :
  length (strategy.calculate_rsi xs period) = length xs.
Proof.
  unfold strategy.calculate_rsi, pd.where_.
  rewrite length_map, length_zip_with, !length_rolling_mean, !length_map, length_diff.
  lia.
Qed.

Lemma length_calculate_macd xs fast slow signal :
  length (strategy.calculate_macd xs fast slow signal).1 = length xs
  ∧ length (strategy.calculate_macd xs fast slow signal).2 = length xs.
Proof.
  unfold strategy.calculate_macd. simpl.
  rewrite length_ewm_mean, length_zip_with, !length_ewm_mean. lia.
Qed.

End series_lengths.

(** The window kernels on small series: the EMA keeps a flat series as it
    is and passes over a NaN; the rolling mean is the compensated one (the
    plain sum of these twenty values, divided by 20, is
    0.37999999999999995), counts no NaN and reads an infinity as NaN. *)
Example window_kernels :
  strategy.calculate_ema [100; 100; 100; 100]%float 200 = [100; 100; 100; 100]%float
  ∧ strategy.calculate_ema [1; nan; 3; 4]%float 3 = [1; 1; 2.5; 3.25]%float
  ∧ last (pd.rolling_mean 20 (replicate 19 0.39 ++ [0.19])%float) = Some 0.38%float
  ∧ (pyfloat.fsum (replicate 19 0.39 ++ [0.19]) / 20 = 0.37999999999999995)%float
  ∧ is_nan <$> pd.rolling_mean 3 [1; 2; nan; 4; 5; 6; infinity; 8; 9; 10]%float
    = [true; true; true; true; true; false; true; true; true; false].
Proof. vm_compute. by split_and!. Qed.

(** ** The frame after [add_indicators] *)
Section frame_after_indicators.
Variables (self : strategy.Strategy) (df : DataFrame).

Lemma rows_add_indicators : rows (strategy.add_indicators self df) = rows df.
Proof. unfold strategy.add_indicators, strategy.calculate_macd. reflexivity. Qed.

Lemma len_add_indicators : len (strategy.add_indicators self df) = len df.
Proof. unfold len. by rewrite rows_add_indicators. Qed.

Lemma column_add_indicators name :
  name ∈ strategy.indicator_columns →
  ∃ series, columns (strategy.add_indicators self df) !! name = Some series
            ∧ length series = len df.
Proof.
  unfold strategy.indicator_columns, strategy.add_indicators, strategy.calculate_macd,
    strategy.calculate_ema, set_column, len.
  simpl. intros Hin.
  repeat (apply elem_of_cons in Hin as [->|Hin]);
    [ .. | by apply elem_of_nil in Hin ];
    eexists; (split; [ by simplify_map_eq | ]).
  all: rewrite ?length_ewm_mean, ?length_calculate_rsi, ?length_rolling_mean,
         ?length_zip_with, ?length_ewm_mean, ?length_map.
  all: lia.
Qed.

Lemma iloc_add_indicators i :
  (i < len df)%nat → is_Some (strategy.iloc (strategy.add_indicators self df) i).
Proof.
  intros Hi. unfold strategy.iloc. rewrite rows_add_indicators.
  destruct (lookup_lt_is_Some_2 (rows df) i Hi) as [c ->].
  assert (Hcol : ∀ name, name ∈ strategy.indicator_columns →
            ∃ v, columns (strategy.add_indicators self df) !! name ≫= (.!! i) = Some v).
  { intros name Hin.
    destruct (column_add_indicators name Hin) as (series & -> & Hlen).
    apply (lookup_lt_is_Some_2 series i). lia. }
  destruct (Hcol "ema_trend") as [? ->]; [by repeat constructor|].
  destruct (Hcol "ema_fast") as [? ->]; [by repeat constructor|].
  destruct (Hcol "ema_slow") as [? ->]; [by repeat constructor|].
  destruct (Hcol "rsi") as [? ->]; [by repeat constructor|].
  destruct (Hcol "macd") as [? ->]; [by repeat constructor|].
  destruct (Hcol "macd_signal") as [? ->]; [by repeat constructor|].
  destruct (Hcol "volume_avg") as [? ->]; [by repeat constructor|].
  simpl. eauto.
Qed.

Lemma iloc_back_add_indicators k :
  (1 ≤ k ≤ len df)%nat →
  is_Some (strategy.iloc_back (strategy.add_indicators self df) k).
Proof.
  intros Hk. unfold strategy.iloc_back. rewrite len_add_indicators.
  destruct (Nat.ltb_spec (len df) k) as [?|_]; [lia|].
  apply iloc_add_indicators. lia.
Qed.

(** On a series that passes the guard and has two rows, [analyze] returns
    the decision on its last two rows. *)
Lemma analyze_sufficient :
  strategy.insufficient self df = false → (2 ≤ len df)%nat →
  ∃ last prev,
    strategy.iloc_back (strategy.add_indicators self df) 1 = Some last
    ∧ strategy.iloc_back (strategy.add_indicators self df) 2 = Some prev
    ∧ strategy.analyze self df
      = (strategy.add_indicators self df, Returned (strategy.evaluate self last prev)).
Proof.
  intros Hguard Hlen.
  destruct (iloc_back_add_indicators 1) as [last Hlast]; [lia|].
  destruct (iloc_back_add_indicators 2) as [prev Hprev]; [lia|].
  exists last, prev. split_and!; [done..|].
  unfold strategy.analyze. by rewrite Hguard, Hlast, Hprev.
Qed.

Lemma analyze_insufficient :
  strategy.insufficient self df = true →
  strategy.analyze self df = (df, Returned strategy.insufficient_data).
Proof. intros Hguard. unfold strategy.analyze. by rewrite Hguard. Qed.

(** The guard lets through exactly the non-empty frames with at least
    [max(ema_trend, macd_slow)] rows. *)
Lemma insufficient_false :
  strategy.insufficient self df = false
  ↔ (Nat.max (strategy.ema_trend self) (strategy.macd_slow self) ≤ len df)%nat
    ∧ (1 ≤ len df)%nat.
Proof.
  unfold strategy.insufficient, strategy.warmup, is_empty.
  rewrite orb_false_iff, Nat.ltb_ge, bool_decide_eq_false. lia.
Qed.

End frame_after_indicators.

(** ** The decision of [analyze] *)
Section decision.
Local Open Scope float_scope.
Variables (self : strategy.Strategy) (last prev : strategy.Row).

Lemma evaluate_signal :
  strategy.evaluate self last prev !! "signal"
  = Some (strategy.sell_conditions self last prev
            (strategy.buy_conditions self last prev)).1.
Proof.
  unfold strategy.evaluate.
  destruct (strategy.sell_conditions _ _ _ _) as [signal reason]. reflexivity.
Qed.

Lemma buy_conditions_trail_nonempty :
  (strategy.buy_conditions self last prev).2 ≠ [].
Proof. unfold strategy.buy_conditions. repeat case_match; simpl; discriminate. Qed.

Lemma sell_conditions_trail_nonempty tentative :
  tentative.2 ≠ [] → (strategy.sell_conditions self last prev tentative).2 ≠ [].
Proof. unfold strategy.sell_conditions. repeat case_match; simpl; done. Qed.

Lemma evaluate_reason :
  strategy.evaluate self last prev !! "reason"
  = Some (VJoined (strategy.sell_conditions self last prev
                     (strategy.buy_conditions self last prev)).2).
Proof.
  pose proof (sell_conditions_trail_nonempty _ buy_conditions_trail_nonempty) as Hne.
  unfold strategy.evaluate.
  destruct (strategy.sell_conditions _ _ _ _) as [signal [|item reason]]; [done|].
  reflexivity.
Qed.

Lemma evaluate_price :
  strategy.evaluate self last prev !! "price" = Some (VFloat (strategy.r_close last)).
Proof.
  unfold strategy.evaluate.
  destruct (strategy.sell_conditions _ _ _ _) as [signal reason]. reflexivity.
Qed.

End decision.

Local Open Scope float_scope.

(** C3. On every series with at least [max(ema_trend, macd_slow)] candles
    (and the two rows that are read) [analyze] answers [buy] exactly when the
    price is above the trend EMA, the RSI lies in [[rsi_min, rsi_max]], the
    MACD crossed its signal line upwards, the volume exceeds
    [volume_avg * volume_multiplier], the price crossed above the slow EMA or
    lies within 0.5% of the fast EMA, and none of the three sell conditions
    holds.  When no sell condition holds, the reason is the trail of these
    checks: those passed, then the first one that failed.  The configured
    multiplier is 0.5. *)
Theorem buy_signal_conditions (self : strategy.Strategy) (df : DataFrame) :
  (Nat.max (strategy.ema_trend self) (strategy.macd_slow self) ≤ len df)%nat →
  (2 ≤ len df)%nat →
  ∃ (last prev : strategy.Row) (result : dict),
    strategy.iloc_back (strategy.add_indicators self df) 1 = Some last
    ∧ strategy.iloc_back (strategy.add_indicators self df) 2 = Some prev
    ∧ (strategy.analyze self df).2 = Returned result
    ∧ let price := strategy.r_close last in
      let rsi := strategy.r_rsi last in
      let macd := strategy.r_macd last in
      let macd_signal := strategy.r_macd_signal last in
      let ema_slow := strategy.r_ema_slow last in
      let volume := strategy.r_volume last in
      let volume_avg := strategy.r_volume_avg last in
      let prev_price := strategy.r_close prev in
      let prev_macd := strategy.r_macd prev in
      let prev_macd_signal := strategy.r_macd_signal prev in
      let prev_ema_slow := strategy.r_ema_slow prev in
      let uptrend := price >? strategy.r_ema_trend last in
      let rsi_in_range := (strategy.rsi_min self <=? rsi) && (rsi <=? strategy.rsi_max self) in
      let bullish_cross := (prev_macd <? prev_macd_signal) && (macd >? macd_signal) in
      let volume_ok := volume >? volume_avg * strategy.volume_multiplier self in
      let crossed_above := (prev_price <? prev_ema_slow) && (price >? ema_slow) in
      let near_fast := abs (price - strategy.r_ema_fast last) / price <? 0.005 in
      let sell_override :=
        (rsi >? strategy.rsi_exit self)
        || ((prev_macd >? prev_macd_signal) && (macd <? macd_signal))
        || ((prev_price >? prev_ema_slow) && (price <? ema_slow)) in
      (result !! "signal" = Some (VStr "buy")
       ↔ uptrend && rsi_in_range && bullish_cross && volume_ok
         && (crossed_above || near_fast) && negb sell_override = true)
      ∧ (sell_override = false →
         result !! "reason"
         = Some (VJoined (recorded_checks [
             (uptrend, OkUptrend, Downtrend);
             (rsi_in_range, OkRsiHealthy rsi, RsiOutOfRange rsi);
             (bullish_cross, OkMacdBullish, NoMacdBullish);
             (volume_ok, OkVolume (volume / volume_avg), LowVolume (volume / volume_avg));
             (crossed_above || near_fast,
              if crossed_above then OkCrossedAboveEma50 else OkNearEma20,
              NoEmaEntry)])))
      ∧ strategy.volume_multiplier strategy.Strategy_init = 0.5.
Proof.
  intros Hwarm Hlen.
  assert (Hguard : strategy.insufficient self df = false)
    by (apply insufficient_false; lia).
  destruct (analyze_sufficient self df Hguard Hlen) as (last & prev & Hlast & Hprev & Hrun).
  exists last, prev, (strategy.evaluate self last prev).
  split_and!; [done|done|by rewrite Hrun|].
  cbv zeta. rewrite evaluate_signal, evaluate_reason.
  unfold strategy.sell_conditions, strategy.buy_conditions, strategy.trend,
    strategy.volume_confirmed, strategy.macd_bullish_cross, strategy.macd_bearish_cross,
    strategy.price_cross_above_ema50, strategy.price_bounce_ema20,
    strategy.price_cross_below_ema50, pyfloat.gtb.
  split_and!; [..|reflexivity].
  - case_float_tests; split; (discriminate || reflexivity).
  - case_float_tests; (discriminate || reflexivity).
Qed.

(** Witness for C3: the rising sample has 201 rows, the warm-up asks for 200. *)
Lemma buy_signal_conditions_witness :
  (Nat.max (strategy.ema_trend strategy.Strategy_init)
     (strategy.macd_slow strategy.Strategy_init) ≤ len samples.rising)%nat
  ∧ (2 ≤ len samples.rising)%nat
  ∧ ∃ (last prev : strategy.Row) (result : dict),
      strategy.iloc_back (strategy.add_indicators strategy.Strategy_init samples.rising) 1
      = Some last
      ∧ strategy.iloc_back (strategy.add_indicators strategy.Strategy_init samples.rising) 2
        = Some prev
      ∧ (strategy.analyze strategy.Strategy_init samples.rising).2 = Returned result.
Proof.
  assert (Hwarm : (Nat.max (strategy.ema_trend strategy.Strategy_init)
                     (strategy.macd_slow strategy.Strategy_init)
                   ≤ len samples.rising)%nat) by (vm_compute; lia).
  assert (Hlen : (2 ≤ len samples.rising)%nat) by (vm_compute; lia).
  split_and!; [exact Hwarm|exact Hlen|].
  destruct (buy_signal_conditions strategy.Strategy_init samples.rising Hwarm Hlen)
    as (last & prev & result & Hlast & Hprev & Hrun & _).
  exists last, prev, result. split_and!; assumption.
Defined.

(** On the rising sample the answer is [buy], with the full trail; one
    candle earlier it is no signal. *)
Example rising_sample_buys :
  answer (strategy.analyze strategy.Strategy_init samples.rising).2 "signal"
  = Some (VStr "buy")
  ∧ answer (strategy.analyze strategy.Strategy_init samples.rising).2 "reason"
    = Some (VJoined [OkUptrend; OkRsiHealthy 50.909090909090914; OkMacdBullish;
                     OkVolume 1; OkCrossedAboveEma50])
  ∧ answer (strategy.analyze strategy.Strategy_init (iloc_slice samples.rising 0 200)).2
      "signal" = Some VNone.
Proof. vm_compute. split_and!; reflexivity. Qed.

(** C4. On every series with at least [max(ema_trend, macd_slow)] candles
    (and the two rows that are read), whatever the buy conditions gave, the
    sell conditions are tried in the order: RSI above [rsi_exit], then a
    bearish MACD cross, then the price crossing below the slow EMA.  The
    first that holds makes the signal [sell] with its own one-entry reason,
    also when the buy conditions had all passed; when none holds the signal
    is what the buy conditions gave. *)
Theorem sell_overrides_in_priority_order (self : strategy.Strategy) (df : DataFrame) :
  (Nat.max (strategy.ema_trend self) (strategy.macd_slow self) ≤ len df)%nat →
  (2 ≤ len df)%nat →
  ∃ (last prev : strategy.Row) (result : dict),
    strategy.iloc_back (strategy.add_indicators self df) 1 = Some last
    ∧ strategy.iloc_back (strategy.add_indicators self df) 2 = Some prev
    ∧ (strategy.analyze self df).2 = Returned result
    ∧ let price := strategy.r_close last in
      let rsi := strategy.r_rsi last in
      let macd := strategy.r_macd last in
      let macd_signal := strategy.r_macd_signal last in
      let ema_slow := strategy.r_ema_slow last in
      let prev_price := strategy.r_close prev in
      let prev_macd := strategy.r_macd prev in
      let prev_macd_signal := strategy.r_macd_signal prev in
      let prev_ema_slow := strategy.r_ema_slow prev in
      let overbought := rsi >? strategy.rsi_exit self in
      let bearish_cross := (prev_macd >? prev_macd_signal) && (macd <? macd_signal) in
      let crossed_below := (prev_price >? prev_ema_slow) && (price <? ema_slow) in
      (overbought = true →
         result !! "signal" = Some (VStr "sell")
         ∧ result !! "reason" = Some (VJoined [ExtremeOverbought rsi]))
      ∧ (overbought = false → bearish_cross = true →
         result !! "signal" = Some (VStr "sell")
         ∧ result !! "reason" = Some (VJoined [MacdBearish]))
      ∧ (overbought = false → bearish_cross = false → crossed_below = true →
         result !! "signal" = Some (VStr "sell")
         ∧ result !! "reason" = Some (VJoined [CrossedBelowEma50]))
      ∧ (overbought = false → bearish_cross = false → crossed_below = false →
         result !! "signal" = Some (strategy.buy_conditions self last prev).1
         ∧ result !! "signal" ≠ Some (VStr "sell")).
Proof.
  intros Hwarm Hlen.
  assert (Hguard : strategy.insufficient self df = false)
    by (apply insufficient_false; lia).
  destruct (analyze_sufficient self df Hguard Hlen) as (last & prev & Hlast & Hprev & Hrun).
  exists last, prev, (strategy.evaluate self last prev).
  split_and!; [done|done|by rewrite Hrun|].
  cbv zeta. rewrite evaluate_signal, evaluate_reason.
  unfold strategy.sell_conditions, strategy.macd_bearish_cross,
    strategy.price_cross_below_ema50.
  split_and!.
  - by intros ->.
  - by intros -> ->.
  - by intros -> -> ->.
  - intros -> -> ->. split; [done|].
    unfold strategy.buy_conditions. repeat case_match; simpl; discriminate.
Qed.

(** Witness for C4: the falling sample has 200 rows, the warm-up asks for 200. *)
Lemma sell_overrides_in_priority_order_witness :
  (Nat.max (strategy.ema_trend strategy.Strategy_init)
     (strategy.macd_slow strategy.Strategy_init) ≤ len samples.falling)%nat
  ∧ (2 ≤ len samples.falling)%nat
  ∧ ∃ (last prev : strategy.Row) (result : dict),
      strategy.iloc_back (strategy.add_indicators strategy.Strategy_init samples.falling) 1
      = Some last
      ∧ strategy.iloc_back (strategy.add_indicators strategy.Strategy_init samples.falling) 2
        = Some prev
      ∧ (strategy.analyze strategy.Strategy_init samples.falling).2 = Returned result.
Proof.
  assert (Hwarm : (Nat.max (strategy.ema_trend strategy.Strategy_init)
                     (strategy.macd_slow strategy.Strategy_init)
                   ≤ len samples.falling)%nat) by (vm_compute; lia).
  assert (Hlen : (2 ≤ len samples.falling)%nat) by (vm_compute; lia).
  split_and!; [exact Hwarm|exact Hlen|].
  destruct (sell_overrides_in_priority_order strategy.Strategy_init samples.falling
              Hwarm Hlen)
    as (last & prev & result & Hlast & Hprev & Hrun & _).
  exists last, prev, result. split_and!; assumption.
Defined.

(** On the falling sample the bearish MACD cross sells at 94. *)
Example falling_sample_sells :
  answer (strategy.analyze strategy.Strategy_init samples.falling).2 "signal"
  = Some (VStr "sell")
  ∧ answer (strategy.analyze strategy.Strategy_init samples.falling).2 "reason"
    = Some (VJoined [MacdBearish])
  ∧ answer (strategy.analyze strategy.Strategy_init samples.falling).2 "price"
    = Some (VFloat 94).
Proof. vm_compute. split_and!; reflexivity. Qed.

(** A tentative buy that the third sell condition overrides: every buy
    condition holds on these two rows, yet the price has just fallen below
    the slow EMA. *)
Example tentative_buy_is_overridden :
  let last := {| strategy.r_close := 100; strategy.r_volume := 1;
                 strategy.r_ema_trend := 99; strategy.r_ema_fast := 100;
                 strategy.r_ema_slow := 101; strategy.r_rsi := 50;
                 strategy.r_macd := 1; strategy.r_macd_signal := 0;
                 strategy.r_volume_avg := 1 |} in
  let prev := {| strategy.r_close := 102; strategy.r_volume := 1;
                 strategy.r_ema_trend := 99; strategy.r_ema_fast := 100;
                 strategy.r_ema_slow := 101; strategy.r_rsi := 50;
                 strategy.r_macd := -1; strategy.r_macd_signal := 0;
                 strategy.r_volume_avg := 1 |} in
  (strategy.buy_conditions strategy.Strategy_init last prev).1 = VStr "buy"
  ∧ strategy.evaluate strategy.Strategy_init last prev !! "signal" = Some (VStr "sell")
  ∧ strategy.evaluate strategy.Strategy_init last prev !! "reason"
    = Some (VJoined [CrossedBelowEma50]).
Proof. vm_compute. split_and!; reflexivity. Qed.

(** C6. A series with fewer candles than
    [max(ema_trend, macd_slow)], and the empty series in any case, makes
    [analyze] return (not raise) the dictionary
    [{'signal': None, 'reason': 'Insufficient data'}]: these two keys and no
    indicator field; the frame is left as it was. *)
Theorem insufficient_data_on_short_series (self : strategy.Strategy) (df : DataFrame) :
  (len df < Nat.max (strategy.ema_trend self) (strategy.macd_slow self))%nat
  ∨ rows df = [] →
  ∃ result : dict,
    strategy.analyze self df = (df, Returned result)
    ∧ result !! "signal" = Some VNone
    ∧ result !! "reason" = Some (VStr "Insufficient data")
    ∧ ∀ key, is_Some (result !! key) ↔ key = "signal" ∨ key = "reason".
Proof.
  intros Hshort. exists strategy.insufficient_data.
  split_and!; [|reflexivity|reflexivity|].
  - apply analyze_insufficient. unfold strategy.insufficient, strategy.warmup, is_empty, len.
    destruct Hshort as [Hlt| ->].
    + apply orb_true_iff. right. by apply Nat.ltb_lt.
    + reflexivity.
  - intros key. unfold strategy.insufficient_data.
    rewrite <- elem_of_dom, dom_list_to_map_L, elem_of_list_to_set. simpl.
    rewrite !elem_of_cons, elem_of_nil. tauto.
Qed.

(** Witness for C6: the empty frame under the configured strategy. *)
Lemma insufficient_data_on_short_series_witness :
  ((len empty_frame
    < Nat.max (strategy.ema_trend strategy.Strategy_init)
        (strategy.macd_slow strategy.Strategy_init))%nat
   ∨ rows empty_frame = [])
  ∧ ∃ result : dict,
      strategy.analyze strategy.Strategy_init empty_frame = (empty_frame, Returned result)
      ∧ result !! "signal" = Some VNone
      ∧ result !! "reason" = Some (VStr "Insufficient data")
      ∧ ∀ key, is_Some (result !! key) ↔ key = "signal" ∨ key = "reason".
Proof.
  assert (Hshort : (len empty_frame
                    < Nat.max (strategy.ema_trend strategy.Strategy_init)
                        (strategy.macd_slow strategy.Strategy_init))%nat
                   ∨ rows empty_frame = []) by (right; reflexivity).
  split; [exact Hshort|].
  exact (insufficient_data_on_short_series strategy.Strategy_init empty_frame Hshort).
Defined.

(** ** The replay ledger *)

(** C5 (as the code has it). Replay: an open position meets a candle whose
    low is at or below its stop-loss; the position is closed, one trade is
    appended whose exit price is exactly the stop-loss price, whose exit
    reason is [stop_loss] and whose PnL is [(stop_loss - entry) * amount],
    and the capital grows by that PnL.  Nothing is assumed about the
    candle's high: the stop-loss exit is taken also when the high reaches
    the take-profit.  Live: the trader never looks at a candle's low; when
    the tick acts on no signal and the last price is at or below the
    stop-loss (tested before the take-profit), it closes at that last price,
    with the reason "Stop Loss". *)
Theorem stop_loss_exit :
  (∀ (self : backtester.Backtester) (p : backtester.Position) (row : Candle),
      backtester.position self = Some p →
      (low row <=? backtester.sl p) = true →
      ∃ t : backtester.Trade,
        backtester.check_stop_loss_take_profit self row
        = backtester.with_closed self t
        ∧ backtester.position (backtester.check_stop_loss_take_profit self row) = None
        ∧ backtester.trades (backtester.check_stop_loss_take_profit self row)
          = backtester.trades self ++ [t]
        ∧ backtester.capital (backtester.check_stop_loss_take_profit self row)
          = backtester.capital self + backtester.pnl_usd t
        ∧ backtester.t_exit_price t = backtester.sl p
        ∧ backtester.exit_reason t = "stop_loss"
        ∧ backtester.pnl_usd t
          = (backtester.sl p - backtester.entry_price p) * backtester.amount_btc p)
  ∧ (∀ (self : trader.Trader) (world : trader.World) (analysis : dict)
       (p : trader.Position) (last_price : float) (order : trader.Order),
      trader.position self = Some p →
      is_str (dict_get analysis "signal") "sell" = false →
      as_float (dict_get analysis "price") = Some last_price →
      (last_price <=? trader.sl p) = true →
      trader.create_order world (trader.symbol_ self) "market" "sell" (trader.amount p)
      = Some order →
      trader.trade self world analysis
      = (trader.set_position self None
           (trader.CloseTrade (trader.id p) (dict_get analysis "price")),
         Returned (Some (list_to_map [("action", VStr "sell");
                                      ("price", dict_get analysis "price");
                                      ("reason", VStr "Stop Loss")])))).
Proof.
  split.
  - intros self p row Hopen Hlow.
    exists (backtester.closing_trade p (backtester.sl p) (timestamp row) "stop_loss" None).
    unfold backtester.check_stop_loss_take_profit. rewrite Hopen, Hlow.
    split_and!; reflexivity.
  - intros self world analysis p last_price order Hopen Hsell Hprice Hlow Horder.
    unfold trader.trade. rewrite Hopen, Hsell, Hprice, Hlow.
    rewrite (bool_decide_eq_true_2 (is_Some (Some p))) by eauto.
    rewrite andb_false_r. simpl.
    unfold trader.close_position. by rewrite Hopen, Horder.
Qed.

(** Witness for C5, the scenario of the specification: entry 100, stop-loss
    95, take-profit 110, 95 BTC held, and a candle that dips to 94 (and also
    spikes to 111, above the take-profit).  The position closes at 95 with a
    loss: the PnL per unit held, [95 - 100], is negative, and so is the PnL
    of the 95 BTC. *)
Lemma stop_loss_exit_witness :
  let self := samples.holding (Some (samples.replay_position 95)) [] in
  let row := {| timestamp := 60000; open := 100; high := 111; low := 94;
                close := 96; volume := 1 |} in
  backtester.position self = Some (samples.replay_position 95)
  ∧ (low row <=? backtester.sl (samples.replay_position 95)) = true
  ∧ (high row >=? backtester.tp (samples.replay_position 95)) = true
  ∧ ∃ t : backtester.Trade,
      backtester.trades (backtester.check_stop_loss_take_profit self row) = [t]
      ∧ backtester.position (backtester.check_stop_loss_take_profit self row) = None
      ∧ backtester.t_exit_price t = 95
      ∧ backtester.exit_reason t = "stop_loss"
      ∧ backtester.pnl_usd t = (95 - 100) * 95
      ∧ (95 - 100 <? 0) = true
      ∧ (backtester.pnl_usd t <? 0) = true.
Proof.
  intros self row.
  assert (Hopen : backtester.position self = Some (samples.replay_position 95))
    by reflexivity.
  assert (Hlow : (low row <=? backtester.sl (samples.replay_position 95)) = true)
    by reflexivity.
  split_and!; [exact Hopen|exact Hlow|reflexivity|].
  destruct (proj1 stop_loss_exit self (samples.replay_position 95) row Hopen Hlow)
    as (t & _ & Hflat & Htrades & _ & Hexit & Hwhy & Hpnl).
  exists t.
  split_and!; [exact Htrades|exact Hflat|exact Hexit|exact Hwhy|exact Hpnl|reflexivity|].
  rewrite Hpnl. reflexivity.
Defined.

(** Counterexample to C5 as stated: a live tick on the sliding sample.  The
    position has its stop-loss at 95 and the last candle has low 94 (and
    close 94); no signal is given.  The live ledger closes the position at
    94, the last price, not at the stop-loss price 95. *)
Lemma live_stop_loss_exit_is_at_last_price :
  trader.sl samples.live_position = 95
  ∧ low <$> last (rows samples.sliding) = Some 94
  ∧ answer (strategy.analyze strategy.Strategy_init samples.sliding).2 "signal"
    = Some VNone
  ∧ reported
      (trader.run_analysis (trader.Trader_init (Some samples.live_position))
         (samples.paper_world samples.sliding)).2 "reason"
    = Some (VStr "Stop Loss")
  ∧ reported
      (trader.run_analysis (trader.Trader_init (Some samples.live_position))
         (samples.paper_world samples.sliding)).2 "price"
    = Some (VFloat 94)
  ∧ trader.storage_calls
      (trader.run_analysis (trader.Trader_init (Some samples.live_position))
         (samples.paper_world samples.sliding)).1
    = [trader.CloseTrade (Some 1%Z) (VFloat 94)]
  ∧ reported
      (trader.run_analysis (trader.Trader_init (Some samples.live_position))
         (samples.paper_world samples.sliding)).2 "price"
    ≠ Some (VFloat (trader.sl samples.live_position)).
Proof.
  vm_compute. split_and!; try reflexivity.
  intros Hsame.
  apply (f_equal (fun v => match v with Some (VFloat x) => x <? 95 | _ => false end))
    in Hsame.
  vm_compute in Hsame. discriminate Hsame.
Qed.

(** The same scenario for any amount held and any high of the candle: the
    PnL is [(95 - 100) * amount]. *)
Example stop_loss_scenario (amount price_high : float) :
  let row := {| timestamp := 60000; open := 100; high := price_high; low := 94;
                close := 96; volume := 1 |} in
  backtester.check_stop_loss_take_profit
    (samples.holding (Some (samples.replay_position amount)) []) row
  = backtester.with_closed
      (samples.holding (Some (samples.replay_position amount)) [])
      {| backtester.t_entry_time := 0; backtester.t_exit_time := 60000;
         backtester.t_entry_price := 100; backtester.t_exit_price := 95;
         backtester.pnl_usd := (95 - 100) * amount;
         backtester.pnl_pct := (95 - 100) / 100 * 100;
         backtester.exit_reason := "stop_loss"; backtester.t_reason := None |}.
Proof. reflexivity. Qed.

(** Without a stop-loss hit, a high at or above the take-profit closes the
    position at the take-profit price. *)
Lemma take_profit_exit (self : backtester.Backtester) (p : backtester.Position)
    (row : Candle) :
  backtester.position self = Some p →
  (low row <=? backtester.sl p) = false →
  (high row >=? backtester.tp p) = true →
  backtester.check_stop_loss_take_profit self row
  = backtester.with_closed self
      (backtester.closing_trade p (backtester.tp p) (timestamp row) "take_profit" None).
Proof.
  intros Hopen Hlow Hhigh. unfold backtester.check_stop_loss_take_profit.
  by rewrite Hopen, Hlow, Hhigh.
Qed.

(** ** The live ledger *)
Section live_ledger.
Variables (self : trader.Trader) (world : trader.World).

Lemma close_position_flat price why :
  trader.position self = None →
  trader.close_position self world price why = (self, Returned None).
Proof. intros Hflat. unfold trader.close_position. by rewrite Hflat. Qed.

(** What [close_position] can do to an open position: close it and report a
    sell, or leave everything as it was and return [None]. *)
Lemma close_position_open p price why :
  trader.position self = Some p →
  (∃ order, trader.create_order world (trader.symbol_ self) "market" "sell" (trader.amount p)
            = Some order
            ∧ trader.close_position self world price why
              = (trader.set_position self None (trader.CloseTrade (trader.id p) price),
                 Returned (Some (list_to_map [("action", VStr "sell"); ("price", price);
                                              ("reason", VStr why)]))))
  ∨ (trader.create_order world (trader.symbol_ self) "market" "sell" (trader.amount p) = None
     ∧ trader.close_position self world price why = (self, Returned None)).
Proof.
  intros Hopen. unfold trader.close_position. rewrite Hopen.
  destruct (trader.create_order _ _ _ _ _) as [order|]; [left|right]; eauto.
Qed.

(** After [trade] on an open position the ledger holds the same position or
    none, and whatever is reported is a sell. *)
Lemma trade_open analysis p self' r :
  trader.position self = Some p →
  trader.trade self world analysis = (self', r) →
  (trader.position self' = Some p ∨ trader.position self' = None)
  ∧ ∀ d, r = Returned (Some d) → d !! "action" = Some (VStr "sell").
Proof.
  intros Hopen. unfold trader.trade. rewrite Hopen.
  rewrite (bool_decide_eq_true_2 (is_Some (Some p))) by eauto.
  rewrite andb_false_r, andb_true_r.
  assert (Hclose : ∀ price why,
            trader.close_position self world price why = (self', r) →
            (trader.position self' = Some p ∨ trader.position self' = None)
            ∧ ∀ d, r = Returned (Some d) → d !! "action" = Some (VStr "sell")).
  { intros price why.
    destruct (close_position_open p price why Hopen) as [(order & _ & ->)|[_ ->]];
      intros [= <- <-]; (split; [auto|]); intros d [= <-]; reflexivity. }
  repeat case_match; eauto; intros [= <- <-]; (split; [auto|]); discriminate.
Qed.

End live_ledger.

(** A whole tick on an open position: the ledger afterwards holds the same
    position or none, and whatever is reported is a sell. *)
Lemma run_analysis_open (self : trader.Trader) (world : trader.World) p self' r :
  trader.position self = Some p →
  trader.run_analysis self world = (self', r) →
  (trader.position self' = Some p ∨ trader.position self' = None)
  ∧ ∀ d, r = Returned (Some d) → d !! "action" = Some (VStr "sell").
Proof.
  intros Hopen. unfold trader.run_analysis.
  destruct (is_empty _); [intros [= <- <-]; split; [auto|discriminate]|].
  destruct (strategy.analyze _ _) as [df' [analysis|e]].
  - apply trade_open. exact Hopen.
  - intros [= <- <-]; split; [auto|discriminate].
Qed.

(** C8. The ledger is one slot, [self.position], and no path fills it while
    it is taken.  Live: after any tick that starts with a position open the
    ledger holds that same position or none, and the tick reports no buy
    (in particular when the signal is [buy]).  Replay: [simulate_trade] with
    a [buy] signal on an open position changes nothing, and neither
    [simulate_trade] nor [check_stop_loss_take_profit] ever turns an open
    position into another one.  Closing while flat
    does nothing: live [close_position] returns [None] and leaves the trader
    as it was, and in replay neither [simulate_trade] with [sell] nor
    [check_stop_loss_take_profit] changes the state, so no trade is
    recorded. *)
Theorem one_position_at_a_time :
  (∀ (self : trader.Trader) (world : trader.World) p self' r,
      trader.position self = Some p →
      trader.run_analysis self world = (self', r) →
      (trader.position self' = Some p ∨ trader.position self' = None)
      ∧ ∀ d, r = Returned (Some d) → d !! "action" = Some (VStr "sell"))
  ∧ (∀ (self : backtester.Backtester) p price time analysis,
      backtester.position self = Some p →
      backtester.simulate_trade self (VStr "buy") price time analysis = self)
  ∧ (∀ (self : backtester.Backtester) p signal price time analysis row,
      backtester.position self = Some p →
      (backtester.position (backtester.simulate_trade self signal price time analysis)
       = Some p
       ∨ backtester.position (backtester.simulate_trade self signal price time analysis)
         = None)
      ∧ (backtester.position (backtester.check_stop_loss_take_profit self row) = Some p
         ∨ backtester.position (backtester.check_stop_loss_take_profit self row) = None))
  ∧ (∀ (self : trader.Trader) (world : trader.World) price why,
      trader.position self = None →
      trader.close_position self world price why = (self, Returned None))
  ∧ (∀ (self : backtester.Backtester) price time analysis,
      backtester.position self = None →
      backtester.simulate_trade self (VStr "sell") price time analysis = self)
  ∧ (∀ (self : backtester.Backtester) row,
      backtester.position self = None →
      backtester.check_stop_loss_take_profit self row = self).
Proof.
  split_and!.
  - intros self world p self' r. apply run_analysis_open.
  - intros self p price time analysis Hopen.
    unfold backtester.simulate_trade. by rewrite Hopen.
  - intros self p signal price time analysis row Hopen.
    unfold backtester.simulate_trade, backtester.check_stop_loss_take_profit.
    rewrite Hopen. split; repeat case_match; simpl; auto.
  - intros self world price why. apply close_position_flat.
  - intros self price time analysis Hflat.
    unfold backtester.simulate_trade. by rewrite Hflat.
  - intros self row Hflat.
    unfold backtester.check_stop_loss_take_profit. by rewrite Hflat.
Qed.

(** Witness for C8: a live tick on the rising sample, whose signal is [buy],
    with a position already open. *)
Lemma one_position_at_a_time_witness :
  let self := trader.Trader_init (Some samples.live_position) in
  let world := samples.paper_world samples.rising in
  trader.position self = Some samples.live_position
  ∧ (trader.position (trader.run_analysis self world).1 = Some samples.live_position
     ∨ trader.position (trader.run_analysis self world).1 = None)
  ∧ ∀ d, (trader.run_analysis self world).2 = Returned (Some d) →
         d !! "action" = Some (VStr "sell").
Proof.
  intros self world.
  assert (Hopen : trader.position self = Some samples.live_position) by reflexivity.
  split; [exact Hopen|].
  apply (proj1 one_position_at_a_time self world samples.live_position
           (trader.run_analysis self world).1 (trader.run_analysis self world).2 Hopen).
  by destruct (trader.run_analysis self world).
Defined.

(** On that tick the position stays as it was and nothing is reported. *)
Example buy_signal_while_open_is_ignored :
  trader.position
    (trader.run_analysis (trader.Trader_init (Some samples.live_position))
       (samples.paper_world samples.rising)).1
  = Some samples.live_position
  ∧ (trader.run_analysis (trader.Trader_init (Some samples.live_position))
       (samples.paper_world samples.rising)).2
    = Returned None.
Proof. vm_compute. split; reflexivity. Qed.

(** C7 (as the code has it). A failed order aborts the transition: a failed
    open leaves the trader exactly as it was (flat, nothing stored), a failed
    close leaves the open position and everything else exactly as it was.
    Both calls then return [None], and a whole tick on an exchange that
    rejects every order keeps the position and the storage untouched and
    returns [None] (or raises for a reason of its own): the value an idle
    tick returns.  The failure is not reported to the caller. *)
Theorem failed_order_aborts_transition :
  (∀ (self : trader.Trader) (world : trader.World) side price p,
      as_float price = Some p →
      trader.create_order world (trader.symbol_ self) "market" side 0.001 = None →
      trader.open_position self world side price = (self, Returned None))
  ∧ (∀ (self : trader.Trader) (world : trader.World) price why p,
      trader.position self = Some p →
      trader.create_order world (trader.symbol_ self) "market" "sell" (trader.amount p)
      = None →
      trader.close_position self world price why = (self, Returned None))
  ∧ (∀ (self : trader.Trader) (world : trader.World) self' r,
      (∀ sym kind side amount, trader.create_order world sym kind side amount = None) →
      trader.run_analysis self world = (self', r) →
      trader.position self' = trader.position self
      ∧ trader.storage_calls self' = trader.storage_calls self
      ∧ (r = Returned None ∨ ∃ e, r = Raised e)).
Proof.
  split_and!.
  - intros self world side price p Hprice Horder.
    unfold trader.open_position. by rewrite Hprice, Horder.
  - intros self world price why p Hopen Horder.
    unfold trader.close_position. by rewrite Hopen, Horder.
  - intros self world self' r Hreject.
    unfold trader.run_analysis.
    destruct (is_empty _); [intros [= <- <-]; auto|].
    destruct (strategy.analyze _ _) as [df' [analysis|e]];
      [|intros [= <- <-]; eauto].
    unfold trader.trade, trader.open_position, trader.close_position. simpl.
    repeat case_match;
      try match goal with
          | H : trader.create_order _ _ _ _ _ = Some _ |- _ =>
              rewrite Hreject in H; discriminate H
          end;
      intros [= <- <-]; eauto.
Qed.

(** Witness for C7: the rising sample asks for a buy, the exchange rejects
    the order. *)
Lemma failed_order_aborts_transition_witness :
  let self := trader.Trader_init None in
  let world := samples.failing_world samples.rising in
  (∀ sym kind side amount, trader.create_order world sym kind side amount = None)
  ∧ trader.position (trader.run_analysis self world).1 = None
  ∧ trader.storage_calls (trader.run_analysis self world).1 = []
  ∧ ((trader.run_analysis self world).2 = Returned None
     ∨ ∃ e, (trader.run_analysis self world).2 = Raised e).
Proof.
  intros self world.
  assert (Hreject : ∀ sym kind side amount,
            trader.create_order world sym kind side amount = None) by reflexivity.
  split; [exact Hreject|].
  apply (proj2 (proj2 failed_order_aborts_transition) self world
           (trader.run_analysis self world).1 (trader.run_analysis self world).2 Hreject).
  by destruct (trader.run_analysis self world).
Defined.

(** Counterexample to C7 as stated: the tick whose buy order the exchange
    rejected returns to its caller exactly what a tick with nothing to do
    returns, and leaves the same ledger; and [close_position] returns for a
    rejected order on an open position exactly what it returns on a flat
    ledger, where there is nothing to close. *)
Lemma failed_order_is_not_surfaced :
  answer (strategy.analyze strategy.Strategy_init samples.rising).2 "signal"
  = Some (VStr "buy")
  ∧ answer (strategy.analyze strategy.Strategy_init (samples.flat 201)).2 "signal"
    = Some VNone
  ∧ (trader.run_analysis (trader.Trader_init None)
       (samples.failing_world samples.rising)).2
    = (trader.run_analysis (trader.Trader_init None)
         (samples.paper_world (samples.flat 201))).2
  ∧ (trader.run_analysis (trader.Trader_init None)
       (samples.failing_world samples.rising)).2 = Returned None
  ∧ trader.position
      (trader.run_analysis (trader.Trader_init None)
         (samples.failing_world samples.rising)).1
    = trader.position
        (trader.run_analysis (trader.Trader_init None)
           (samples.paper_world (samples.flat 201))).1
  ∧ (trader.close_position (trader.Trader_init (Some samples.live_position))
       (samples.failing_world samples.falling) (VFloat 94) "Signal").2
    = (trader.close_position (trader.Trader_init None)
         (samples.paper_world samples.falling) (VFloat 94) "Signal").2.
Proof. vm_compute. split_and!; reflexivity. Qed.

(** ** The backtest report *)

Lemma filter_nil_intro {A} (P : A → Prop) `{!∀ x, Decision (P x)} (l : list A) :
  (∀ x, x ∈ l → ¬ P x) → filter P l = [].
Proof.
  intros Hnone. destruct (filter P l) as [|x rest] eqn:Hfilter; [done|].
  assert (Hin : x ∈ filter P l) by (rewrite Hfilter; left).
  apply list_elem_of_filter in Hin as [HP Hin]. by destruct (Hnone x Hin).
Qed.

(** *** Sums of losses

    A sum of numbers below zero is below zero (binary64 addition does not
    round it to zero), and a zero added to such a sum leaves it as it is. *)
Section sums_of_losses.
Import Stdlib.Floats.Floats.
Local Open Scope Z_scope.

(** Shifting a positive mantissa right by fewer places than it has digits
    leaves a positive mantissa, with that many digits less. *)
Lemma iter_pos_shr_1_positive k : ∀ m r s,
  Zpos k < Zpos (digits2_pos m) →
  ∃ m' r' s',
    iter_pos shr_1 k (Build_shr_record (Zpos m) r s) = Build_shr_record (Zpos m') r' s'
    ∧ Zpos (digits2_pos m') = Zpos (digits2_pos m) - Zpos k.
Proof.
  induction k as [k IH|k IH|]; intros m r s Hk; cbn [iter_pos].
  - assert (Hstep : ∃ m0 r0 s0,
              shr_1 (Build_shr_record (Zpos m) r s) = Build_shr_record (Zpos m0) r0 s0
              ∧ Zpos (digits2_pos m0) = Zpos (digits2_pos m) - 1).
    { destruct m as [m|m|]; cbn [digits2_pos] in Hk |- *; [..|lia];
        cbn [shr_1]; eexists _, _, _; (split; [done|lia]). }
    destruct Hstep as (m0 & r0 & s0 & -> & H0).
    destruct (IH m0 r0 s0) as (m1 & r1 & s1 & -> & H1); [lia|].
    destruct (IH m1 r1 s1) as (m2 & r2 & s2 & -> & H2); [lia|].
    exists m2, r2, s2. split; [done|lia].
  - destruct (IH m r s) as (m1 & r1 & s1 & -> & H1); [lia|].
    destruct (IH m1 r1 s1) as (m2 & r2 & s2 & -> & H2); [lia|].
    exists m2, r2, s2. split; [done|lia].
  - destruct m as [m|m|]; cbn [digits2_pos] in Hk |- *; [..|lia];
      cbn [shr_1]; eexists _, _, _; (split; [done|lia]).
Qed.


Lemma shr_fexp_positive m e l :
  SpecFloat.emin prec emax ≤ e →
  ∃ m' r' s' e',
    shr_fexp prec emax (Zpos m) e l = (Build_shr_record (Zpos m') r' s', e')
    ∧ SpecFloat.emin prec emax ≤ e'.
Proof.
  intros He. unfold shr_fexp, shr. cbn [Zdigits2].
  assert (Hrecord : ∃ r s, shr_record_of_loc (Zpos m) l = Build_shr_record (Zpos m) r s).
  { destruct l as [|[]]; cbn; eauto. }
  destruct Hrecord as (r & s & ->).
  destruct (SpecFloat.fexp prec emax (Zpos (digits2_pos m) + e) - e) as [|k|k] eqn:Hshift; [by eauto 10| |by eauto 10].
  destruct (iter_pos_shr_1_positive k m r s) as (m' & r' & s' & -> & _).
  { unfold SpecFloat.fexp, SpecFloat.emin, prec, emax in *. lia. }
  exists m', r', s', (e + Zpos k). split; [done|lia].
Qed.

Lemma binary_round_aux_positive sx m e l :
  SpecFloat.emin prec emax ≤ e →
  (∃ m' e', binary_round_aux prec emax sx (Zpos m) e l = S754_finite sx m' e')
  ∨ binary_round_aux prec emax sx (Zpos m) e l = S754_infinity sx.
Proof.
  intros He. unfold binary_round_aux.
  destruct (shr_fexp_positive m e l He) as (m1 & r1 & s1 & e1 & -> & He1).
  cbn [shr_m].
  assert (Hround : ∃ m2, round_nearest_even (Zpos m1)
                           (loc_of_shr_record (Build_shr_record (Zpos m1) r1 s1))
                         = Zpos m2).
  { unfold round_nearest_even. destruct (loc_of_shr_record _) as [|[]]; [eauto| |eauto|].
    - destruct (Z.even _); cbn; eauto.
    - cbn; eauto. }
  destruct Hround as (m2 & ->).
  destruct (shr_fexp_positive m2 e1 loc_Exact He1) as (m3 & r3 & s3 & e3 & -> & He3).
  cbn [shr_m]. destruct (e3 <=? _); eauto.
Qed.

Lemma binary_round_positive sx m e :
  SpecFloat.emin prec emax ≤ e →
  (∃ m' e', binary_round prec emax sx m e = S754_finite sx m' e')
  ∨ binary_round prec emax sx m e = S754_infinity sx.
Proof.
  intros He. unfold binary_round, shl_align.
  destruct (SpecFloat.fexp prec emax (Zpos (digits2_pos m) + e) - e) eqn:Hshift;
    apply binary_round_aux_positive; try done.
  unfold SpecFloat.fexp. lia.
Qed.

Lemma valid_exponent s m e : valid_binary (S754_finite s m e) = true → SpecFloat.emin prec emax ≤ e.
Proof.
  unfold SpecFloat.valid_binary, bounded, canonical_mantissa.
  intros [Hcanonical _]%andb_true_iff. apply Z.eqb_eq in Hcanonical.
  unfold SpecFloat.fexp in Hcanonical. lia.
Qed.

(** The sum of two numbers below zero is below zero: it is not rounded to
    zero. *)
Lemma SFadd_negative x y :
  valid_binary x = true → valid_binary y = true →
  (x = S754_infinity true ∨ ∃ m e, x = S754_finite true m e) →
  (y = S754_infinity true ∨ ∃ m e, y = S754_finite true m e) →
  SFadd prec emax x y = S754_infinity true
  ∨ ∃ m e, SFadd prec emax x y = S754_finite true m e.
Proof.
  intros Hx Hy [->|(mx & ex & ->)] [->|(my & ey & ->)]; cbn [SFadd]; eauto.
  apply valid_exponent in Hx, Hy.
  cbn [cond_Zopp].
  generalize (shl_align mx ex (Z.min ex ey)).1, (shl_align my ey (Z.min ex ey)).1.
  intros a b. change (- Zpos a + - Zpos b) with (Zneg (a + b)). cbn [binary_normalize].
  destruct (binary_round_positive true (a + b) (Z.min ex ey)) as [(m & e & ->)| ->];
    [lia|eauto..].
Qed.

Lemma Prim2SF_zero : Prim2SF 0 = S754_zero false.
Proof. reflexivity. Qed.

(** The floats below zero. *)
Lemma ltb_zero_Prim2SF x :
  (x <? 0)%float = true
  ↔ Prim2SF x = S754_infinity true ∨ ∃ m e, Prim2SF x = S754_finite true m e.
Proof.
  rewrite ltb_spec, Prim2SF_zero. unfold SFltb.
  destruct (Prim2SF x) as [[]|[]| |[] m e]; cbn;
    (split; [intros ?; first [done|by left|by right; eauto]
            |intros [?|(? & ? & ?)]; done]).
Qed.

(** The zeros. *)
Lemma zero_Prim2SF x :
  (x <=? 0)%float = true → (x <? 0)%float = false → ∃ s, Prim2SF x = S754_zero s.
Proof.
  rewrite leb_spec, ltb_spec, Prim2SF_zero. unfold SFleb, SFltb.
  destruct (Prim2SF x) as [[]|[]| |[] m e]; cbn; try done; eauto.
Qed.

Lemma ltb_leb_zero x : (x <? 0)%float = true → (x <=? 0)%float = true.
Proof.
  rewrite leb_spec, ltb_spec, Prim2SF_zero. unfold SFleb, SFltb.
  by destruct (Prim2SF x) as [[]|[]| |[] m e].
Qed.

Lemma add_negative x y :
  (x <? 0)%float = true → (y <? 0)%float = true → (x + y <? 0)%float = true.
Proof.
  rewrite !ltb_zero_Prim2SF, add_spec. apply SFadd_negative; apply Prim2SF_valid.
Qed.

Lemma add_zero_negative x : (x <? 0)%float = true → (0 + x)%float = x.
Proof.
  intros Hx%ltb_zero_Prim2SF. apply Prim2SF_inj. rewrite add_spec, Prim2SF_zero.
  by destruct Hx as [->|(m & e & ->)].
Qed.

Lemma add_negative_zero x z s :
  (x <? 0)%float = true → Prim2SF z = S754_zero s → (x + z)%float = x.
Proof.
  intros Hx%ltb_zero_Prim2SF Hz. apply Prim2SF_inj. rewrite add_spec, Hz.
  by destruct Hx as [->|(m & e & ->)].
Qed.

Lemma add_zero_zero z s : Prim2SF z = S754_zero s → (0 + z)%float = 0%float.
Proof.
  intros Hz. apply Prim2SF_inj. rewrite add_spec, Hz, Prim2SF_zero. by destruct s.
Qed.

Lemma negative_not_zero x : (x <? 0)%float = true → (x =? 0)%float = false.
Proof.
  intros Hx%ltb_zero_Prim2SF. rewrite FloatAxioms.eqb_spec, Prim2SF_zero.
  by destruct Hx as [->|(m & e & ->)].
Qed.


Local Open Scope float_scope.

(** The trades at break-even add nothing to the sum of the trades that did
    not win: it is the sum of the trades that lost, which is below zero as
    soon as a trade lost. *)
Lemma sum_without_break_even (ts : list backtester.Trade) : ∀ acc,
  acc = 0 ∨ (acc <? 0) = true →
  fold_left add
    (map backtester.pnl_usd
       (filter (fun t => (backtester.pnl_usd t <=? 0) = true) ts)) acc
  = fold_left add
      (map backtester.pnl_usd
         (filter (fun t => (backtester.pnl_usd t <? 0) = true) ts)) acc
  ∧ ((acc <? 0) = true ∨ filter (fun t => (backtester.pnl_usd t <? 0) = true) ts ≠ [] →
     (fold_left add
        (map backtester.pnl_usd
           (filter (fun t => (backtester.pnl_usd t <? 0) = true) ts)) acc <? 0) = true).
Proof.
  induction ts as [|t ts IH]; intros acc Hacc.
  - split; [done|]. by intros [?|?].
  - rewrite !filter_cons.
    destruct (backtester.pnl_usd t <? 0) eqn:Hlost.
    + rewrite (ltb_leb_zero _ Hlost), !decide_True by done. cbn [map fold_left].
      assert (Hsum : (acc + backtester.pnl_usd t <? 0) = true).
      { destruct Hacc as [->|Hacc]; [by rewrite add_zero_negative|by apply add_negative]. }
      destruct (IH _ (or_intror Hsum)) as [Hsame Hbelow].
      split; [done|]. intros _. apply Hbelow. by left.
    + rewrite (decide_False (P := false = true)) by done.
      destruct (backtester.pnl_usd t <=? 0) eqn:Hzero.
      * rewrite decide_True by done. cbn [map fold_left].
        destruct (zero_Prim2SF _ Hzero Hlost) as [sign Hsign].
        replace (acc + backtester.pnl_usd t) with acc; [by apply IH|].
        destruct Hacc as [->|Hacc];
          [by rewrite (add_zero_zero _ _ Hsign)|by rewrite (add_negative_zero _ _ _ Hacc Hsign)].
      * rewrite decide_False by done. by apply IH.
Qed.

End sums_of_losses.

(** C9. A report exists exactly when some trade was closed.  Its profit
    factor is [|sum(wins) / sum(losses)|] over the trades that won (PnL above
    zero) and the trades that lost (PnL below zero), and it is [+infinity]
    when no trade lost.  The code sums the trades with a PnL at or below
    zero and tests that sum against zero: a trade at break-even changes
    neither the sum nor the answer.  One win of +100 gives [+infinity]; a win
    of +100 and a loss of -50 give 2. *)
Theorem profit_factor_of_report :
  (∀ self : backtester.Backtester,
      backtester.generate_report self = None ↔ backtester.trades self = [])
  ∧ (∀ (self : backtester.Backtester) (report : backtester.Report),
      backtester.generate_report self = Some report →
      let wins := filter (fun t => (backtester.pnl_usd t >? 0) = true)
                    (backtester.trades self) in
      let losses := filter (fun t => (backtester.pnl_usd t <? 0) = true)
                      (backtester.trades self) in
      (losses ≠ [] →
       backtester.profit_factor report
       = abs (backtester.sum_pnl wins / backtester.sum_pnl losses))
      ∧ (losses = [] → backtester.profit_factor report = infinity))
  ∧ backtester.profit_factor
      <$> backtester.generate_report
            (samples.holding None [samples.trade_with_pnl 100])
    = Some infinity
  ∧ backtester.profit_factor
      <$> backtester.generate_report
            (samples.holding None [samples.trade_with_pnl 100;
                                   samples.trade_with_pnl (-50)])
    = Some 2.
Proof.
  split_and!.
  - intros self. unfold backtester.generate_report.
    destruct (backtester.trades self); split; (done || discriminate).
  - intros self report. unfold backtester.generate_report.
    destruct (backtester.trades self) as [|t ts] eqn:Htrades; [discriminate|].
    intros [= <-]. cbv zeta. cbn [backtester.profit_factor].
    unfold pyfloat.neb, backtester.sum_pnl, pyfloat.fsum.
    destruct (sum_without_break_even (t :: ts) 0 (or_introl eq_refl)) as [-> Hbelow].
    split.
    + intros Hlost. rewrite (negative_not_zero _ (Hbelow (or_intror Hlost))).
      rewrite bool_decide_eq_false_2; [done|].
      intros Hnone. destruct Hlost.
      apply filter_nil_intro. intros t' Ht' Hlt.
      eapply filter_nil_not_elem_of; [exact Hnone| |exact Ht'].
      by apply ltb_leb_zero.
    + intros ->. cbn [map fold_left]. by rewrite andb_false_r.
  - reflexivity.
  - reflexivity.
Qed.

(** Witness for C9: a win of +100 and a loss of -50. *)
Lemma profit_factor_of_report_witness :
  let self := samples.holding None [samples.trade_with_pnl 100;
                                    samples.trade_with_pnl (-50)] in
  ∃ report,
    backtester.generate_report self = Some report
    ∧ filter (fun t => (backtester.pnl_usd t <? 0) = true) (backtester.trades self)
      = [samples.trade_with_pnl (-50)]
    ∧ backtester.profit_factor report
      = abs (backtester.sum_pnl [samples.trade_with_pnl 100]
             / backtester.sum_pnl [samples.trade_with_pnl (-50)])
    ∧ backtester.profit_factor report = 2.
Proof.
  intros self.
  destruct (backtester.generate_report self) as [report|] eqn:Hreport;
    [|discriminate Hreport].
  exists report. split; [reflexivity|].
  pose proof (proj1 (proj1 (proj2 profit_factor_of_report) self report Hreport)) as Hpf.
  injection Hreport as <-.
  split_and!; [reflexivity| |reflexivity].
  apply Hpf. discriminate.
Defined.

(** A single trade at break-even: the code lists it with the losing trades,
    but no trade lost, and the profit factor is [+infinity] as for a ledger
    without losses. *)
Example break_even_trade_is_no_loss :
  ∃ report,
    backtester.generate_report (samples.holding None [samples.trade_with_pnl 0])
    = Some report
    ∧ backtester.losing_trades report = [samples.trade_with_pnl 0]
    ∧ filter (fun t => (backtester.pnl_usd t <? 0) = true) [samples.trade_with_pnl 0] = []
    ∧ backtester.profit_factor report = infinity.
Proof. eexists. split; [reflexivity|]. by split_and!. Qed.

(** ** What [analyze] does to the frame it is given *)

Lemma analyze_frame (self : strategy.Strategy) (df : DataFrame) :
  strategy.insufficient self df = false →
  (strategy.analyze self df).1 = strategy.add_indicators self df.
Proof.
  intros Hguard. unfold strategy.analyze. rewrite Hguard.
  by repeat case_match.
Qed.

Lemma other_columns_add_indicators (self : strategy.Strategy) (df : DataFrame) name :
  name ∉ strategy.indicator_columns →
  columns (strategy.add_indicators self df) !! name = columns df !! name.
Proof.
  unfold strategy.indicator_columns. rewrite !not_elem_of_cons.
  intros (? & ? & ? & ? & ? & ? & ? & _).
  unfold strategy.add_indicators, strategy.calculate_macd, set_column. simpl.
  by rewrite !lookup_insert_ne.
Qed.

(** C10 (as the code has it). [analyze] never changes the candle rows of
    the frame it is given, and it leaves a too short frame exactly as it
    was.  On a frame that passes the guard it assigns the seven indicator
    columns to that very frame: afterwards each of them is present, and
    every other column is as before. *)
Theorem analyze_frame_effect (self : strategy.Strategy) (df : DataFrame) :
  rows (strategy.analyze self df).1 = rows df
  ∧ (strategy.insufficient self df = true → (strategy.analyze self df).1 = df)
  ∧ (strategy.insufficient self df = false →
     (∀ name, name ∈ strategy.indicator_columns →
        ∃ series, columns (strategy.analyze self df).1 !! name = Some series
                  ∧ length series = len df)
     ∧ (∀ name, name ∉ strategy.indicator_columns →
        columns (strategy.analyze self df).1 !! name = columns df !! name)).
Proof.
  split_and!.
  - destruct (strategy.insufficient self df) eqn:Hguard.
    + by rewrite analyze_insufficient.
    + rewrite analyze_frame by done. apply rows_add_indicators.
  - intros Hguard. by rewrite analyze_insufficient.
  - intros Hguard. rewrite analyze_frame by done. split.
    + apply column_add_indicators.
    + intros name. apply other_columns_add_indicators.
Qed.

(** Witness for C10: the falling sample (200 candles, no derived column)
    passes the guard and comes back with an [ema_trend] column. *)
Lemma analyze_frame_effect_witness :
  strategy.insufficient strategy.Strategy_init samples.falling = false
  ∧ columns samples.falling !! "ema_trend" = None
  ∧ ∃ series,
      columns (strategy.analyze strategy.Strategy_init samples.falling).1 !! "ema_trend"
      = Some series
      ∧ length series = len samples.falling.
Proof.
  assert (Hguard : strategy.insufficient strategy.Strategy_init samples.falling = false)
    by (vm_compute; reflexivity).
  split_and!; [exact Hguard|reflexivity|].
  apply (proj1 (proj2 (proj2 (analyze_frame_effect strategy.Strategy_init samples.falling))
                  Hguard)).
  by repeat constructor.
Defined.

(** Counterexample to C10 as stated: after [analyze] the falling sample is
    not the frame that was passed in. *)
Lemma analyze_changes_its_input :
  (strategy.analyze strategy.Strategy_init samples.falling).1 ≠ samples.falling.
Proof.
  intros Hsame.
  apply (f_equal (fun df => bool_decide (is_Some (columns df !! "ema_trend")))) in Hsame.
  vm_compute in Hsame. discriminate Hsame.
Qed.

(** ** The replay *)
Section replay.
Variable df : DataFrame.

(** The window of candle [i] never has more than 101 rows. *)
Lemma len_window i : (len (backtester.window df i) ≤ 101)%nat.
Proof.
  unfold backtester.window, iloc_slice, len. simpl.
  rewrite length_take. lia.
Qed.

Lemma window_insufficient i :
  strategy.insufficient strategy.Strategy_init (backtester.window df i) = true.
Proof.
  unfold strategy.insufficient. apply orb_true_iff. right.
  apply Nat.ltb_lt. pose proof (len_window i).
  change (strategy.warmup strategy.Strategy_init) with 200%nat. lia.
Qed.

(** With the configured strategy and no position, replaying a candle only
    appends an equity sample. *)
Lemma replay_candle_idle (self : backtester.Backtester) i row :
  backtester.strategy_ self = strategy.Strategy_init →
  backtester.position self = None →
  rows df !! i = Some row →
  backtester.replay_candle df self i
  = Returned (backtester.with_equity self
                {| backtester.e_timestamp := timestamp row;
                   backtester.equity := backtester.capital self |}).
Proof.
  intros Hstrategy Hflat Hrow. unfold backtester.replay_candle.
  rewrite Hstrategy, (analyze_insufficient _ _ (window_insufficient i)), Hrow.
  unfold backtester.check_stop_loss_take_profit. rewrite Hflat.
  change (truthy (dict_get strategy.insufficient_data "signal")) with false.
  cbv iota. by rewrite Hflat.
Qed.

Lemma replay_idle indices : ∀ self : backtester.Backtester,
  backtester.strategy_ self = strategy.Strategy_init →
  backtester.position self = None →
  Forall (fun i => (i < len df)%nat) indices →
  ∃ self', backtester.replay df self indices = Returned self'
           ∧ backtester.trades self' = backtester.trades self
           ∧ backtester.position self' = None
           ∧ backtester.capital self' = backtester.capital self.
Proof.
  induction indices as [|i indices IH]; intros self Hstrategy Hflat Hin.
  - exists self. by split_and!.
  - apply Forall_cons in Hin as [Hi Hin].
    destruct (lookup_lt_is_Some_2 (rows df) i Hi) as [row Hrow].
    simpl. rewrite (replay_candle_idle self i row) by done.
    destruct (IH (backtester.with_equity self
                    {| backtester.e_timestamp := timestamp row;
                       backtester.equity := backtester.capital self |}))
      as (self' & Hrun & Htrades & Hflat' & Hcapital); [done..|].
    exists self'. by split_and!.
Qed.

End replay.

(** C1 (the code against the claim). Whatever the history and the index,
    the window the backtester hands to the strategy has at most 101 candles,
    fewer than the 200 the strategy asks for, so the analysis of every
    replayed candle is "Insufficient data" and no indicator is computed; a
    backtest from the initial state therefore ends without a single trade
    and without a report.  On the rising sample the live analysis of the
    full history answers [buy] at the last candle, the replay of that same
    candle does not. *)
Theorem replay_window_is_too_short :
  (∀ (df : DataFrame) (i : nat),
      strategy.analyze strategy.Strategy_init (backtester.window df i)
      = (backtester.window df i, Returned strategy.insufficient_data))
  ∧ (∀ df : DataFrame,
      ∃ final,
        backtester.run_backtest backtester.Backtester_init df = Returned (final, None)
        ∧ backtester.trades final = []
        ∧ backtester.position final = None)
  ∧ answer (strategy.analyze strategy.Strategy_init samples.rising).2 "signal"
    = Some (VStr "buy")
  ∧ answer (strategy.analyze strategy.Strategy_init
              (backtester.window samples.rising 200)).2 "signal"
    = Some VNone
  ∧ answer (strategy.analyze strategy.Strategy_init
              (backtester.window samples.rising 200)).2 "reason"
    = Some (VStr "Insufficient data").
Proof.
  split_and!.
  - intros df i. apply analyze_insufficient, window_insufficient.
  - intros df. unfold backtester.run_backtest.
    destruct (is_empty df); [by exists backtester.Backtester_init|].
    destruct (replay_idle df (seq 200 (len df - 200)) backtester.Backtester_init)
      as (final & -> & Htrades & Hflat & _); [done|done| |].
    + apply Forall_forall. intros i Hi. apply elem_of_seq in Hi. lia.
    + exists final. unfold backtester.generate_report. rewrite Htrades. by split_and!.
  - vm_compute. reflexivity.
  - vm_compute. reflexivity.
  - vm_compute. reflexivity.
Qed.

(** ** Stop-loss and sell signal in the same tick *)

(** Replay: when the candle reaches the stop-loss and the analysis says
    [sell], the position is closed by the stop-loss check, at the stop-loss
    price, and the sell signal finds nothing left to close. *)
Lemma replay_stop_loss_before_sell_signal (df : DataFrame)
    (self : backtester.Backtester) i row p window' analysis :
  strategy.analyze (backtester.strategy_ self) (backtester.window df i)
  = (window', Returned analysis) →
  rows df !! i = Some row →
  backtester.position self = Some p →
  (low row <=? backtester.sl p) = true →
  dict_get analysis "signal" = VStr "sell" →
  ∃ final,
    backtester.replay_candle df self i = Returned final
    ∧ backtester.position final = None
    ∧ backtester.trades final
      = backtester.trades self
        ++ [backtester.closing_trade p (backtester.sl p) (timestamp row) "stop_loss" None].
Proof.
  intros Hrun Hrow Hopen Hlow Hsell. unfold backtester.replay_candle.
  rewrite Hrun, Hrow, Hsell.
  unfold backtester.check_stop_loss_take_profit. rewrite Hopen, Hlow.
  simpl. eexists. split; [reflexivity|]. by split.
Qed.

(** Live: [trade] looks at the sell signal first, so a position whose
    stop-loss the price has reached is closed with the reason "Signal". *)
Lemma live_sell_signal_before_stop_loss (self : trader.Trader) (world : trader.World)
    analysis p order :
  trader.position self = Some p →
  dict_get analysis "signal" = VStr "sell" →
  trader.create_order world (trader.symbol_ self) "market" "sell" (trader.amount p)
  = Some order →
  reported (trader.trade self world analysis).2 "reason" = Some (VStr "Signal")
  ∧ trader.position (trader.trade self world analysis).1 = None.
Proof.
  intros Hopen Hsell Horder. unfold trader.trade, trader.close_position.
  rewrite Hsell, Hopen. simpl. rewrite Horder. by split.
Qed.

(** C2 (the code against the claim). A live tick on the falling sample:
    the position has its stop-loss at 95, the last price is 94 and the
    analysis says [sell].  The stop-loss check would apply ([94 <= 95]), yet
    the position is closed with the reason "Signal". *)
Theorem live_tick_reports_signal_at_stop_loss :
  trader.position (trader.Trader_init (Some samples.live_position))
  = Some samples.live_position
  ∧ (94 <=? trader.sl samples.live_position) = true
  ∧ answer (strategy.analyze strategy.Strategy_init samples.falling).2 "price"
    = Some (VFloat 94)
  ∧ answer (strategy.analyze strategy.Strategy_init samples.falling).2 "signal"
    = Some (VStr "sell")
  ∧ reported
      (trader.run_analysis (trader.Trader_init (Some samples.live_position))
         (samples.paper_world samples.falling)).2 "action"
    = Some (VStr "sell")
  ∧ reported
      (trader.run_analysis (trader.Trader_init (Some samples.live_position))
         (samples.paper_world samples.falling)).2 "reason"
    = Some (VStr "Signal")
  ∧ trader.position
      (trader.run_analysis (trader.Trader_init (Some samples.live_position))
         (samples.paper_world samples.falling)).1
    = None.
Proof. vm_compute. split_and!; reflexivity. Qed.

(** * Further properties *)

(** ** Facts about binary64 comparisons and arithmetic

    Read off the specification of the primitive floats ([FloatAxioms]). *)
Section float_facts.
Import Stdlib.Floats.Floats.

Lemma SFcompare_refl f : f ≠ S754_nan → SFcompare f f = Some Eq.
Proof.
  destruct f as [s|s| |s m e]; intros Hf; try done; simpl.
  - by destruct s.
  - rewrite Z.compare_refl, Pos.compare_cont_refl. by destruct s.
Qed.

Lemma is_nan_Prim2SF x : is_nan x = true ↔ Prim2SF x = S754_nan.
Proof.
  unfold is_nan. rewrite FloatAxioms.eqb_spec. unfold SFeqb. split.
  - intros Hx. destruct (Prim2SF x) as [s|s| |s m e] eqn:Hf; [..|done| ].
    all: rewrite SFcompare_refl in Hx by done; done.
  - intros ->. reflexivity.
Qed.

Lemma ltb_nan_l x y : is_nan x = true → (x <? y) = false.
Proof. rewrite is_nan_Prim2SF, ltb_spec. by intros ->. Qed.

Lemma ltb_nan_r x y : is_nan y = true → (x <? y) = false.
Proof. rewrite is_nan_Prim2SF, ltb_spec. intros ->. by destruct (Prim2SF x). Qed.

Lemma leb_nan_l x y : is_nan x = true → (x <=? y) = false.
Proof. rewrite is_nan_Prim2SF, leb_spec. by intros ->. Qed.

Lemma leb_nan_r x y : is_nan y = true → (x <=? y) = false.
Proof. rewrite is_nan_Prim2SF, leb_spec. intros ->. by destruct (Prim2SF x). Qed.

Lemma mul_nan_l x y : is_nan x = true → is_nan (x * y) = true.
Proof. rewrite !is_nan_Prim2SF, mul_spec. by intros ->. Qed.

(** A float is above zero, or at most zero, or NaN, and only one of these. *)
Lemma sign_cases x :
  ((0 <? x) = true ∧ (x <=? 0) = false ∧ is_nan x = false)
  ∨ ((0 <? x) = false ∧ (x <=? 0) = true ∧ is_nan x = false)
  ∨ ((0 <? x) = false ∧ (x <=? 0) = false ∧ is_nan x = true).
Proof.
  destruct (is_nan x) eqn:Hnan.
  - right; right. by rewrite ltb_nan_r, leb_nan_l.
  - rewrite ltb_spec, leb_spec.
    assert (Hx : Prim2SF x ≠ S754_nan).
    { intros Hx. apply is_nan_Prim2SF in Hx. congruence. }
    change (Prim2SF 0) with (S754_zero false).
    destruct (Prim2SF x) as [s|s| |s m e]; try done; destruct s; auto.
Qed.




End float_facts.

(** ** The indicator series *)
Section indicator_series.
Local Open Scope float_scope.

Lemma lookup_rolling_mean w xs t :
  (t < length xs)%nat → pd.rolling_mean w xs !! t = Some (pd.window_mean w xs t).
Proof.
  intros Ht. unfold pd.window_mean.
  destruct (lookup_lt_is_Some_2 (pd.rolling_mean w xs) t) as [v ->]; [|done].
  by rewrite length_rolling_mean.
Qed.

Lemma nobs_add_mean st values :
  (pd.nobs (foldl pd.add_mean st values) ≤ pd.nobs st + length values)%nat.
Proof.
  revert st. induction values as [|val values IH]; intros st; simpl; [lia|].
  etrans; [apply IH|]. unfold pd.add_mean. destruct (is_nan val); simpl; lia.
Qed.

Lemma length_slice values lo hi : (length (pd.slice values lo hi) ≤ hi - lo)%nat.
Proof. unfold pd.slice. rewrite length_take. lia. Qed.

(** While the window is not full, the values counted are at most the values
    seen. *)
Lemma nobs_roll_turn w values st i :
  (i + 1 ≤ w)%nat → (i = 0%nat ∨ pd.nobs st ≤ i)%nat →
  (pd.nobs (pd.roll_turn w values st i) ≤ i + 1)%nat.
Proof.
  intros Hw Hst. unfold pd.roll_turn, pd.window_start, pd.window_end.
  replace (i + 1 - w)%nat with 0%nat by lia.
  destruct i as [|j].
  - etrans; [apply nobs_add_mean|].
    pose proof (length_slice values 0 (0 + 1)). cbn [pd.nobs pd.roll_setup]. lia.
  - destruct (Nat.leb_spec (j + 1) 0) as [?|_]; [lia|].
    replace (pd.slice values (j + 1 - w) 0) with (@nil float)
      by (unfold pd.slice; by rewrite take_0).
    etrans; [apply nobs_add_mean|].
    pose proof (length_slice values (j + 1) (S j + 1)). cbn [foldl]. lia.
Qed.

Lemma roll_loop_warm_up w values : ∀ turns st i k v,
  (i = 0%nat ∨ pd.nobs st ≤ i)%nat →
  pd.roll_loop w values st i turns !! k = Some v →
  (i + k + 1 < w)%nat → v = nan.
Proof.
  induction turns as [|turns IH]; intros st i k v Hst Hv Hk; [done|].
  pose proof (nobs_roll_turn w values st i ltac:(lia) Hst) as Hnobs.
  destruct k as [|k]; cbn [pd.roll_loop lookup list_lookup] in Hv.
  - injection Hv as <-. unfold pd.calc_mean.
    destruct (Nat.leb_spec w (pd.nobs (pd.roll_turn w values st i))) as [?|_]; [lia|done].
  - eapply (IH (pd.roll_turn w values st i) (S i) k); [right; lia|done|lia].
Qed.

(** The rolling mean is NaN until the window is full. *)
Lemma window_mean_warm_up w xs t : (t + 1 < w)%nat → pd.window_mean w xs t = nan.
Proof.
  intros Hw. unfold pd.window_mean, pd.rolling_mean.
  destruct (Nat.eqb_spec w 0) as [->|_]; [lia|].
  destruct (pd.roll_loop _ _ _ _ _ !! t) as [v|] eqn:Hv; [|done].
  simpl. eapply roll_loop_warm_up; [by left|done|done].
Qed.

(** The gains and losses that [calculate_rsi] averages. *)
Lemma lookup_calculate_rsi series period t :
  (t < length series)%nat →
  strategy.calculate_rsi series period !! t
  = Some (100 - 100 /
            (1 + pd.window_mean period
                   (pd.where_ (fun d => d >? 0) 0 (pd.diff series)) t
                 / pd.window_mean period
                     (map opp (pd.where_ (fun d => d <? 0) 0 (pd.diff series))) t)).
Proof.
  intros Ht. unfold strategy.calculate_rsi.
  match goal with
  | |- map ?f ?l !! _ = _ => change (map f l) with (f <$> l)
  end.
  rewrite list_lookup_fmap, lookup_zip_with.
  rewrite !lookup_rolling_mean; [done|..];
    unfold pd.where_; rewrite ?length_map, length_diff; done.
Qed.

End indicator_series.

Local Open Scope float_scope.

(** X2. [calculate_rsi] and [calculate_macd] give series as long as their
    input, so that every derived column has one value per candle.  The MACD
    line is, candle by candle, the fast EMA minus the slow EMA, so it starts
    at the first value minus itself; the signal line is the EMA of the MACD
    line and starts at the first MACD value. *)
Theorem macd_line_and_signal (series : list float) (period fast slow signal : nat) :
  let macd := (strategy.calculate_macd series fast slow signal).1 in
  let signal_line := (strategy.calculate_macd series fast slow signal).2 in
  length (strategy.calculate_rsi series period) = length series
  ∧ length macd = length series
  ∧ length signal_line = length series
  ∧ (∀ t f s,
       strategy.calculate_ema series fast !! t = Some f →
       strategy.calculate_ema series slow !! t = Some s →
       macd !! t = Some (f - s))
  ∧ (∀ x, head series = Some x → head macd = Some (x - x))
  ∧ signal_line = strategy.calculate_ema macd signal
  ∧ head signal_line = head macd.
Proof.
  intros macd signal_line. subst macd signal_line.
  split_and!.
  - apply length_calculate_rsi.
  - apply length_calculate_macd.
  - apply length_calculate_macd.
  - intros t f s Hfast Hslow. unfold strategy.calculate_macd, strategy.calculate_ema in *.
    cbn [fst]. by rewrite lookup_zip_with, Hfast, Hslow.
  - intros x Hx. unfold strategy.calculate_macd, pd.ewm_mean. cbn [fst].
    destruct series as [|x0 rest]; [done|]. by injection Hx as ->.
  - reflexivity.
  - unfold strategy.calculate_macd, pd.ewm_mean. cbn [fst snd].
    by destruct (zip_with _ _ _).
Qed.

(** X3. The RSI is undefined (NaN) on the first [period - 1] values of a
    series: the rolling means of gain and loss need [period] values. *)
Theorem rsi_warm_up (series : list float) (period t : nat) :
  (t + 1 < period)%nat → (t < length series)%nat →
  ∃ v, strategy.calculate_rsi series period !! t = Some v ∧ is_nan v = true.
Proof.
  intros Hwarm Ht. eexists. split; [by apply lookup_calculate_rsi|].
  by rewrite !window_mean_warm_up.
Qed.

(** Witness for X3: the first value of a 14-period RSI. *)
Lemma rsi_warm_up_witness :
  (0 + 1 < 14)%nat ∧ (0 < length [100; 101; 99])%nat
  ∧ ∃ v, strategy.calculate_rsi [100; 101; 99] 14 !! 0%nat = Some v ∧ is_nan v = true.
Proof.
  assert (Hwarm : (0 + 1 < 14)%nat) by lia.
  assert (Ht : (0 < length [100; 101; 99])%nat) by (simpl; lia).
  split_and!; [exact Hwarm|exact Ht|].
  exact (rsi_warm_up [100; 101; 99] 14 0 Hwarm Ht).
Defined.



(** ** The result of [analyze] *)

Lemma evaluate_keys (self : strategy.Strategy) (last prev : strategy.Row) key :
  is_Some (strategy.evaluate self last prev !! key)
  ↔ key ∈ ["signal"; "price"; "rsi"; "macd"; "trend"; "volume_confirmed";
           "volume_ratio"; "ema_trend"; "ema_slow"; "ema_fast"; "reason"].
Proof.
  unfold strategy.evaluate.
  destruct (strategy.sell_conditions _ _ _ _) as [signal reason].
  rewrite <- elem_of_dom, dom_list_to_map_L, elem_of_list_to_set. reflexivity.
Qed.

Lemma evaluate_trend (self : strategy.Strategy) (last prev : strategy.Row) :
  strategy.evaluate self last prev !! "trend" = Some (VStr (strategy.trend last)).
Proof.
  unfold strategy.evaluate.
  destruct (strategy.sell_conditions _ _ _ _) as [signal reason]. reflexivity.
Qed.

(** The row [df.iloc[-1]] carries the close of the last candle. *)
Lemma iloc_back_last_close (df : DataFrame) (row : strategy.Row) :
  strategy.iloc_back df 1 = Some row →
  close <$> last (rows df) = Some (strategy.r_close row).
Proof.
  unfold strategy.iloc_back, strategy.iloc, len.
  destruct (Nat.ltb_spec (length (rows df)) 1) as [|Hlen]; [done|].
  rewrite last_lookup.
  replace (pred (length (rows df))) with (length (rows df) - 1)%nat by lia.
  destruct (rows df !! (length (rows df) - 1)%nat) as [c|]; [|done].
  simpl. intros Hrow.
  repeat match type of Hrow with
         | context [columns df !! ?name ≫= _] =>
             destruct (columns df !! name ≫= _); simpl in Hrow; [|done]
         end.
  by simplify_eq.
Qed.

(** X5. On a series that passes the warm-up, [analyze] returns a dictionary
    with exactly eleven keys.  Its signal is [None], ['buy'] or ['sell'], its
    trend ['uptrend'] or ['downtrend'], its price the close of the last
    candle, and its reason a joined trail with at least one entry: the
    fallback text 'Market Scanning...' is never returned. *)
Theorem analysis_result_shape (self : strategy.Strategy) (df : DataFrame) :
  (Nat.max (strategy.ema_trend self) (strategy.macd_slow self) ≤ len df)%nat →
  (2 ≤ len df)%nat →
  ∃ (result : dict) (items : list ReasonItem),
    (strategy.analyze self df).2 = Returned result
    ∧ (∀ key, is_Some (result !! key)
              ↔ key ∈ ["signal"; "price"; "rsi"; "macd"; "trend"; "volume_confirmed";
                       "volume_ratio"; "ema_trend"; "ema_slow"; "ema_fast"; "reason"])
    ∧ (result !! "signal" = Some VNone
       ∨ result !! "signal" = Some (VStr "buy")
       ∨ result !! "signal" = Some (VStr "sell"))
    ∧ (result !! "trend" = Some (VStr "uptrend")
       ∨ result !! "trend" = Some (VStr "downtrend"))
    ∧ result !! "price" = VFloat <$> (close <$> last (rows df))
    ∧ result !! "reason" = Some (VJoined items)
    ∧ items ≠ [].
Proof.
  intros Hwarm Hlen.
  assert (Hguard : strategy.insufficient self df = false)
    by (apply insufficient_false; lia).
  destruct (analyze_sufficient self df Hguard Hlen) as (last & prev & Hlast & Hprev & Hrun).
  exists (strategy.evaluate self last prev),
    (strategy.sell_conditions self last prev (strategy.buy_conditions self last prev)).2.
  split_and!.
  - by rewrite Hrun.
  - apply evaluate_keys.
  - rewrite evaluate_signal.
    unfold strategy.sell_conditions, strategy.buy_conditions.
    repeat case_match; simpl; auto.
  - rewrite evaluate_trend. unfold strategy.trend. case_match; auto.
  - rewrite evaluate_price.
    apply iloc_back_last_close in Hlast. rewrite rows_add_indicators in Hlast.
    by rewrite Hlast.
  - apply evaluate_reason.
  - apply sell_conditions_trail_nonempty, buy_conditions_trail_nonempty.
Qed.

(** Witness for X5: the falling sample. *)
Lemma analysis_result_shape_witness :
  (Nat.max (strategy.ema_trend strategy.Strategy_init)
     (strategy.macd_slow strategy.Strategy_init) ≤ len samples.falling)%nat
  ∧ (2 ≤ len samples.falling)%nat
  ∧ ∃ (result : dict) (items : list ReasonItem),
      (strategy.analyze strategy.Strategy_init samples.falling).2 = Returned result
      ∧ result !! "reason" = Some (VJoined items)
      ∧ items ≠ [].
Proof.
  assert (Hwarm : (Nat.max (strategy.ema_trend strategy.Strategy_init)
                     (strategy.macd_slow strategy.Strategy_init)
                   ≤ len samples.falling)%nat) by (vm_compute; lia).
  assert (Hlen : (2 ≤ len samples.falling)%nat) by (vm_compute; lia).
  split_and!; [exact Hwarm|exact Hlen|].
  destruct (analysis_result_shape strategy.Strategy_init samples.falling Hwarm Hlen)
    as (result & items & Hrun & _ & _ & _ & _ & Hreason & Hitems).
  exists result, items. split_and!; assumption.
Defined.

(** X6. An undefined indicator never buys: when the last close, the trend
    EMA, the RSI, the MACD or its signal line (of the last or of the previous
    row) or the average volume is NaN, the signal of [analyze] is not
    ['buy']. *)
Theorem undefined_indicator_never_buys (self : strategy.Strategy) (df : DataFrame) :
  (Nat.max (strategy.ema_trend self) (strategy.macd_slow self) ≤ len df)%nat →
  (2 ≤ len df)%nat →
  ∃ (last prev : strategy.Row) (result : dict),
    strategy.iloc_back (strategy.add_indicators self df) 1 = Some last
    ∧ strategy.iloc_back (strategy.add_indicators self df) 2 = Some prev
    ∧ (strategy.analyze self df).2 = Returned result
    ∧ (is_nan (strategy.r_close last) = true
       ∨ is_nan (strategy.r_ema_trend last) = true
       ∨ is_nan (strategy.r_rsi last) = true
       ∨ is_nan (strategy.r_macd last) = true
       ∨ is_nan (strategy.r_macd_signal last) = true
       ∨ is_nan (strategy.r_macd prev) = true
       ∨ is_nan (strategy.r_macd_signal prev) = true
       ∨ is_nan (strategy.r_volume last) = true
       ∨ is_nan (strategy.r_volume_avg last) = true →
       result !! "signal" ≠ Some (VStr "buy")).
Proof.
  intros Hwarm Hlen.
  assert (Hguard : strategy.insufficient self df = false)
    by (apply insufficient_false; lia).
  destruct (analyze_sufficient self df Hguard Hlen) as (last & prev & Hlast & Hprev & Hrun).
  exists last, prev, (strategy.evaluate self last prev).
  split_and!; [done|done|by rewrite Hrun|].
  intros Hnan. rewrite evaluate_signal.
  assert (Hno : (strategy.buy_conditions self last prev).1 ≠ VStr "buy").
  { unfold strategy.buy_conditions, strategy.trend, strategy.volume_confirmed,
      strategy.macd_bullish_cross, pyfloat.gtb.
    destruct Hnan as [H|[H|[H|[H|[H|[H|[H|[H|H]]]]]]]].
    - rewrite (ltb_nan_r _ _ H). simpl. discriminate.
    - rewrite (ltb_nan_l _ _ H). simpl. discriminate.
    - rewrite (leb_nan_r _ _ H). simpl. repeat case_match; simpl; discriminate.
    - rewrite (ltb_nan_r _ (strategy.r_macd last) H), andb_false_r.
      repeat case_match; simpl; discriminate.
    - rewrite (ltb_nan_l (strategy.r_macd_signal last) _ H), andb_false_r.
      repeat case_match; simpl; discriminate.
    - rewrite (ltb_nan_l (strategy.r_macd prev) _ H). simpl.
      repeat case_match; simpl; discriminate.
    - rewrite (ltb_nan_r _ (strategy.r_macd_signal prev) H). simpl.
      repeat case_match; simpl; discriminate.
    - rewrite (ltb_nan_r _ (strategy.r_volume last) H).
      repeat case_match; simpl; discriminate.
    - rewrite (ltb_nan_l _ (strategy.r_volume last)
                 (mul_nan_l _ (strategy.volume_multiplier self) H)).
      repeat case_match; simpl; discriminate. }
  unfold strategy.sell_conditions.
  repeat case_match; simpl; try discriminate.
  intros [= Hbuy]. by apply Hno.
Qed.

(** Witness for X6: a flat market, where the RSI is [0 / 0]. *)
Lemma undefined_indicator_never_buys_witness :
  (Nat.max (strategy.ema_trend strategy.Strategy_init)
     (strategy.macd_slow strategy.Strategy_init) ≤ len (samples.flat 201))%nat
  ∧ (2 ≤ len (samples.flat 201))%nat
  ∧ ∃ (last prev : strategy.Row) (result : dict),
      strategy.iloc_back
        (strategy.add_indicators strategy.Strategy_init (samples.flat 201)) 1 = Some last
      ∧ (strategy.analyze strategy.Strategy_init (samples.flat 201)).2 = Returned result
      ∧ (is_nan (strategy.r_rsi last) = true → result !! "signal" ≠ Some (VStr "buy")).
Proof.
  assert (Hwarm : (Nat.max (strategy.ema_trend strategy.Strategy_init)
                     (strategy.macd_slow strategy.Strategy_init)
                   ≤ len (samples.flat 201))%nat) by (vm_compute; lia).
  assert (Hlen : (2 ≤ len (samples.flat 201))%nat) by (vm_compute; lia).
  split_and!; [exact Hwarm|exact Hlen|].
  destruct (undefined_indicator_never_buys strategy.Strategy_init (samples.flat 201)
              Hwarm Hlen)
    as (last & prev & result & Hlast & _ & Hrun & Hnan).
  exists last, prev, result. split_and!; [exact Hlast|exact Hrun|].
  intros Hrsi. apply Hnan. auto.
Defined.

(** In the flat market the RSI of the last row is indeed undefined. *)
Example flat_market_rsi_is_undefined :
  is_nan
    <$> (strategy.r_rsi
           <$> strategy.iloc_back
                 (strategy.add_indicators strategy.Strategy_init (samples.flat 201)) 1)
  = Some true.
Proof. vm_compute. reflexivity. Qed.

(** ** A flat market *)
Section flat_market.
Import Stdlib.Floats.Floats.
Local Open Scope float_scope.

Lemma ltb_irrefl x : (x <? x) = false.
Proof.
  destruct (is_nan x) eqn:Hnan; [by apply ltb_nan_l|].
  rewrite ltb_spec. unfold SFltb. rewrite SFcompare_refl; [done|].
  intros Hx. apply is_nan_Prim2SF in Hx. congruence.
Qed.

(** A float minus itself is zero, or NaN when the float is not finite. *)
Lemma sub_diag x : Prim2SF (x - x) = S754_zero false ∨ Prim2SF (x - x) = S754_nan.
Proof.
  rewrite sub_spec. destruct (Prim2SF x) as [s|s| |s m e].
  - left. by destruct s.
  - right. by destruct s.
  - by right.
  - left. unfold SF64sub, SFsub. cbv zeta. rewrite Z.sub_diag. reflexivity.
Qed.

Lemma sub_diag_not_above x : (0 <? x - x) = false.
Proof.
  rewrite ltb_spec. change (Prim2SF 0) with (S754_zero false).
  by destruct (sub_diag x) as [-> | ->].
Qed.

Lemma sub_diag_not_below x : (x - x <? 0) = false.
Proof.
  rewrite ltb_spec. change (Prim2SF 0) with (S754_zero false).
  by destruct (sub_diag x) as [-> | ->].
Qed.

(** The EMA of a flat series is the series. *)
Lemma ewm_step_flat com st c :
  pd.weighted st = c → pd.weighted (pd.ewm_step com st c) = c.
Proof.
  intros <-. unfold pd.ewm_step, pyfloat.neb.
  destruct (is_nan (pd.weighted st)) eqn:Hnan; [done|].
  unfold is_nan in Hnan. by rewrite Hnan.
Qed.

Lemma ewm_from_flat com c n : ∀ st,
  pd.weighted st = c → pd.ewm_from com st (replicate n c) = replicate n c.
Proof.
  induction n as [|n IH]; intros st Hst; [done|].
  cbn [replicate pd.ewm_from]. rewrite (ewm_step_flat com st c Hst).
  f_equal. apply IH. by apply ewm_step_flat.
Qed.

Lemma calculate_ema_flat n c span :
  strategy.calculate_ema (replicate n c) span = replicate n c.
Proof.
  unfold strategy.calculate_ema, pd.ewm_mean.
  destruct n as [|n]; [done|]. cbn [replicate]. f_equal. by apply ewm_from_flat.
Qed.

Lemma zip_with_flat {A B} (f : A → A → B) n c :
  zip_with f (c :: replicate n c) (replicate n c) = replicate n (f c c).
Proof. induction n as [|n IH]; [done|]. cbn [replicate zip_with]. f_equal. exact IH. Qed.

Lemma map_replicate {A B} (f : A → B) n x : map f (replicate n x) = replicate n (f x).
Proof. induction n as [|n IH]; [done|]. cbn [replicate map]. by rewrite IH. Qed.

(** The gains and the losses of a flat series are zeros. *)
Lemma gains_flat n c :
  pd.where_ (fun d => d >? 0) 0 (pd.diff (replicate n c)) = replicate n 0.
Proof.
  destruct n as [|n]; [done|].
  unfold pd.diff, pd.where_. cbn [replicate]. rewrite zip_with_flat.
  cbn [map]. rewrite map_replicate. unfold pyfloat.gtb.
  by rewrite sub_diag_not_above.
Qed.

Lemma losses_flat n c :
  map opp (pd.where_ (fun d => d <? 0) 0 (pd.diff (replicate n c))) = replicate n (-0).
Proof.
  destruct n as [|n]; [done|].
  unfold pd.diff, pd.where_. cbn [replicate]. rewrite zip_with_flat.
  cbn [map]. rewrite !map_replicate.
  by rewrite sub_diag_not_below.
Qed.

(** The rolling mean of a series of one value. *)
Lemma counts_only_add v st :
  is_nan v = false → counts_only v st → counts_only v (pd.add_mean st v).
Proof.
  intros Hnan [Hrun Hprev]. unfold pd.add_mean. rewrite Hnan.
  split; cbn [pd.nobs pd.num_consecutive_same_value pd.prev_value]; [|done].
  destruct (v =? pd.prev_value st) eqn:Hsame; [lia|].
  destruct (pd.nobs st) as [|k]; [lia|].
  rewrite Hprev in Hsame by lia. unfold is_nan in Hnan. by rewrite Hsame in Hnan.
Qed.

Lemma counts_only_remove v st x :
  counts_only v st → counts_only v (pd.remove_mean st x).
Proof.
  intros [Hrun Hprev]. unfold pd.remove_mean. destruct (is_nan x); [done|].
  split; cbn [pd.nobs pd.num_consecutive_same_value pd.prev_value]; [lia|].
  intros Hpos. apply Hprev. lia.
Qed.

Lemma counts_only_added v values : ∀ st,
  is_nan v = false → Forall (fun x => x = v) values →
  counts_only v st → counts_only v (foldl pd.add_mean st values).
Proof.
  induction values as [|x values IH]; intros st Hnan Hvalues Hst; [done|].
  apply Forall_cons in Hvalues as [-> Hvalues].
  cbn [foldl]. apply IH; [done..|]. by apply counts_only_add.
Qed.

Lemma counts_only_removed v values : ∀ st,
  counts_only v st → counts_only v (foldl pd.remove_mean st values).
Proof.
  induction values as [|x values IH]; intros st Hst; [done|].
  cbn [foldl]. apply IH. by apply counts_only_remove.
Qed.

Lemma slice_flat n (v : float) lo hi :
  Forall (fun x => x = v) (pd.slice (replicate n v) lo hi).
Proof.
  unfold pd.slice. apply Forall_take, Forall_drop. by apply Forall_replicate.
Qed.

Lemma counts_only_turn v w n st i :
  is_nan v = false →
  counts_only v st → counts_only v (pd.roll_turn w (replicate n v) st i).
Proof.
  intros Hnan Hst.
  assert (Hsetup : ∀ s, counts_only v (pd.roll_setup (replicate n v) s)).
  { intros s. split; cbn [pd.nobs pd.roll_setup pd.num_consecutive_same_value]; lia. }
  unfold pd.roll_turn. destruct i as [|j].
  - apply counts_only_added; [done|apply slice_flat|apply Hsetup].
  - destruct (pd.window_end j <=? pd.window_start w (S j))%nat.
    + apply counts_only_added; [done|apply slice_flat|apply Hsetup].
    + apply counts_only_added; [done|apply slice_flat|].
      by apply counts_only_removed.
Qed.

Lemma calc_mean_flat v w st :
  counts_only v st → pd.calc_mean w st = nan ∨ pd.calc_mean w st = v.
Proof.
  intros [Hrun Hprev]. unfold pd.calc_mean.
  destruct (_ && _) eqn:Hfull; [|by left].
  apply andb_true_iff in Hfull as [_ Hpos%Nat.ltb_lt].
  destruct (Nat.leb_spec (pd.nobs st) (pd.num_consecutive_same_value st)); [|lia].
  right. by apply Hprev.
Qed.

Lemma roll_loop_flat v w n : ∀ turns st i,
  is_nan v = false → counts_only v st →
  Forall (fun x => x = nan ∨ x = v) (pd.roll_loop w (replicate n v) st i turns).
Proof.
  induction turns as [|turns IH]; intros st i Hnan Hst; [by constructor|].
  cbn [pd.roll_loop]. cbv zeta.
  pose proof (counts_only_turn v w n st i Hnan Hst) as Hturn.
  constructor; [by apply calc_mean_flat|by apply IH].
Qed.

Lemma window_mean_flat v w n t :
  is_nan v = false → is_infinity v = false →
  pd.window_mean w (replicate n v) t = nan ∨ pd.window_mean w (replicate n v) t = v.
Proof.
  intros Hnan Hinf. unfold pd.window_mean.
  destruct (pd.rolling_mean w (replicate n v) !! t) as [x|] eqn:Hx; [|by left].
  cbn [default from_option id]. revert Hx. unfold pd.rolling_mean.
  destruct (w =? 0)%nat.
  - rewrite map_replicate. intros [-> _]%lookup_replicate_1. by left.
  - rewrite map_replicate, Hinf. intros Hx.
    eapply (Forall_lookup_1 _ _ _ _ (roll_loop_flat v w n _ _ _ Hnan _) Hx).
    Unshelve. split; cbn [pd.nobs pd.roll_setup pd.num_consecutive_same_value]; lia.
Qed.

(** The RSI of a flat series is undefined at every index. *)
Lemma calculate_rsi_flat n c period t v :
  strategy.calculate_rsi (replicate n c) period !! t = Some v → is_nan v = true.
Proof.
  intros Hv.
  assert (Ht : (t < length (replicate n c))%nat).
  { rewrite <- (length_calculate_rsi _ period). by eapply lookup_lt_Some. }
  rewrite (lookup_calculate_rsi _ _ _ Ht), gains_flat, losses_flat in Hv.
  injection Hv as <-.
  destruct (window_mean_flat 0 period n t) as [-> | ->]; [done..| |];
    match goal with
    | |- context [pd.window_mean ?w (replicate ?k ?z) ?i] =>
        destruct (window_mean_flat z w k i) as [-> | ->]; done
    end.
Qed.

Lemma calculate_macd_flat n c fast slow signal :
  strategy.calculate_macd (replicate n c) fast slow signal
  = (replicate n (c - c), replicate n (c - c)).
Proof.
  unfold strategy.calculate_macd. cbv zeta.
  pose proof (calculate_ema_flat n) as Hema. unfold strategy.calculate_ema in Hema.
  by rewrite !Hema, zip_with_replicate, Hema.
Qed.

(** The columns that the decision reads. *)
Lemma indicator_series_of_frame (self : strategy.Strategy) (df : DataFrame) :
  let closes := map close (rows df) in
  let cols := columns (strategy.add_indicators self df) in
  cols !! "ema_trend" = Some (strategy.calculate_ema closes (strategy.ema_trend self))
  ∧ cols !! "ema_slow" = Some (strategy.calculate_ema closes (strategy.ema_slow self))
  ∧ cols !! "rsi" = Some (strategy.calculate_rsi closes (strategy.rsi_period self))
  ∧ cols !! "macd"
    = Some (strategy.calculate_macd closes (strategy.macd_fast self)
              (strategy.macd_slow self) (strategy.macd_signal self)).1
  ∧ cols !! "macd_signal"
    = Some (strategy.calculate_macd closes (strategy.macd_fast self)
              (strategy.macd_slow self) (strategy.macd_signal self)).2.
Proof.
  unfold strategy.add_indicators, strategy.calculate_macd, set_column. simpl.
  split_and!; by simplify_map_eq.
Qed.

(** A row of a flat market after [add_indicators]. *)
Lemma iloc_flat (self : strategy.Strategy) (df : DataFrame) c i row :
  map close (rows df) = replicate (len df) c →
  strategy.iloc (strategy.add_indicators self df) i = Some row →
  strategy.r_close row = c
  ∧ strategy.r_ema_trend row = c
  ∧ strategy.r_ema_slow row = c
  ∧ is_nan (strategy.r_rsi row) = true
  ∧ strategy.r_macd row = c - c
  ∧ strategy.r_macd_signal row = c - c.
Proof.
  intros Hflat Hrow.
  destruct (indicator_series_of_frame self df) as (Htrend & Hslow & Hrsi & Hmacd & Hsignal).
  cbv zeta in Htrend, Hslow, Hrsi, Hmacd, Hsignal.
  rewrite Hflat in Htrend, Hslow, Hrsi, Hmacd, Hsignal.
  rewrite calculate_ema_flat in Htrend, Hslow.
  rewrite calculate_macd_flat in Hmacd, Hsignal. cbn [fst snd] in Hmacd, Hsignal.
  unfold strategy.iloc in Hrow.
  rewrite rows_add_indicators, Htrend, Hslow, Hrsi, Hmacd, Hsignal in Hrow.
  destruct (rows df !! i) as [k|] eqn:Hk; [|done].
  assert (Hclose : close k = c).
  { assert (Hc : map close (rows df) !! i = Some (close k)).
    { change (map close (rows df)) with (close <$> rows df).
      by rewrite list_lookup_fmap, Hk. }
    rewrite Hflat in Hc. by apply lookup_replicate_1 in Hc as [-> _]. }
  cbn [mbind option_bind] in Hrow.
  destruct (replicate (len df) c !! i) as [a|] eqn:Ha; [|done].
  apply lookup_replicate_1 in Ha as [-> _].
  cbn [mbind option_bind] in Hrow.
  destruct (columns _ !! "ema_fast" ≫= _) as [fast|]; [|done].
  cbn [mbind option_bind] in Hrow.
  destruct (strategy.calculate_rsi _ _ !! i) as [rsi|] eqn:Hi; [|done].
  apply calculate_rsi_flat in Hi.
  cbn [mbind option_bind] in Hrow.
  destruct (replicate (len df) (c - c) !! i) as [d|] eqn:Hd; [|done].
  apply lookup_replicate_1 in Hd as [-> _].
  cbn [mbind option_bind] in Hrow.
  destruct (columns _ !! "volume_avg" ≫= _) as [avg|]; [|done].
  cbn [mbind option_bind] in Hrow.
  injection Hrow as <-. by cbn.
Qed.

End flat_market.

(** X23. A flat market gives no signal.  When every candle of the frame
    closes at the same price [c], whatever the volumes, and whatever the
    periods of the strategy with each EMA span at least 1 (pandas refuses a
    smaller span), [analyze] on a frame that passes the warm-up returns the
    signal [None] with the trend ['downtrend'], the one reason 'Downtrend'
    and the price [c]: each EMA of a flat series is the series, so the price
    is not above the trend EMA; and no sell condition holds, since the RSI is
    undefined, the MACD equals its signal line and the price is not above the
    slow EMA on the row before. *)
Theorem flat_market_gives_no_signal (self : strategy.Strategy) (df : DataFrame)
    (c : float) :
  Forall (fun span => (1 ≤ span)%nat)
    [strategy.ema_trend self; strategy.ema_fast self; strategy.ema_slow self;
     strategy.macd_fast self; strategy.macd_slow self; strategy.macd_signal self] →
  map close (rows df) = replicate (len df) c →
  (Nat.max (strategy.ema_trend self) (strategy.macd_slow self) ≤ len df)%nat →
  (2 ≤ len df)%nat →
  ∃ result : dict,
    (strategy.analyze self df).2 = Returned result
    ∧ result !! "signal" = Some VNone
    ∧ result !! "trend" = Some (VStr "downtrend")
    ∧ result !! "reason" = Some (VJoined [Downtrend])
    ∧ result !! "price" = Some (VFloat c).
Proof.
  intros _ Hflat Hwarm Hlen.
  assert (Hguard : strategy.insufficient self df = false)
    by (apply insufficient_false; lia).
  destruct (analyze_sufficient self df Hguard Hlen) as (last & prev & Hlast & Hprev & Hrun).
  unfold strategy.iloc_back in Hlast, Hprev. rewrite len_add_indicators in Hlast, Hprev.
  destruct (Nat.ltb_spec (len df) 1) as [?|_]; [lia|].
  destruct (Nat.ltb_spec (len df) 2) as [?|_]; [lia|].
  destruct (iloc_flat self df c _ last Hflat Hlast)
    as (Hclose & Htrend & Hslow & Hrsi & Hmacd & Hsignal).
  destruct (iloc_flat self df c _ prev Hflat Hprev)
    as (Hclose' & _ & Hslow' & _ & Hmacd' & Hsignal').
  assert (Hbuy : strategy.buy_conditions self last prev = (VNone, [Downtrend])).
  { unfold strategy.buy_conditions, strategy.trend, pyfloat.gtb.
    by rewrite Hclose, Htrend, ltb_irrefl. }
  assert (Hsell : strategy.sell_conditions self last prev (VNone, [Downtrend])
                  = (VNone, [Downtrend])).
  { unfold strategy.sell_conditions, strategy.macd_bearish_cross,
      strategy.price_cross_below_ema50, pyfloat.gtb.
    rewrite (ltb_nan_r _ _ Hrsi), Hmacd', Hsignal', Hclose', Hslow'.
    by rewrite !ltb_irrefl. }
  exists (strategy.evaluate self last prev). split_and!.
  - by rewrite Hrun.
  - by rewrite evaluate_signal, Hbuy, Hsell.
  - rewrite evaluate_trend. unfold strategy.trend, pyfloat.gtb.
    by rewrite Hclose, Htrend, ltb_irrefl.
  - by rewrite evaluate_reason, Hbuy, Hsell.
  - by rewrite evaluate_price, Hclose.
Qed.

(** Witness for X23: 201 candles that close at 100. *)
Lemma flat_market_gives_no_signal_witness :
  Forall (fun span => (1 ≤ span)%nat)
    [strategy.ema_trend strategy.Strategy_init; strategy.ema_fast strategy.Strategy_init;
     strategy.ema_slow strategy.Strategy_init; strategy.macd_fast strategy.Strategy_init;
     strategy.macd_slow strategy.Strategy_init; strategy.macd_signal strategy.Strategy_init]
  ∧ map close (rows (samples.flat 201)) = replicate (len (samples.flat 201)) 100
  ∧ (Nat.max (strategy.ema_trend strategy.Strategy_init)
       (strategy.macd_slow strategy.Strategy_init) ≤ len (samples.flat 201))%nat
  ∧ (2 ≤ len (samples.flat 201))%nat
  ∧ ∃ result : dict,
      (strategy.analyze strategy.Strategy_init (samples.flat 201)).2 = Returned result
      ∧ result !! "signal" = Some VNone
      ∧ result !! "reason" = Some (VJoined [Downtrend]).
Proof.
  assert (Hspans :
    Forall (fun span => (1 ≤ span)%nat)
      [strategy.ema_trend strategy.Strategy_init; strategy.ema_fast strategy.Strategy_init;
       strategy.ema_slow strategy.Strategy_init; strategy.macd_fast strategy.Strategy_init;
       strategy.macd_slow strategy.Strategy_init; strategy.macd_signal strategy.Strategy_init])
    by (repeat (apply Forall_cons; split; [vm_compute; lia|]); apply Forall_nil_2).
  assert (Hflat : map close (rows (samples.flat 201))
                  = replicate (len (samples.flat 201)) 100) by (vm_compute; reflexivity).
  assert (Hwarm : (Nat.max (strategy.ema_trend strategy.Strategy_init)
                     (strategy.macd_slow strategy.Strategy_init)
                   ≤ len (samples.flat 201))%nat) by (vm_compute; lia).
  assert (Hlen : (2 ≤ len (samples.flat 201))%nat) by (vm_compute; lia).
  split_and!; [exact Hspans|exact Hflat|exact Hwarm|exact Hlen|].
  destruct (flat_market_gives_no_signal strategy.Strategy_init (samples.flat 201) 100
              Hspans Hflat Hwarm Hlen)
    as (result & Hrun & Hnone & _ & Hreason & _).
  exists result. split_and!; assumption.
Defined.

(** ** More of the replay ledger *)

(** X7. When the candle's low stays above the stop-loss, a high at or above
    the take-profit closes the position at exactly the take-profit price,
    with the reason [take_profit] and the PnL [(take_profit - entry) * amount];
    when the high stays below it too, nothing changes. *)
Theorem take_profit_or_hold (self : backtester.Backtester) (p : backtester.Position)
    (row : Candle) :
  backtester.position self = Some p →
  (low row <=? backtester.sl p) = false →
  ((high row >=? backtester.tp p) = true →
     ∃ t : backtester.Trade,
       backtester.check_stop_loss_take_profit self row = backtester.with_closed self t
       ∧ backtester.t_exit_price t = backtester.tp p
       ∧ backtester.exit_reason t = "take_profit"
       ∧ backtester.pnl_usd t
         = (backtester.tp p - backtester.entry_price p) * backtester.amount_btc p
       ∧ backtester.t_entry_price t = backtester.entry_price p
       ∧ backtester.t_exit_time t = timestamp row)
  ∧ ((high row >=? backtester.tp p) = false →
     backtester.check_stop_loss_take_profit self row = self).
Proof.
  intros Hopen Hlow. unfold backtester.check_stop_loss_take_profit.
  rewrite Hopen, Hlow. split; intros ->; [|done].
  eexists. split; [reflexivity|]. by split_and!.
Qed.

(** Witness for X7: entry 100, stop-loss 95, take-profit 110 and a candle
    between 99 and 111. *)
Lemma take_profit_or_hold_witness :
  let self := samples.holding (Some (samples.replay_position 95)) [] in
  let row := {| timestamp := 60000; open := 100; high := 111; low := 99;
                close := 110; volume := 1 |} in
  backtester.position self = Some (samples.replay_position 95)
  ∧ (low row <=? backtester.sl (samples.replay_position 95)) = false
  ∧ ∃ t : backtester.Trade,
      backtester.check_stop_loss_take_profit self row = backtester.with_closed self t
      ∧ backtester.t_exit_price t = 110
      ∧ backtester.exit_reason t = "take_profit".
Proof.
  intros self row.
  assert (Hopen : backtester.position self = Some (samples.replay_position 95))
    by reflexivity.
  assert (Hlow : (low row <=? backtester.sl (samples.replay_position 95)) = false)
    by reflexivity.
  split_and!; [exact Hopen|exact Hlow|].
  destruct (proj1 (take_profit_or_hold self (samples.replay_position 95) row Hopen Hlow)
              eq_refl)
    as (t & Hrun & Hexit & Hwhy & _).
  exists t. split_and!; [exact Hrun|exact Hexit|exact Hwhy].
Defined.

(** X8. A buy on a flat backtester followed by a sell: the position is
    sized at 95% of the capital, its stop-loss and take-profit are the entry
    price times [1 - stop_loss_pct] and [1 + take_profit_pct]; the sell
    appends one trade with the reason [signal] and the PnL
    [(exit - entry) * amount], adds that PnL to the capital and leaves the
    backtester flat. *)
Theorem buy_then_sell_round_trip (self : backtester.Backtester) (entry exit : float)
    (t_in t_out : Z) (why_in why_out : dict) :
  backtester.position self = None →
  let amount := backtester.capital self * 0.95 / entry in
  let opened := backtester.simulate_trade self (VStr "buy") entry t_in why_in in
  let closed := backtester.simulate_trade opened (VStr "sell") exit t_out why_out in
  (∃ p, backtester.position opened = Some p
        ∧ backtester.entry_price p = entry
        ∧ backtester.amount_btc p = amount
        ∧ backtester.amount_usd p = backtester.capital self * 0.95
        ∧ backtester.sl p = entry * (1 - backtester.stop_loss_pct self)
        ∧ backtester.tp p = entry * (1 + backtester.take_profit_pct self))
  ∧ backtester.trades opened = backtester.trades self
  ∧ backtester.capital opened = backtester.capital self
  ∧ backtester.position closed = None
  ∧ backtester.capital closed = backtester.capital self + (exit - entry) * amount
  ∧ ∃ t, backtester.trades closed = backtester.trades self ++ [t]
         ∧ backtester.t_entry_price t = entry
         ∧ backtester.t_exit_price t = exit
         ∧ backtester.t_entry_time t = t_in
         ∧ backtester.t_exit_time t = t_out
         ∧ backtester.pnl_usd t = (exit - entry) * amount
         ∧ backtester.pnl_pct t = (exit - entry) / entry * 100
         ∧ backtester.exit_reason t = "signal".
Proof.
  intros Hflat amount opened closed.
  subst opened closed amount. unfold backtester.simulate_trade.
  rewrite Hflat. simpl.
  split_and!; try reflexivity.
  - eexists. by split_and!.
  - eexists. by split_and!.
Qed.

(** Witness for X8: 10000 of capital, bought at 100 and sold at 110. *)
Lemma buy_then_sell_round_trip_witness :
  let self := backtester.Backtester_init in
  let closed :=
    backtester.simulate_trade
      (backtester.simulate_trade self (VStr "buy") 100 0 ∅) (VStr "sell") 110 60000 ∅ in
  backtester.position self = None
  ∧ backtester.position closed = None
  ∧ backtester.capital closed = 10950.
Proof.
  intros self closed.
  assert (Hflat : backtester.position self = None) by reflexivity.
  split; [exact Hflat|].
  destruct (buy_then_sell_round_trip self 100 110 0 60000 ∅ ∅ Hflat)
    as (_ & _ & _ & Hclosed & Hcapital & _).
  split; [exact Hclosed|].
  etrans; [exact Hcapital|]. reflexivity.
Defined.

(** ** Bookkeeping of the replay *)
Section replay_books.
Local Open Scope float_scope.

Lemma books_refl self : books self self [].
Proof. unfold books. rewrite app_nil_r. by split_and!. Qed.

Lemma books_trans a b c new1 new2 :
  books a b new1 → books b c new2 → books a c (new1 ++ new2).
Proof.
  unfold books. intros (Ht1 & Hr1 & Hc1 & Hi1 & Hs1) (Ht2 & Hr2 & Hc2 & Hi2 & Hs2).
  split_and!.
  - by rewrite Ht2, Ht1, app_assoc.
  - by apply Forall_app.
  - by rewrite Hc2, Hc1, map_app, fold_left_app.
  - congruence.
  - congruence.
Qed.

Lemma books_closed self t :
  backtester.exit_reason t ∈ ["signal"; "stop_loss"; "take_profit"] →
  books self (backtester.with_closed self t) [t].
Proof. intros Hwhy. unfold books. simpl. split_and!; try done. by apply Forall_singleton. Qed.

Lemma check_stop_loss_take_profit_books self row :
  (backtester.check_stop_loss_take_profit self row = self
   ∧ books self (backtester.check_stop_loss_take_profit self row) [])
  ∨ (∃ t, backtester.position (backtester.check_stop_loss_take_profit self row) = None
          ∧ books self (backtester.check_stop_loss_take_profit self row) [t]).
Proof.
  unfold backtester.check_stop_loss_take_profit.
  destruct (backtester.position self) as [p|]; [|left; split; [done|apply books_refl]].
  repeat case_match.
  - right. eexists. split; [done|]. apply books_closed. set_solver.
  - right. eexists. split; [done|]. apply books_closed. set_solver.
  - left. split; [done|apply books_refl].
Qed.

Lemma simulate_trade_books self signal price time analysis :
  ∃ new, books self (backtester.simulate_trade self signal price time analysis) new
         ∧ (length new ≤ 1)%nat
         ∧ (backtester.position self = None → new = []).
Proof.
  unfold backtester.simulate_trade.
  destruct (backtester.position self) as [p|]; repeat case_match.
  all: try (exists []; split_and!; [apply books_refl || (unfold books; simpl;
              rewrite app_nil_r; by split_and!)|simpl; lia|done]).
  eexists [_]. split_and!; [apply books_closed; set_solver|simpl; lia|done].
Qed.

Lemma with_equity_books self e : books self (backtester.with_equity self e) [].
Proof. unfold books. simpl. rewrite app_nil_r. by split_and!. Qed.

Lemma replay_candle_books df self i after :
  backtester.replay_candle df self i = Returned after →
  ∃ new, books self after new ∧ (length new ≤ 1)%nat
         ∧ length (backtester.equity_curve after)
           = S (length (backtester.equity_curve self)).
Proof.
  unfold backtester.replay_candle.
  destruct (strategy.analyze _ _) as [w [analysis|e]]; [|done].
  destruct (rows df !! i) as [row|]; [|done].
  intros [= <-].
  assert (Hcurve : backtester.equity_curve (backtester.check_stop_loss_take_profit self row)
                   = backtester.equity_curve self).
  { unfold backtester.check_stop_loss_take_profit. by repeat case_match. }
  assert (Hsim : ∀ s signal price time a,
            backtester.equity_curve (backtester.simulate_trade s signal price time a)
            = backtester.equity_curve s).
  { intros. unfold backtester.simulate_trade. by repeat case_match. }
  pose proof (check_stop_loss_take_profit_books self row) as Hcheck.
  remember (backtester.check_stop_loss_take_profit self row) as checked eqn:Hchecked in *.
  destruct Hcheck as [[Hsame Hbooks]|(t & Hflat & Hbooks)].
  - destruct (truthy _).
    + destruct (simulate_trade_books checked (dict_get analysis "signal")
                  (close row) (timestamp row) analysis) as (new & Hnew & Hlen & _).
      exists ([] ++ (new ++ [])). split_and!.
      * eapply books_trans; [done|]. eapply books_trans; [done|apply with_equity_books].
      * rewrite app_nil_r. simpl. lia.
      * simpl. rewrite length_app, Hsim, Hcurve. simpl. lia.
    + exists ([] ++ []). split_and!.
      * eapply books_trans; [done|apply with_equity_books].
      * simpl. lia.
      * simpl. rewrite length_app, Hcurve. simpl. lia.
  - destruct (truthy _).
    + destruct (simulate_trade_books checked (dict_get analysis "signal")
                  (close row) (timestamp row) analysis) as (new & Hnew & _ & Hnone).
      rewrite (Hnone Hflat) in Hnew.
      exists ([t] ++ ([] ++ [])). split_and!.
      * eapply books_trans; [done|]. eapply books_trans; [done|apply with_equity_books].
      * simpl. lia.
      * simpl. rewrite length_app, Hsim, Hcurve. simpl. lia.
    + exists ([t] ++ []). split_and!.
      * eapply books_trans; [done|apply with_equity_books].
      * simpl. lia.
      * simpl. rewrite length_app, Hcurve. simpl. lia.
Qed.

End replay_books.

(** X9. A replay that returns has appended exactly one equity sample per
    replayed candle and at most one trade per candle; the old trades are
    kept in front, every new trade has the exit reason [signal],
    [stop_loss] or [take_profit], the capital is the old capital with the
    PnL of the new trades added one after the other, and the initial
    capital is unchanged. *)
Theorem replay_bookkeeping (df : DataFrame) (indices : list nat) :
  ∀ (self final : backtester.Backtester),
  backtester.replay df self indices = Returned final →
  length (backtester.equity_curve final)
  = (length (backtester.equity_curve self) + length indices)%nat
  ∧ ∃ new : list backtester.Trade,
      backtester.trades final = backtester.trades self ++ new
      ∧ (length new ≤ length indices)%nat
      ∧ Forall (fun t => backtester.exit_reason t ∈ ["signal"; "stop_loss"; "take_profit"])
          new
      ∧ backtester.capital final
        = fold_left PrimFloat.add (map backtester.pnl_usd new) (backtester.capital self)
      ∧ backtester.initial_capital final = backtester.initial_capital self.
Proof.
  induction indices as [|i indices IH]; intros self final; simpl.
  - intros [= <-]. split; [lia|]. exists []. rewrite app_nil_r. by split_and!.
  - destruct (backtester.replay_candle df self i) as [after|e] eqn:Hstep; [|done].
    intros Hrest.
    destruct (replay_candle_books df self i after Hstep) as (new1 & Hbooks1 & Hlen1 & Hcurve1).
    destruct (IH after final Hrest) as (Hcurve & new2 & Htrades2 & Hlen2 & Hwhy2 & Hcap2 & Hinit2).
    split; [lia|].
    destruct Hbooks1 as (Htrades1 & Hwhy1 & Hcap1 & Hinit1 & _).
    exists (new1 ++ new2). split_and!.
    + by rewrite Htrades2, Htrades1, app_assoc.
    + rewrite length_app. lia.
    + by apply Forall_app.
    + by rewrite Hcap2, Hcap1, map_app, fold_left_app.
    + congruence.
Qed.

(** The replay of the choppy sample under the quick strategy, from candle 3
    on: two stop-loss exits and one signal exit. *)
Example choppy_replay :
  match backtester.replay more_samples.choppy more_samples.quick_backtester (seq 3 7) with
  | Returned final =>
      map backtester.exit_reason (backtester.trades final)
      = ["stop_loss"; "stop_loss"; "signal"]
      ∧ length (backtester.equity_curve final) = 7%nat
  | Raised _ => False
  end.
Proof. vm_compute. split; reflexivity. Qed.

(** Witness for X9: the replay of the choppy sample. *)
Lemma replay_bookkeeping_witness :
  ∃ final,
    backtester.replay more_samples.choppy more_samples.quick_backtester (seq 3 7)
    = Returned final
    ∧ length (backtester.equity_curve final) = 7%nat
    ∧ ∃ new : list backtester.Trade,
        backtester.trades final = new
        ∧ (length new ≤ 7)%nat
        ∧ backtester.capital final
          = fold_left PrimFloat.add (map backtester.pnl_usd new) 10000.
Proof.
  destruct (backtester.replay more_samples.choppy more_samples.quick_backtester (seq 3 7))
    as [final|e] eqn:Hrun; [|exfalso; vm_compute in Hrun; discriminate Hrun].
  exists final. split; [reflexivity|].
  destruct (replay_bookkeeping more_samples.choppy (seq 3 7)
              more_samples.quick_backtester final Hrun)
    as (Hcurve & new & Htrades & Hlen & _ & Hcapital & _).
  split; [exact Hcurve|]. exists new. split_and!; [exact Htrades|exact Hlen|exact Hcapital].
Defined.

(** ** More of the report *)
Section counting.
Context {A : Type}.

Lemma filter_disjoint_length (P Q : A → Prop) `{∀ x, Decision (P x)} `{∀ x, Decision (Q x)}
    (l : list A) :
  (∀ x, P x → Q x → False) →
  (length (filter P l) + length (filter Q l) ≤ length l)%nat.
Proof.
  intros Hdisjoint. induction l as [|x l IH]; [done|].
  rewrite !filter_cons. repeat case_decide; simpl; try lia.
  exfalso. eauto.
Qed.

Lemma filter_cover_length (P Q : A → Prop) `{∀ x, Decision (P x)} `{∀ x, Decision (Q x)}
    (l : list A) :
  (∀ x, P x → Q x → False) →
  Forall (fun x => P x ∨ Q x) l →
  (length (filter P l) + length (filter Q l) = length l)%nat.
Proof.
  intros Hdisjoint. induction 1 as [|x l Hx _ IH]; [done|].
  rewrite !filter_cons. repeat case_decide; simpl; try lia.
  - exfalso. eauto.
  - tauto.
Qed.

End counting.

Lemma count_exits_partition (trades : list backtester.Trade) :
  Forall (fun t => backtester.exit_reason t ∈ ["signal"; "stop_loss"; "take_profit"]) trades →
  (backtester.count_exits "stop_loss" trades + backtester.count_exits "take_profit" trades
   + backtester.count_exits "signal" trades = length trades)%nat.
Proof.
  unfold backtester.count_exits.
  induction 1 as [|t l Ht _ IH]; [done|].
  rewrite !filter_cons.
  repeat (apply elem_of_cons in Ht as [->|Ht]); [..|by apply elem_of_nil in Ht];
    repeat case_decide; try done; simpl; lia.
Qed.

(** X10. In a report the winning trades (PnL above zero) and the losing
    trades (PnL at or below zero) have no trade in common, so together they
    are at most the total; they are exactly the total when no PnL is NaN (a
    trade with a NaN PnL is counted in neither).  When every trade has one
    of the three exit reasons, the exit breakdown adds up to the total. *)
Theorem report_counts (self : backtester.Backtester) (report : backtester.Report) :
  backtester.generate_report self = Some report →
  backtester.total_trades report = length (backtester.trades self)
  ∧ (∀ t, t ∈ backtester.winning_trades report → t ∈ backtester.losing_trades report → False)
  ∧ (length (backtester.winning_trades report) + length (backtester.losing_trades report)
     ≤ backtester.total_trades report)%nat
  ∧ (Forall (fun t => is_nan (backtester.pnl_usd t) = false) (backtester.trades self) →
     (length (backtester.winning_trades report) + length (backtester.losing_trades report)
      = backtester.total_trades report)%nat)
  ∧ (Forall (fun t => backtester.exit_reason t ∈ ["signal"; "stop_loss"; "take_profit"])
       (backtester.trades self) →
     (backtester.sl_exits report + backtester.tp_exits report
      + backtester.signal_exits report = backtester.total_trades report)%nat).
Proof.
  unfold backtester.generate_report.
  destruct (backtester.trades self) as [|t0 ts] eqn:Htrades; [done|].
  intros [= <-]. simpl backtester.total_trades. cbn [backtester.winning_trades
    backtester.losing_trades backtester.sl_exits backtester.tp_exits
    backtester.signal_exits].
  assert (Hdisjoint : ∀ t : backtester.Trade,
            (backtester.pnl_usd t >? 0) = true → (backtester.pnl_usd t <=? 0) = true → False).
  { intros t. unfold pyfloat.gtb.
    destruct (sign_cases (backtester.pnl_usd t)) as [(-> & -> & _)|[(-> & -> & _)|(-> & -> & _)]];
      done. }
  split_and!.
  - done.
  - intros t Hwin Hlose.
    apply list_elem_of_filter in Hwin as [Hwin _].
    apply list_elem_of_filter in Hlose as [Hlose _]. eauto.
  - apply (filter_disjoint_length _ _ (t0 :: ts)). exact Hdisjoint.
  - intros Hdefined. apply (filter_cover_length _ _ (t0 :: ts)); [exact Hdisjoint|].
    eapply Forall_impl; [exact Hdefined|]. intros t Hnan. simpl in Hnan. unfold pyfloat.gtb.
    destruct (sign_cases (backtester.pnl_usd t)) as [(-> & -> & _)|[(-> & -> & _)|(_ & _ & ?)]];
      [auto|auto|congruence].
  - apply count_exits_partition.
Qed.

(** Witness for X10: a win of +100 and a loss of -50. *)
Lemma report_counts_witness :
  let self := samples.holding None [samples.trade_with_pnl 100;
                                    samples.trade_with_pnl (-50)] in
  ∃ report,
    backtester.generate_report self = Some report
    ∧ backtester.total_trades report = 2%nat
    ∧ (length (backtester.winning_trades report) + length (backtester.losing_trades report)
       ≤ backtester.total_trades report)%nat.
Proof.
  intros self.
  destruct (backtester.generate_report self) as [report|] eqn:Hreport;
    [|discriminate Hreport].
  exists report. split; [reflexivity|].
  destruct (report_counts self report Hreport) as (Htotal & _ & Hle & _).
  split; [exact Htotal|exact Hle].
Defined.

(** ** Fetching the history *)

(** X11. The backtester never asks the exchange for more than 1000
    candles; from 42 days on it asks for exactly 1000 whatever the timeframe,
    so that a larger number of days fetches the same history, and with the
    timeframe 1m (the value of [TIMEFRAME] when the variable is not set) it
    does so from one day on.  A timeframe other than 15m, 1h and 5m is
    counted as 1m; an empty answer gives [None]. *)
Theorem history_request (symbol timeframe : string)
    (fetch_ohlcv : string → string → Z → DataFrame) :
  (∀ days, (history.request_limit days timeframe ≤ 1000)%Z)
  ∧ (∀ days, (42 ≤ days)%Z → history.request_limit days timeframe = 1000%Z)
  ∧ (∀ days days', (42 ≤ days)%Z → (42 ≤ days')%Z →
       history.fetch_historical_data symbol days timeframe fetch_ohlcv
       = history.fetch_historical_data symbol days' timeframe fetch_ohlcv)
  ∧ (timeframe ∉ ["15m"; "1h"; "5m"] →
       ∀ days, history.request_limit days timeframe = history.request_limit days "1m")
  ∧ (∀ days, history.fetch_historical_data symbol days timeframe fetch_ohlcv = None
             ↔ rows (fetch_ohlcv symbol timeframe
                       (history.request_limit days timeframe)) = [])
  ∧ (∀ days, (1 ≤ days)%Z → history.request_limit days "1m" = 1000%Z).
Proof.
  assert (Hper_day : (24 ≤ history.candles_per_day timeframe)%Z).
  { unfold history.candles_per_day. repeat case_bool_decide; lia. }
  assert (Hbig : ∀ days, (42 ≤ days)%Z → history.request_limit days timeframe = 1000%Z).
  { intros days Hdays. unfold history.request_limit. apply Z.min_r. nia. }
  split_and!.
  - intros days. unfold history.request_limit. lia.
  - exact Hbig.
  - intros days days' Hdays Hdays'. unfold history.fetch_historical_data.
    by rewrite !Hbig.
  - intros Hother days. unfold history.request_limit, history.candles_per_day.
    rewrite !not_elem_of_cons in Hother. destruct Hother as (? & ? & ? & _).
    by rewrite !bool_decide_eq_false_2.
  - intros days. unfold history.fetch_historical_data, is_empty, len.
    case_bool_decide as Hlen.
    + split; [intros _|done]. by apply length_zero_iff_nil.
    + split; [done|]. intros Hrows. rewrite Hrows in Hlen. done.
  - intros days Hdays. unfold history.request_limit.
    change (history.candles_per_day "1m") with 1440%Z. lia.
Qed.

(** Witness for X11: 60 and 365 days of 1h candles, with an exchange that
    answers as many flat candles as were asked for. *)
Lemma history_request_witness :
  (42 ≤ 60)%Z ∧ (42 ≤ 365)%Z
  ∧ history.request_limit 60 "1h" = 1000%Z
  ∧ history.fetch_historical_data "BTC/USDT" 60 "1h"
      (fun _ _ limit => samples.flat (Z.to_nat limit))
    = history.fetch_historical_data "BTC/USDT" 365 "1h"
        (fun _ _ limit => samples.flat (Z.to_nat limit)).
Proof.
  assert (H60 : (42 ≤ 60)%Z) by lia.
  assert (H365 : (42 ≤ 365)%Z) by lia.
  split_and!; [exact H60|exact H365|..].
  - exact (proj1 (proj2 (history_request "BTC/USDT" "1h"
                           (fun _ _ limit => samples.flat (Z.to_nat limit)))) 60%Z H60).
  - exact (proj1 (proj2 (proj2 (history_request "BTC/USDT" "1h"
                                  (fun _ _ limit => samples.flat (Z.to_nat limit)))))
             60%Z 365%Z H60 H365).
Defined.

(** ** Ticks of the live trader without enough data *)

(** X12. A tick whose fetch is empty changes nothing and returns [None].  A
    tick whose fetch is not empty but shorter than the warm-up stores the
    analysis "Insufficient data"; it then returns [None] when the ledger is
    flat, but with a position open it raises a TypeError (the analysis has
    no price to compare with the stop-loss) and leaves the position open,
    its stop-loss and take-profit unchecked. *)
Theorem ticks_without_data (self : trader.Trader) (world : trader.World) :
  (rows (trader.fetch_ohlcv world) = [] →
     trader.run_analysis self world = (self, Returned None))
  ∧ (rows (trader.fetch_ohlcv world) ≠ [] →
     (len (trader.fetch_ohlcv world)
      < Nat.max (strategy.ema_trend (trader.strategy_ self))
          (strategy.macd_slow (trader.strategy_ self)))%nat →
     (trader.position self = None →
        trader.run_analysis self world
        = (trader.set_latest_analysis self strategy.insufficient_data, Returned None))
     ∧ (∀ p, trader.position self = Some p →
          trader.run_analysis self world
          = (trader.set_latest_analysis self strategy.insufficient_data, Raised TypeError)
          ∧ trader.position (trader.run_analysis self world).1 = Some p
          ∧ trader.storage_calls (trader.run_analysis self world).1
            = trader.storage_calls self)).
Proof.
  split.
  - intros Hrows. unfold trader.run_analysis, is_empty, len. by rewrite Hrows.
  - intros Hrows Hshort.
    assert (Hempty : is_empty (trader.fetch_ohlcv world) = false).
    { unfold is_empty, len. apply bool_decide_eq_false.
      by rewrite length_zero_iff_nil. }
    assert (Hguard : strategy.insufficient (trader.strategy_ self) (trader.fetch_ohlcv world)
                     = true).
    { unfold strategy.insufficient, strategy.warmup. apply orb_true_iff. right.
      by apply Nat.ltb_lt. }
    unfold trader.run_analysis. rewrite Hempty, (analyze_insufficient _ _ Hguard).
    unfold trader.trade. simpl.
    split.
    + intros Hflat. by rewrite Hflat.
    + intros p Hopen. rewrite Hopen. by split_and!.
Qed.

(** Witness for X12: fifty flat candles with the sample position open. *)
Lemma ticks_without_data_witness :
  let self := trader.Trader_init (Some samples.live_position) in
  let world := samples.paper_world (samples.flat 50) in
  rows (trader.fetch_ohlcv world) ≠ []
  ∧ (len (trader.fetch_ohlcv world)
     < Nat.max (strategy.ema_trend (trader.strategy_ self))
         (strategy.macd_slow (trader.strategy_ self)))%nat
  ∧ trader.position self = Some samples.live_position
  ∧ (trader.run_analysis self world).2 = Raised TypeError
  ∧ trader.position (trader.run_analysis self world).1 = Some samples.live_position.
Proof.
  intros self world.
  assert (Hrows : rows (trader.fetch_ohlcv world) ≠ []) by (vm_compute; discriminate).
  assert (Hshort : (len (trader.fetch_ohlcv world)
                    < Nat.max (strategy.ema_trend (trader.strategy_ self))
                        (strategy.macd_slow (trader.strategy_ self)))%nat)
    by (vm_compute; lia).
  assert (Hopen : trader.position self = Some samples.live_position) by reflexivity.
  split_and!; [exact Hrows|exact Hshort|exact Hopen|..].
  - destruct (proj2 (proj2 (ticks_without_data self world) Hrows Hshort)
                samples.live_position Hopen) as (Hrun & _).
    by rewrite Hrun.
  - exact (proj1 (proj2 (proj2 (proj2 (ticks_without_data self world) Hrows Hshort)
                           samples.live_position Hopen))).
Defined.

(** ** What one tick of the live trader does *)

Section rounding.
Import Stdlib.Floats.Floats.
Local Open Scope Z_scope.

Lemma shr_1_nonneg mrs : 0 ≤ shr_m mrs → 0 ≤ shr_m (shr_1 mrs).
Proof. destruct mrs as [[|[p|p|]|p] r s]; simpl; lia. Qed.

Lemma iter_pos_shr_1_nonneg p : ∀ mrs, 0 ≤ shr_m mrs → 0 ≤ shr_m (iter_pos shr_1 p mrs).
Proof.
  induction p as [p IH|p IH|]; intros mrs Hm; simpl.
  - by apply IH, IH, shr_1_nonneg.
  - by apply IH, IH.
  - by apply shr_1_nonneg.
Qed.

Lemma shr_fexp_nonneg prec emax m e l :
  0 ≤ m → 0 ≤ shr_m (shr_fexp prec emax m e l).1.
Proof.
  intros Hm. unfold shr_fexp, shr.
  assert (Hrecord : 0 ≤ shr_m (shr_record_of_loc m l)) by (by destruct l as [|[]]).
  destruct (_ - e); simpl; [done| |done]. by apply iter_pos_shr_1_nonneg.
Qed.

Lemma round_nearest_even_nonneg m l : 0 ≤ m → 0 ≤ round_nearest_even m l.
Proof. intros Hm. unfold round_nearest_even. destruct l as [|[]]; [|case_match|..]; lia. Qed.

Lemma binary_round_aux_not_nan prec emax sx mx ex lx :
  0 ≤ mx → binary_round_aux prec emax sx mx ex lx ≠ S754_nan.
Proof.
  intros Hm. unfold binary_round_aux.
  pose proof (shr_fexp_nonneg prec emax mx ex lx Hm) as Hfirst.
  destruct (shr_fexp prec emax mx ex lx) as [mrs' e']. simpl in Hfirst.
  pose proof (shr_fexp_nonneg prec emax _ e' loc_Exact
                (round_nearest_even_nonneg _ (loc_of_shr_record mrs') Hfirst)) as Hsecond.
  destruct (shr_fexp prec emax _ e' loc_Exact) as [mrs'' e'']. simpl in Hsecond.
  destruct (shr_m mrs''); [done| |lia]. by case_match.
Qed.

(** The product of a number with a finite number other than zero is a
    number. *)
Lemma mul_finite_not_nan x c s m e :
  is_nan x = false → Prim2SF c = S754_finite s m e → is_nan (x * c)%float = false.
Proof.
  intros Hx Hc. apply not_true_is_false. rewrite is_nan_Prim2SF, mul_spec, Hc.
  apply not_true_iff_false in Hx. rewrite is_nan_Prim2SF in Hx.
  unfold SF64mul, SFmul. destruct (Prim2SF x) as [sx|sx| |sx mx ex]; [done..|].
  by apply binary_round_aux_not_nan.
Qed.

End rounding.

(** A buy is decided at a price that is a number: the price was compared
    with the trend EMA. *)
Lemma evaluate_buy_price (self : strategy.Strategy) (last prev : strategy.Row) :
  dict_get (strategy.evaluate self last prev) "signal" = VStr "buy" →
  is_nan (strategy.r_close last) = false.
Proof.
  unfold dict_get. rewrite evaluate_signal. simpl.
  destruct (is_nan (strategy.r_close last)) eqn:Hnan; [|done].
  unfold strategy.sell_conditions, strategy.buy_conditions, strategy.trend, pyfloat.gtb.
  rewrite (ltb_nan_r _ _ Hnan).
  repeat case_match; simpl; try discriminate.
Qed.

Lemma is_str_true v s : is_str v s = true → v = VStr s.
Proof. destruct v; simpl; try discriminate. by intros ->%bool_decide_eq_true. Qed.

Lemma is_str_insufficient_data s :
  s ≠ "" → is_str (dict_get strategy.insufficient_data "signal") s = false.
Proof. reflexivity. Qed.

Section tick.
Variables (self : trader.Trader) (world : trader.World).
Local Open Scope float_scope.

(** A tick changes neither the strategy, nor the symbol, nor the
    percentages of the trader. *)
Lemma run_analysis_settings self' r :
  trader.run_analysis self world = (self', r) →
  trader.strategy_ self' = trader.strategy_ self
  ∧ trader.symbol_ self' = trader.symbol_ self
  ∧ trader.stop_loss_pct self' = trader.stop_loss_pct self
  ∧ trader.take_profit_pct self' = trader.take_profit_pct self.
Proof.
  unfold trader.run_analysis, trader.trade, trader.open_position, trader.close_position.
  repeat case_match; intros [= <- <-]; done.
Qed.

(** A tick does one of three things: it leaves the position and the storage
    alone and returns no signal; or it opens a position on a flat ledger, at
    a price that is a number, saves it and returns the buy; or it closes the
    position held, records the exit and returns the sell. *)
Lemma run_analysis_cases self' r :
  trader.run_analysis self world = (self', r) →
  (trader.position self' = trader.position self
   ∧ trader.storage_calls self' = trader.storage_calls self
   ∧ ∀ d, r ≠ Returned (Some d))
  ∨ (∃ x,
       trader.position self = None ∧ is_nan x = false
       ∧ trader.create_order world (trader.symbol_ self) "market" "buy" 0.001 ≠ None
       ∧ trader.position self'
         = Some (live.opened self x (trader.save_trade world (live.opened self x None)))
       ∧ trader.storage_calls self'
         = trader.storage_calls self ++ [trader.SaveTrade (live.opened self x None)]
       ∧ r = Returned (Some (list_to_map
               [("action", VStr "buy"); ("price", VFloat x);
                ("sl", VFloat (x * (1 - trader.stop_loss_pct self)));
                ("tp", VFloat (x * (1 + trader.take_profit_pct self)))])))
  ∨ (∃ p x why,
       trader.position self = Some p
       ∧ trader.create_order world (trader.symbol_ self) "market" "sell" (trader.amount p)
         ≠ None
       ∧ trader.position self' = None
       ∧ trader.storage_calls self'
         = trader.storage_calls self ++ [trader.CloseTrade (trader.id p) (VFloat x)]
       ∧ r = Returned (Some (list_to_map
               [("action", VStr "sell"); ("price", VFloat x); ("reason", VStr why)]))).
Proof.
  assert (Hidle : ∀ kept result,
            (kept, result) = (self', r) →
            trader.position kept = trader.position self →
            trader.storage_calls kept = trader.storage_calls self →
            (∀ d, result ≠ Returned (Some d)) →
            trader.position self' = trader.position self
            ∧ trader.storage_calls self' = trader.storage_calls self
            ∧ ∀ d, r ≠ Returned (Some d)).
  { by intros kept result [= <- <-]. }
  intros Hrun. unfold trader.run_analysis in Hrun.
  destruct (is_empty _); [left; (apply (Hidle _ _ Hrun); by simpl)|].
  unfold strategy.analyze in Hrun.
  destruct (strategy.insufficient _ _).
  { unfold trader.trade in Hrun. rewrite !is_str_insufficient_data in Hrun by done.
    change (dict_get strategy.insufficient_data "price") with VNone in Hrun.
    simpl in Hrun.
    destruct (trader.position self) as [p|] eqn:Hposition; left; (apply (Hidle _ _ Hrun); by simpl). }
  destruct (strategy.iloc_back _ 1) as [last|]; [|left; (apply (Hidle _ _ Hrun); by simpl)].
  destruct (strategy.iloc_back _ 2) as [prev|]; [|left; (apply (Hidle _ _ Hrun); by simpl)].
  pose proof (evaluate_buy_price (trader.strategy_ self) last prev) as Hnumber.
  pose proof (evaluate_price (trader.strategy_ self) last prev) as Hprice.
  remember (strategy.evaluate (trader.strategy_ self) last prev) as analysis eqn:Heq.
  clear Heq.
  assert (Hget : dict_get analysis "price" = VFloat (strategy.r_close last)).
  { unfold dict_get. by rewrite Hprice. }
  unfold trader.trade in Hrun. rewrite Hget in Hrun.
  change (trader.position (trader.set_latest_analysis self analysis))
    with (trader.position self) in Hrun.
  cbn [as_float] in Hrun.
  destruct (trader.position self) as [p|] eqn:Hposition.
  - rewrite (bool_decide_eq_true_2 (is_Some (Some p))) in Hrun by eauto.
    rewrite andb_false_r, andb_true_r in Hrun.
    assert (Hclose : ∀ why,
              trader.close_position (trader.set_latest_analysis self analysis) world
                (VFloat (strategy.r_close last)) why = (self', r) →
              (trader.position self' = Some p
               ∧ trader.storage_calls self' = trader.storage_calls self
               ∧ ∀ d, r ≠ Returned (Some d))
              ∨ (∃ x : float, Some p = None ∧ is_nan x = false ∧ False)
              ∨ ∃ p' x why',
                  Some p = Some p'
                  ∧ trader.create_order world (trader.symbol_ self) "market" "sell"
                      (trader.amount p') ≠ None
                  ∧ trader.position self' = None
                  ∧ trader.storage_calls self'
                    = trader.storage_calls self
                        ++ [trader.CloseTrade (trader.id p') (VFloat x)]
                  ∧ r = Returned (Some (list_to_map
                          [("action", VStr "sell"); ("price", VFloat x);
                           ("reason", VStr why')]))).
    { intros why. unfold trader.close_position.
      change (trader.position (trader.set_latest_analysis self analysis))
        with (trader.position self).
      rewrite Hposition.
      change (trader.symbol_ (trader.set_latest_analysis self analysis))
        with (trader.symbol_ self).
      destruct (trader.create_order world _ _ _ _) as [order|] eqn:Horder.
      - intros [= <- <-]. right. right. exists p, (strategy.r_close last), why.
        split_and!; try done. by rewrite Horder.
      - intros [= <- <-]. left. by split_and!. }
    assert (Hclosed : ∀ why,
              trader.close_position (trader.set_latest_analysis self analysis) world
                (VFloat (strategy.r_close last)) why = (self', r) →
              (trader.position self' = Some p
               ∧ trader.storage_calls self' = trader.storage_calls self
               ∧ ∀ d, r ≠ Returned (Some d))
              ∨ (∃ x,
                   Some p = None ∧ is_nan x = false
                   ∧ trader.create_order world (trader.symbol_ self) "market" "buy" 0.001
                     ≠ None
                   ∧ trader.position self'
                     = Some (live.opened self x
                               (trader.save_trade world (live.opened self x None)))
                   ∧ trader.storage_calls self'
                     = trader.storage_calls self
                         ++ [trader.SaveTrade (live.opened self x None)]
                   ∧ r = Returned (Some (list_to_map
                           [("action", VStr "buy"); ("price", VFloat x);
                            ("sl", VFloat (x * (1 - trader.stop_loss_pct self)));
                            ("tp", VFloat (x * (1 + trader.take_profit_pct self)))])))
              ∨ ∃ p' x why',
                  Some p = Some p'
                  ∧ trader.create_order world (trader.symbol_ self) "market" "sell"
                      (trader.amount p') ≠ None
                  ∧ trader.position self' = None
                  ∧ trader.storage_calls self'
                    = trader.storage_calls self
                        ++ [trader.CloseTrade (trader.id p') (VFloat x)]
                  ∧ r = Returned (Some (list_to_map
                          [("action", VStr "sell"); ("price", VFloat x);
                           ("reason", VStr why')]))).
    { intros why Hwhy.
      destruct (Hclose why Hwhy) as [?|[(? & _ & _ & [])|?]]; [by left|by right; right]. }
    destruct (is_str _ "sell"); [by eapply Hclosed|].
    cbn [andb] in Hrun. repeat case_match; try by eapply Hclosed.
    left. (apply (Hidle _ _ Hrun); by simpl).
  - rewrite (bool_decide_eq_false_2 (is_Some None)) in Hrun by (by intros [? ?]).
    rewrite andb_true_r, andb_false_r in Hrun.
    destruct (is_str _ "buy") eqn:Hbuy; [|left; (apply (Hidle _ _ Hrun); by simpl)].
    apply is_str_true in Hbuy. specialize (Hnumber Hbuy).
    unfold trader.open_position in Hrun. cbn [as_float] in Hrun.
    change (trader.symbol_ (trader.set_latest_analysis self analysis))
      with (trader.symbol_ self) in Hrun.
    destruct (trader.create_order world _ _ _ _) as [order|] eqn:Horder;
      [|left; (apply (Hidle _ _ Hrun); by simpl)].
    injection Hrun as <- <-. right. left. exists (strategy.r_close last).
    split_and!; try done; by rewrite Horder.
Qed.

End tick.

(** ** Why the live trader sells *)

Lemma is_str_false v s : is_str v s = false → v ≠ VStr s.
Proof. intros Hv ->. simpl in Hv. by rewrite bool_decide_eq_true_2 in Hv. Qed.

(** X22. A sell that the live trader reports tells why the position was
    closed.  It is reported only with a position held, which is then closed
    at the price of the analysis, and its reason is 'Signal' when the
    analysis said sell; otherwise it is 'Stop Loss' with the price at or
    below the stop, or 'Take Profit' with the price above the stop and at
    or above the target. *)
Theorem live_exit_reason (self : trader.Trader) (world : trader.World) (analysis : dict)
    (signal_data : dict) :
  (trader.trade self world analysis).2 = Returned (Some signal_data) →
  signal_data !! "action" = Some (VStr "sell") →
  ∃ p,
    trader.position self = Some p
    ∧ trader.position (trader.trade self world analysis).1 = None
    ∧ signal_data !! "price" = Some (dict_get analysis "price")
    ∧ ((signal_data !! "reason" = Some (VStr "Signal")
        ∧ dict_get analysis "signal" = VStr "sell")
       ∨ ∃ x,
           as_float (dict_get analysis "price") = Some x
           ∧ dict_get analysis "signal" ≠ VStr "sell"
           ∧ ((signal_data !! "reason" = Some (VStr "Stop Loss")
               ∧ (x <=? trader.sl p) = true)
              ∨ (signal_data !! "reason" = Some (VStr "Take Profit")
                 ∧ (x <=? trader.sl p) = false
                 ∧ (x >=? trader.tp p) = true))).
Proof.
  unfold trader.trade.
  destruct (trader.position self) as [p|] eqn:Hposition.
  - rewrite (bool_decide_eq_true_2 (is_Some (Some p))) by eauto.
    rewrite andb_false_r, andb_true_r.
    assert (Hclose : ∀ why,
              (trader.close_position self world (dict_get analysis "price") why).2
              = Returned (Some signal_data) →
              trader.position
                (trader.close_position self world (dict_get analysis "price") why).1 = None
              ∧ signal_data !! "price" = Some (dict_get analysis "price")
              ∧ signal_data !! "reason" = Some (VStr why)).
    { intros why. unfold trader.close_position. rewrite Hposition.
      destruct (trader.create_order world _ _ _ _); [|done].
      cbn [fst snd]. by intros [= <-]. }
    destruct (is_str _ "sell") eqn:Hsell.
    + intros Hresult _. destruct (Hclose _ Hresult) as (Hflat & Hprice & Hreason).
      exists p. split_and!; [done..|]. left. split; [done|]. by apply is_str_true.
    + apply is_str_false in Hsell.
      destruct (as_float (dict_get analysis "price")) as [x|] eqn:Hnumber; [|done].
      destruct (x <=? trader.sl p) eqn:Hstop;
        [|destruct (x >=? trader.tp p) eqn:Htarget; [|done]].
      * intros Hresult _. destruct (Hclose _ Hresult) as (Hflat & Hprice & Hreason).
        exists p. split_and!; [done..|]. right. exists x. split_and!; [done..|]. by left.
      * intros Hresult _. destruct (Hclose _ Hresult) as (Hflat & Hprice & Hreason).
        exists p. split_and!; [done..|]. right. exists x. split_and!; [done..|]. by right.
  - rewrite (bool_decide_eq_false_2 (is_Some None)) by (by intros [? ?]).
    rewrite andb_true_r, andb_false_r.
    destruct (is_str _ "buy"); [|done].
    unfold trader.open_position.
    destruct (as_float _); [|done].
    destruct (trader.create_order world _ _ _ _); [|done].
    cbn [snd]. intros [= <-] Haction.
    apply (f_equal (fun v => match v with Some (VStr action) => action | _ => "" end))
      in Haction.
    by vm_compute in Haction.
Qed.

(** Witness for X22: the sample position (stop 95, target 110) and an
    analysis without a signal at the price 94. *)
Lemma live_exit_reason_witness :
  let self := trader.Trader_init (Some samples.live_position) in
  let world := samples.paper_world (samples.flat 0) in
  let analysis : dict := list_to_map [("signal", VNone); ("price", VFloat 94)] in
  let signal_data : dict :=
    list_to_map [("action", VStr "sell"); ("price", VFloat 94);
                 ("reason", VStr "Stop Loss")] in
  (trader.trade self world analysis).2 = Returned (Some signal_data)
  ∧ signal_data !! "action" = Some (VStr "sell")
  ∧ ∃ p, trader.position self = Some p
         ∧ trader.position (trader.trade self world analysis).1 = None.
Proof.
  intros self world analysis signal_data.
  assert (Hresult : (trader.trade self world analysis).2 = Returned (Some signal_data))
    by (vm_compute; reflexivity).
  assert (Haction : signal_data !! "action" = Some (VStr "sell")) by reflexivity.
  split_and!; [exact Hresult|exact Haction|].
  destruct (live_exit_reason self world analysis signal_data Hresult Haction)
    as (p & Hposition & Hflat & _).
  exists p. by split.
Defined.

(** ** Paper trading *)

(** X13. In paper trading the interface makes the order up, whatever the
    client would do: every order is filled.  [open_position] at a numeric
    price then always opens, with the stop at [price * (1 - stop_loss_pct)],
    the target at [price * (1 + take_profit_pct)] and the amount 0.001, and
    [close_position] after it always closes: the ledger is flat again and
    the storage was asked to save the trade and then to close the trade
    with the id it had returned, at the exit price. *)
Theorem paper_trading_round_trip (ex : exchange.ExchangeInterface)
    (self : trader.Trader) (world : trader.World) (entry exit : float) (why : string) :
  exchange.paper_trading ex = true →
  trader.create_order world = exchange.create_order ex →
  let bought := trader.open_position self world "buy" (VFloat entry) in
  let sold := trader.close_position bought.1 world (VFloat exit) why in
  (∀ symbol kind side amount,
     exchange.create_order ex symbol kind side amount
     = Some {| trader.order_side := side; trader.order_filled := amount |})
  ∧ trader.position bought.1
    = Some (live.opened self entry (trader.save_trade world (live.opened self entry None)))
  ∧ bought.2 = Returned (Some (list_to_map
                 [("action", VStr "buy"); ("price", VFloat entry);
                  ("sl", VFloat (entry * (1 - trader.stop_loss_pct self)));
                  ("tp", VFloat (entry * (1 + trader.take_profit_pct self)))]))
  ∧ trader.position sold.1 = None
  ∧ trader.storage_calls sold.1
    = trader.storage_calls self
        ++ [trader.SaveTrade (live.opened self entry None);
            trader.CloseTrade (trader.save_trade world (live.opened self entry None))
              (VFloat exit)]
  ∧ sold.2 = Returned (Some (list_to_map
               [("action", VStr "sell"); ("price", VFloat exit); ("reason", VStr why)])).
Proof.
  intros Hpaper Hworld bought sold.
  assert (Hfilled : ∀ symbol kind side amount,
            exchange.create_order ex symbol kind side amount
            = Some {| trader.order_side := side; trader.order_filled := amount |}).
  { intros. unfold exchange.create_order. by rewrite Hpaper. }
  split; [exact Hfilled|].
  subst bought sold. unfold trader.open_position. cbn [as_float].
  rewrite Hworld, Hfilled. cbn [fst snd].
  unfold trader.close_position. cbn [trader.position trader.set_position].
  rewrite Hworld, Hfilled. cbn [fst snd trader.position trader.set_position
                                trader.storage_calls trader.amount trader.id].
  split_and!; try reflexivity.
  by rewrite <- app_assoc.
Qed.

(** Witness for X13: a paper interface whose client rejects everything, a
    flat trader, a buy at 100 and a sell at 104. *)
Lemma paper_trading_round_trip_witness :
  let ex := {| exchange.paper_trading := true;
               exchange.ccxt_fetch_ticker := fun _ => None;
               exchange.ccxt_create_order := fun _ _ _ _ => None |} in
  let world := {| trader.fetch_ohlcv := samples.flat 0;
                  trader.create_order := exchange.create_order ex;
                  trader.save_trade := fun _ => Some 7%Z |} in
  exchange.paper_trading ex = true
  ∧ trader.create_order world = exchange.create_order ex
  ∧ trader.position
      (trader.close_position
         (trader.open_position (trader.Trader_init None) world "buy" (VFloat 100)).1
         world (VFloat 104) "Signal").1 = None.
Proof.
  intros ex world.
  assert (Hpaper : exchange.paper_trading ex = true) by reflexivity.
  assert (Hworld : trader.create_order world = exchange.create_order ex) by reflexivity.
  split_and!; [exact Hpaper|exact Hworld|].
  exact (proj1 (proj2 (proj2 (proj2
           (paper_trading_round_trip ex (trader.Trader_init None) world 100 104 "Signal"
              Hpaper Hworld))))).
Defined.

(** ** The trading loop *)

Lemma dict_not_empty (d : dict) key v : d !! key = Some v → size d ≠ 0%nat.
Proof.
  intros Hkey Hsize. apply map_size_empty_iff in Hsize.
  rewrite Hsize, lookup_empty in Hkey. discriminate.
Qed.

Lemma trading_loop_cons (self : trader.Trader) world rest :
  main.trading_loop self (world :: rest)
  = ((main.trading_loop (trader.run_analysis self world).1 rest).1,
     match (trader.run_analysis self world).2 with
     | Returned (Some signal_data) =>
         if bool_decide (size signal_data = 0%nat) then [] else [signal_data]
     | _ => []
     end ++ (main.trading_loop (trader.run_analysis self world).1 rest).2).
Proof.
  simpl. destruct (trader.run_analysis self world) as [self' result]. cbn [fst snd].
  by destruct (main.trading_loop self' rest).
Qed.

(** The three cases of a tick, as the loop sees them: what is sent, what is
    stored and whether a position is held afterwards. *)
Lemma tick_sent (self : trader.Trader) (world : trader.World) :
  let self' := (trader.run_analysis self world).1 in
  let sent :=
    match (trader.run_analysis self world).2 with
    | Returned (Some signal_data) =>
        if bool_decide (size signal_data = 0%nat) then [] else [signal_data]
    | _ => []
    end in
  (sent = [] ∧ trader.storage_calls self' = trader.storage_calls self
   ∧ trader.position self' = trader.position self)
  ∨ (∃ signal_data call,
       sent = [signal_data]
       ∧ trader.storage_calls self' = trader.storage_calls self ++ [call]
       ∧ announces signal_data call
       ∧ dict_get signal_data "action"
         = VStr (if bool_decide (is_Some (trader.position self)) then "sell" else "buy")
       ∧ bool_decide (is_Some (trader.position self'))
         = negb (bool_decide (is_Some (trader.position self)))).
Proof.
  intros self' sent. subst self' sent.
  destruct (trader.run_analysis self world) as [self' r] eqn:Hrun. cbn [fst snd].
  destruct (run_analysis_cases self world self' r Hrun)
    as [(Hposition & Hcalls & Hnone)
       |[(x & Hflat & _ & _ & Hposition & Hcalls & ->)
        |(p & x & why & Hopen & _ & Hposition & Hcalls & ->)]].
  - left. split_and!; [|done..].
    destruct r as [[d|]|e]; [|done..]. by destruct (Hnone d).
  - right. eexists _, _. rewrite Hcalls, Hposition, Hflat.
    rewrite bool_decide_eq_false_2 by (by apply dict_not_empty with "action" (VStr "buy")).
    split_and!; try reflexivity. by repeat split.
  - right. eexists _, _. rewrite Hcalls, Hposition, Hopen.
    rewrite bool_decide_eq_false_2 by (by apply dict_not_empty with "action" (VStr "sell")).
    split_and!; try reflexivity. by repeat split.
Qed.

(** X14. Whatever the ticks of the loop find, each signal handed to the
    notifier stands for one call that the trader made on the storage, in
    the same order: a buy for a call of [save_trade] with the same price,
    stop and target, and a sell for a call of [close_trade] with the same
    exit price.  The trader calls the storage only with a signal and sends a
    signal only with a call; whether the call changed the table is not
    said here (a failing database leaves the table as it was). *)
Theorem loop_signals_match_storage (self : trader.Trader) (worlds : list trader.World) :
  ∃ calls,
    trader.storage_calls (main.trading_loop self worlds).1
    = trader.storage_calls self ++ calls
    ∧ Forall2 announces (main.trading_loop self worlds).2 calls.
Proof.
  revert self. induction worlds as [|world rest IH]; intros self.
  - exists []. split; [by rewrite app_nil_r|constructor].
  - rewrite trading_loop_cons. cbn [fst snd].
    destruct (IH (trader.run_analysis self world).1) as (calls & Hcalls & Hsent).
    destruct (tick_sent self world)
      as [(-> & Hsame & _)|(signal_data & call & -> & Hmore & Hannounces & _)].
    + exists calls. rewrite Hcalls, Hsame. done.
    + exists (call :: calls). rewrite Hcalls, Hmore, <- app_assoc. split; [done|].
      by constructor.
Qed.

(** X15. The signals of the loop are buys and sells in turn: a sell first if
    the trader started with a position, a buy first otherwise; never two
    buys without a sell between them.  A position is held at the end
    exactly when the parity of the signals says so. *)
Theorem loop_signals_alternate (self : trader.Trader) (worlds : list trader.World) :
  let holding := bool_decide (is_Some (trader.position self)) in
  let sent := (main.trading_loop self worlds).2 in
  alternates holding ((fun signal_data => dict_get signal_data "action") <$> sent)
  ∧ bool_decide (is_Some (trader.position (main.trading_loop self worlds).1))
    = xorb holding (Nat.odd (length sent)).
Proof.
  revert self. induction worlds as [|world rest IH]; intros self.
  - simpl. by rewrite xorb_false_r.
  - cbv zeta. rewrite trading_loop_cons. cbn [fst snd].
    destruct (IH (trader.run_analysis self world).1) as [Halternates Hparity].
    destruct (tick_sent self world)
      as [(-> & _ & Hsame)|(signal_data & call & -> & _ & _ & Haction & Hflip)].
    + rewrite app_nil_l, <- Hsame. done.
    + rewrite Hparity, Hflip. cbn [app fmap list_fmap length]. split.
      * split; [exact Haction|]. by rewrite <- Hflip.
      * rewrite Nat.odd_succ, <- Nat.negb_odd.
        generalize (Nat.odd (length (main.trading_loop
                                       (trader.run_analysis self world).1 rest).2)).
        intros odd. by destruct (bool_decide (is_Some (trader.position self))), odd.
Qed.

(** ** The storage *)

Section storage_facts.
Local Open Scope Z_scope.

Lemma foldr_max_nonneg (ids : list Z) : 0 ≤ foldr Z.max 0 ids.
Proof. induction ids as [|i ids IH]; simpl; lia. Qed.

Lemma next_id_above (table : list storage.Row) r :
  r ∈ table → storage.id r < storage.next_id table.
Proof.
  unfold storage.next_id. induction table as [|r' table IH]; [by intros ?%elem_of_nil|].
  intros [->|Hin]%elem_of_cons; simpl; [lia|]. specialize (IH Hin). unfold fmap in IH. lia.
Qed.

Lemma next_id_fresh (table : list storage.Row) :
  storage.next_id table ∉ storage.id <$> table.
Proof. intros (r & Hid & Hin)%list_elem_of_fmap. apply next_id_above in Hin. lia. Qed.

Lemma bind_number x : is_nan x = false → storage.bind x = Some x.
Proof. unfold storage.bind. by intros ->. Qed.

Lemma bind_None x : storage.bind x = None ↔ is_nan x = true.
Proof. unfold storage.bind. by destruct (is_nan x). Qed.

(** A trade whose entry price and amount are numbers is stored as a new open
    row. *)
Lemma save_trade_stored (table : list storage.Row) now data :
  is_nan (storage.d_entry_price data) = false →
  is_nan (storage.d_amount data) = false →
  storage.save_trade table false now data
  = (table ++ [{| storage.id := storage.next_id table;
                  storage.symbol := storage.d_symbol data;
                  storage.type := storage.d_type data;
                  storage.entry_price := storage.d_entry_price data;
                  storage.amount := storage.d_amount data;
                  storage.stop_loss := storage.bind (storage.d_sl data);
                  storage.take_profit := storage.bind (storage.d_tp data);
                  storage.status := "open"; storage.entry_time := now;
                  storage.exit_time := None; storage.exit_price := None;
                  storage.pnl := None |}],
     Some (storage.next_id table)).
Proof.
  intros Hentry Hamount. unfold storage.save_trade.
  by rewrite (bind_number _ Hentry), (bind_number _ Hamount).
Qed.

Lemma close_trade_ids (table : list storage.Row) db_error now trade_id exit :
  storage.id <$> storage.close_trade table db_error now trade_id exit
  = storage.id <$> table.
Proof.
  unfold storage.close_trade. repeat case_match; try done.
  all: rewrite <- list_fmap_compose; apply list_fmap_ext; intros ? ? _; simpl.
  all: by destruct (bool_decide (storage.id _ = _)).
Qed.

(** With distinct ids, the rows that have the id of a row are that row. *)
Lemma filter_id (table : list storage.Row) k row :
  NoDup (storage.id <$> table) → table !! k = Some row →
  filter (fun r => storage.id r = storage.id row) table = [row].
Proof.
  revert k. induction table as [|r table IH]; intros k Hids Hrow; [done|].
  rewrite fmap_cons, NoDup_cons in Hids. destruct Hids as [Hfresh Hids].
  destruct k as [|k]; simpl in Hrow.
  - injection Hrow as ->. rewrite filter_cons_True by done. f_equal.
    destruct (filter _ table) as [|r' rest] eqn:Hfilter; [done|].
    assert (Hin : r' ∈ filter (fun r => storage.id r = storage.id row) table)
      by (rewrite Hfilter; left).
    apply list_elem_of_filter in Hin as [Hid Hin].
    destruct Hfresh. rewrite <- Hid. by apply list_elem_of_fmap_2.
  - rewrite filter_cons_False; [by eapply IH|].
    intros Hid. destruct Hfresh. rewrite Hid.
    apply list_elem_of_fmap_2. by eapply list_elem_of_lookup_2.
Qed.

(** With distinct ids, changing the rows that have the id of a row changes
    that row. *)
Lemma fmap_id_insert (table : list storage.Row) k row (f : storage.Row → storage.Row) :
  NoDup (storage.id <$> table) → table !! k = Some row →
  (fun r => if bool_decide (storage.id r = storage.id row) then f r else r) <$> table
  = <[k := f row]> table.
Proof.
  revert k. induction table as [|r table IH]; intros k Hids Hrow; [done|].
  rewrite fmap_cons, NoDup_cons in Hids. destruct Hids as [Hfresh Hids].
  destruct k as [|k]; simpl in Hrow.
  - injection Hrow as ->. rewrite fmap_cons, bool_decide_eq_true_2 by done. simpl. f_equal.
    rewrite <- (list_fmap_id table) at 2. apply list_fmap_ext. intros j r Hr. simpl.
    rewrite bool_decide_eq_false_2; [done|].
    intros Hid. destruct Hfresh. rewrite <- Hid.
    apply list_elem_of_fmap_2. by eapply list_elem_of_lookup_2.
  - rewrite fmap_cons, bool_decide_eq_false_2.
    + simpl. f_equal. by apply IH.
    + intros Hid. destruct Hfresh. rewrite Hid.
      apply list_elem_of_fmap_2. by eapply list_elem_of_lookup_2.
Qed.

End storage_facts.

(** X16. [save_trade] fails exactly on a database error or when the entry
    price or the amount is NaN (a NOT NULL column), and then changes
    nothing.  Otherwise it appends one open row and returns its id, which
    is positive and larger than every id in the table: ids stay distinct.
    [close_trade] never changes an id, nor the number of rows. *)
Theorem fresh_trade_ids (table : list storage.Row) (db_error : bool) (now : Z)
    (data : storage.TradeData) :
  let saved := storage.save_trade table db_error now data in
  (saved.2 = None
   ↔ db_error = true ∨ is_nan (storage.d_entry_price data) = true
     ∨ is_nan (storage.d_amount data) = true)
  ∧ (saved.2 = None → saved.1 = table)
  ∧ (∀ i, saved.2 = Some i →
       (0 < i)%Z ∧ Forall (fun r => (storage.id r < i)%Z) table
       ∧ ∃ row, saved.1 = table ++ [row] ∧ storage.id row = i
                ∧ storage.status row = "open")
  ∧ (NoDup (storage.id <$> table) → NoDup (storage.id <$> saved.1))
  ∧ ∀ failing now' trade_id exit,
      storage.id <$> storage.close_trade saved.1 failing now' trade_id exit
      = storage.id <$> saved.1.
Proof.
  intros saved. subst saved. unfold storage.save_trade, storage.bind.
  destruct db_error; [|destruct (is_nan (storage.d_entry_price data));
                        [|destruct (is_nan (storage.d_amount data))]];
    cbn [fst snd].
  all: split; [split; [intros ?; first [done|auto]|intros [?|[?|?]]; done]|].
  1-3: split_and!; [done|done|done|intros; apply close_trade_ids].
  split_and!.
  - done.
  - intros i [= <-]. split_and!.
    + pose proof (foldr_max_nonneg (storage.id <$> table)). unfold storage.next_id. lia.
    + apply Forall_forall. intros r Hr. by apply next_id_above.
    + by eexists.
  - intros Hids. rewrite fmap_app. apply NoDup_app. split_and!; [done| |].
    + intros i Hi [->|[]%elem_of_nil]%elem_of_cons. by apply next_id_fresh in Hi.
    + apply NoDup_singleton.
  - intros. apply close_trade_ids.
Qed.

(** X17. A trade saved for a symbol that has no open position is what
    [get_open_position] then finds for the symbol, with the id that
    [save_trade] returned and the values that were saved (a NaN stop or
    target comes back as [None]); the open position of every other symbol
    is as before. *)
Theorem save_then_get_open_position (table : list storage.Row) (now : Z)
    (data : storage.TradeData) :
  is_nan (storage.d_entry_price data) = false →
  is_nan (storage.d_amount data) = false →
  storage.get_open_position table (storage.d_symbol data) = None →
  let saved := storage.save_trade table false now data in
  saved.2 = Some (storage.next_id table)
  ∧ storage.get_open_position saved.1 (storage.d_symbol data)
    = Some {| storage.p_id := storage.next_id table;
              storage.p_symbol := storage.d_symbol data;
              storage.p_type := storage.d_type data;
              storage.p_entry_price := storage.d_entry_price data;
              storage.p_amount := storage.d_amount data;
              storage.p_sl := storage.bind (storage.d_sl data);
              storage.p_tp := storage.bind (storage.d_tp data) |}
  ∧ ∀ sym, sym ≠ storage.d_symbol data →
      storage.get_open_position saved.1 sym = storage.get_open_position table sym.
Proof.
  intros Hentry Hamount Hnone saved. subst saved.
  rewrite (save_trade_stored _ _ _ Hentry Hamount). cbn [fst snd].
  split_and!; [done| |].
  - unfold storage.get_open_position in *. rewrite filter_app.
    destruct (filter _ table); [|done].
    by rewrite app_nil_l, filter_singleton_True.
  - intros sym Hsym. unfold storage.get_open_position. rewrite filter_app.
    rewrite (filter_singleton_False _ _ []), app_nil_r; [done|].
    simpl. by intros [? _].
Qed.

(** Witness for X17: the first trade of an empty table. *)
Lemma save_then_get_open_position_witness :
  let data := {| storage.d_symbol := "BTC/USDT"; storage.d_type := "buy";
                 storage.d_entry_price := 100; storage.d_amount := 0.001;
                 storage.d_sl := 98; storage.d_tp := 105 |} in
  is_nan (storage.d_entry_price data) = false
  ∧ is_nan (storage.d_amount data) = false
  ∧ storage.get_open_position [] (storage.d_symbol data) = None
  ∧ storage.p_id <$> storage.get_open_position
                       (storage.save_trade [] false 0 data).1 "BTC/USDT" = Some 1%Z.
Proof.
  intros data.
  assert (Hentry : is_nan (storage.d_entry_price data) = false) by reflexivity.
  assert (Hamount : is_nan (storage.d_amount data) = false) by reflexivity.
  assert (Hnone : storage.get_open_position [] (storage.d_symbol data) = None)
    by reflexivity.
  split_and!; [exact Hentry|exact Hamount|exact Hnone|].
  pose proof (proj1 (proj2 (save_then_get_open_position [] 0 data Hentry Hamount Hnone)))
    as Hfound.
  change (storage.d_symbol data) with "BTC/USDT" in Hfound.
  rewrite Hfound. reflexivity.
Defined.

(** X18. With distinct ids, [close_trade] with the id of a row and a
    numeric exit price rewrites that row and no other: its status becomes
    closed, the exit time and the exit price are recorded, and the PnL is
    [(exit - entry) * amount] for a buy and [(entry - exit) * amount] for
    any other side; the row is closed again, with the new figures, if it
    was closed before.  The table is left as it was when no row has the
    id, when the id is [None], when the exit price is not a number and on a
    database error. *)
Theorem close_trade_effect (table : list storage.Row) (now : Z) (exit : pyval) :
  NoDup (storage.id <$> table) →
  (∀ k row x,
     table !! k = Some row → as_float exit = Some x →
     storage.close_trade table false now (Some (storage.id row)) exit
     = <[k := {| storage.id := storage.id row; storage.symbol := storage.symbol row;
                 storage.type := storage.type row;
                 storage.entry_price := storage.entry_price row;
                 storage.amount := storage.amount row;
                 storage.stop_loss := storage.stop_loss row;
                 storage.take_profit := storage.take_profit row;
                 storage.status := "closed";
                 storage.entry_time := storage.entry_time row;
                 storage.exit_time := Some now;
                 storage.exit_price := storage.bind x;
                 storage.pnl :=
                   storage.bind
                     (if bool_decide (storage.type row = "buy")
                      then (x - storage.entry_price row) * storage.amount row
                      else (storage.entry_price row - x) * storage.amount row)%float |}]>
         table)
  ∧ (∀ i, (∀ r, r ∈ table → storage.id r ≠ i) →
          storage.close_trade table false now (Some i) exit = table)
  ∧ storage.close_trade table false now None exit = table
  ∧ (as_float exit = None → ∀ i, storage.close_trade table false now i exit = table)
  ∧ ∀ i, storage.close_trade table true now i exit = table.
Proof.
  intros Hids. split_and!.
  - intros k row x Hrow Hexit. unfold storage.close_trade.
    rewrite (filter_id _ _ _ Hids Hrow), Hexit.
    by rewrite (fmap_id_insert _ _ _ _ Hids Hrow).
  - intros i Hnone. unfold storage.close_trade.
    destruct (filter _ table) as [|r rest] eqn:Hfilter; [done|].
    assert (Hin : r ∈ filter (fun r => storage.id r = i) table) by (rewrite Hfilter; left).
    apply list_elem_of_filter in Hin as [Hid Hin]. by destruct (Hnone r Hin).
  - done.
  - intros Hexit i. unfold storage.close_trade. rewrite Hexit. by repeat case_match.
  - done.
Qed.

(** Witness for X18: two trades, the second closed at 104. *)
Lemma close_trade_effect_witness :
  let row i entry := {| storage.id := i; storage.symbol := "BTC/USDT";
                        storage.type := "buy"; storage.entry_price := entry;
                        storage.amount := 2; storage.stop_loss := None;
                        storage.take_profit := None; storage.status := "open";
                        storage.entry_time := 0; storage.exit_time := None;
                        storage.exit_price := None; storage.pnl := None |} in
  let table := [row 1%Z 90%float; row 2%Z 100%float] in
  NoDup (storage.id <$> table)
  ∧ storage.pnl <$> storage.close_trade table false 5 (Some 2%Z) (VFloat 104)
    = [None; Some 8%float].
Proof.
  intros row table.
  assert (Hids : NoDup (storage.id <$> table)).
  { apply NoDup_cons. split; [|apply NoDup_singleton].
    intros [=]%list_elem_of_singleton. }
  split; [exact Hids|].
  pose proof (proj1 (close_trade_effect table 5 (VFloat 104) Hids) 1%nat (row 2%Z 100%float)
                104%float eq_refl eq_refl) as Hclosed.
  etrans; [exact (f_equal (fmap storage.pnl) Hclosed)|reflexivity].
Defined.

(** ** The trader and its storage *)

Section stop_and_target.
Import Stdlib.Floats.Floats.
Local Open Scope float_scope.

(** With the configured percentages, the stop and the target of a price that
    is a number are numbers. *)
Lemma stop_and_target_numbers x :
  is_nan x = false →
  is_nan (x * (1 - Config.STOP_LOSS_PCT)) = false
  ∧ is_nan (x * (1 + Config.TAKE_PROFIT_PCT)) = false.
Proof.
  intros Hx. split; (eapply mul_finite_not_nan; [exact Hx|]); vm_compute; reflexivity.
Qed.

End stop_and_target.

Section sync.
Variables (self : trader.Trader) (table : list storage.Row).
Hypothesis Hstop : trader.stop_loss_pct self = Config.STOP_LOSS_PCT.
Hypothesis Htarget : trader.take_profit_pct self = Config.TAKE_PROFIT_PCT.
Hypothesis Hsync : live.in_sync self table.
Local Open Scope float_scope.

(** A tick with the database at work keeps the trader and the table
    together. *)
Lemma tick_in_sync df ex now :
  live.in_sync (live.tick self table df ex false now).1.1
    (live.tick self table df ex false now).1.2.
Proof.
  unfold live.tick.
  destruct (trader.run_analysis self (live.world df ex table false now))
    as [self' r] eqn:Hrun. cbn [fst snd].
  destruct (run_analysis_settings _ _ _ _ Hrun) as (_ & Hsymbol & _ & _).
  destruct Hsync as [Hids Hrows].
  destruct (run_analysis_cases _ _ _ _ Hrun)
    as [(Hposition & Hcalls & _)
       |[(x & Hflat & Hnumber & _ & Hposition & Hcalls & _)
        |(p & x & why & Hopen & _ & Hposition & Hcalls & _)]].
  - rewrite Hcalls, drop_all. cbn [foldl].
    split; [done|]. rewrite Hposition. unfold live.open_rows. by rewrite Hsymbol.
  - rewrite Hcalls, drop_app_length. cbn [foldl]. rewrite Hflat in Hrows.
    destruct (stop_and_target_numbers x Hnumber) as [Hsl Htp].
    assert (Hsaved : ∀ i,
              live.trade_data (live.opened self x i)
              = Some {| storage.d_symbol := trader.symbol_ self; storage.d_type := "buy";
                        storage.d_entry_price := x; storage.d_amount := 0.001;
                        storage.d_sl := x * (1 - Config.STOP_LOSS_PCT);
                        storage.d_tp := x * (1 + Config.TAKE_PROFIT_PCT) |}).
    { intros i. unfold live.trade_data, live.opened. cbn. by rewrite Hstop, Htarget. }
    cbn [trader.save_trade live.world] in Hposition.
    rewrite Hsaved, save_trade_stored in Hposition by done. cbn [snd] in Hposition.
    unfold live.store. rewrite Hsaved, save_trade_stored by done. cbn [fst].
    cbn [storage.d_symbol storage.d_type storage.d_entry_price storage.d_amount
         storage.d_sl storage.d_tp].
    rewrite (bind_number _ Hsl), (bind_number _ Htp).
    split.
    + rewrite fmap_app. apply NoDup_app. split_and!; [done| |apply NoDup_singleton].
      intros i Hi [->|[]%elem_of_nil]%elem_of_cons. by apply next_id_fresh in Hi.
    + rewrite Hposition. eexists. split_and!.
      * unfold live.open_rows in *. rewrite Hsymbol, filter_app, Hrows, app_nil_l.
        by apply filter_singleton_True.
      * unfold live.opened. cbn. by rewrite Hstop.
      * unfold live.opened. cbn. by rewrite Htarget.
      * reflexivity.
  - rewrite Hcalls, drop_app_length. cbn [foldl]. rewrite Hopen in Hrows.
    destruct Hrows as (row & Hrows & _ & _ & Hp).
    assert (Hid : trader.id p = Some (storage.id row)) by (by rewrite Hp).
    assert (Hin : row ∈ live.open_rows self table) by (rewrite Hrows; left).
    apply list_elem_of_filter in Hin as [_ Hin].
    apply list_elem_of_lookup_1 in Hin as [k Hrow].
    unfold live.store. rewrite Hid.
    split; [by rewrite close_trade_ids|].
    rewrite Hposition. unfold storage.close_trade.
    rewrite (filter_id _ _ _ Hids Hrow). cbn [as_float]. unfold live.open_rows.
    apply filter_nil_intro. intros ? (r' & -> & Hr')%list_elem_of_fmap [Hsym Hstatus].
    case_bool_decide as Hsame; [done|].
    assert (Hopen' : r' ∈ live.open_rows self table).
    { apply list_elem_of_filter. rewrite <- Hsymbol. done. }
    rewrite Hrows in Hopen'. apply list_elem_of_singleton in Hopen'. by subst r'.
Qed.

Lemma tick_percentages df ex failing now :
  trader.stop_loss_pct (live.tick self table df ex failing now).1.1 = Config.STOP_LOSS_PCT
  ∧ trader.take_profit_pct (live.tick self table df ex failing now).1.1
    = Config.TAKE_PROFIT_PCT.
Proof.
  unfold live.tick.
  destruct (trader.run_analysis self (live.world df ex table failing now))
    as [self' r] eqn:Hrun. cbn [fst snd].
  destruct (run_analysis_settings _ _ _ _ Hrun) as (_ & _ & -> & ->). done.
Qed.

(** What is held in memory is what a restart would load. *)
Lemma in_sync_resumes : live.resumes self table.
Proof.
  destruct Hsync as [_ Hrows]. unfold live.resumes, storage.get_open_position.
  unfold live.open_rows in Hrows.
  destruct (trader.position self) as [p|]; [|by rewrite Hrows].
  destruct Hrows as (row & -> & Hsl & Htp & Hp).
  exists (storage.id row), (storage.entry_price row).
  rewrite Hsl, Htp. rewrite Hp. done.
Qed.

End sync.

(** X19. As long as the database does not fail, the trader and the table
    stay together over any number of ticks, whatever the candles and
    whether orders are filled or rejected: the trader is flat and the table
    has no open row for the symbol, or the trader holds a position and the
    table has exactly one open row for the symbol, with the id, the entry
    price, the amount, the stop and the target of the position.  So a
    restart, which loads [get_open_position(symbol)], resumes exactly the
    position that was held. *)
Theorem position_survives_restart (self : trader.Trader) (table : list storage.Row)
    (inputs : list live.Input) :
  trader.stop_loss_pct self = Config.STOP_LOSS_PCT →
  trader.take_profit_pct self = Config.TAKE_PROFIT_PCT →
  live.in_sync self table →
  live.in_sync (live.ticks self table inputs).1 (live.ticks self table inputs).2
  ∧ live.resumes (live.ticks self table inputs).1 (live.ticks self table inputs).2.
Proof.
  intros Hstop Htarget Hsync.
  assert (Hkept : live.in_sync (live.ticks self table inputs).1
                    (live.ticks self table inputs).2
                  ∧ trader.stop_loss_pct (live.ticks self table inputs).1
                    = Config.STOP_LOSS_PCT
                  ∧ trader.take_profit_pct (live.ticks self table inputs).1
                    = Config.TAKE_PROFIT_PCT).
  { revert self table Hstop Htarget Hsync.
    induction inputs as [|input rest IH]; intros self table Hstop Htarget Hsync; [done|].
    pose proof (tick_in_sync self table Hstop Htarget Hsync
                  (live.candles input) (live.interface input) (live.clock input)) as Hnext.
    pose proof (tick_percentages self table Hstop Htarget
                  (live.candles input) (live.interface input) false (live.clock input))
      as [Hstop' Htarget'].
    simpl.
    destruct (live.tick self table _ _ false _) as [[self' table'] r].
    by apply IH. }
  destruct Hkept as (Hfinal & Hstop' & Htarget').
  split; [exact Hfinal|]. by eapply in_sync_resumes.
Qed.

(** Witness for X19: a fresh trader and an empty table, one tick of paper
    trading on the rising sample. *)
Lemma position_survives_restart_witness :
  let self := trader.Trader_init None in
  let paper := {| exchange.paper_trading := true;
                  exchange.ccxt_fetch_ticker := fun _ => None;
                  exchange.ccxt_create_order := fun _ _ _ _ => None |} in
  let inputs := [{| live.candles := samples.rising; live.interface := paper;
                    live.clock := 0 |}] in
  trader.stop_loss_pct self = Config.STOP_LOSS_PCT
  ∧ trader.take_profit_pct self = Config.TAKE_PROFIT_PCT
  ∧ live.in_sync self []
  ∧ live.resumes (live.ticks self [] inputs).1 (live.ticks self [] inputs).2.
Proof.
  intros self paper inputs.
  assert (Hstop : trader.stop_loss_pct self = Config.STOP_LOSS_PCT) by reflexivity.
  assert (Htarget : trader.take_profit_pct self = Config.TAKE_PROFIT_PCT) by reflexivity.
  assert (Hsync : live.in_sync self []) by (split; [apply NoDup_nil_2|reflexivity]).
  split_and!; [exact Hstop|exact Htarget|exact Hsync|].
  exact (proj2 (position_survives_restart self [] inputs Hstop Htarget Hsync)).
Defined.

(** The rising sample and then the falling sample, in paper trading from an
    empty table: the buy at 100.25 is stored as trade 1 and the sell at 94
    closes it with its loss. *)
Example paper_buy_and_sell_are_stored :
  let paper := {| exchange.paper_trading := true;
                  exchange.ccxt_fetch_ticker := fun _ => None;
                  exchange.ccxt_create_order := fun _ _ _ _ => None |} in
  let bought :=
    live.ticks (trader.Trader_init None) []
      [{| live.candles := samples.rising; live.interface := paper; live.clock := 1 |}] in
  let sold :=
    live.ticks bought.1 bought.2
      [{| live.candles := samples.falling; live.interface := paper; live.clock := 2 |}] in
  (trader.id <$> trader.position bought.1 = Some (Some 1%Z)
   ∧ (fun r => (storage.id r, storage.status r, storage.entry_price r)) <$> bought.2
     = [(1%Z, "open", 100.25%float)])
  ∧ (trader.position sold.1 = None
     ∧ (fun r => (storage.id r, storage.status r, storage.exit_price r, storage.pnl r))
         <$> sold.2
       = [(1%Z, "closed", Some 94%float, Some ((94 - 100.25) * 0.001)%float)]).
Proof. vm_compute. done. Qed.

(** X20. When the database fails during the tick that opens a position, the
    trader holds the position all the same, with the id [None], and the
    trade is never written: the table is as it was after this tick and
    after any later tick from there, also the one that closes the position.
    A restart in between finds no position. *)
Theorem failed_save_is_never_stored (self : trader.Trader) (table : list storage.Row)
    (df : DataFrame) (ex : exchange.ExchangeInterface) (now : Z) :
  let opened := live.tick self table df ex true now in
  (∃ signal_data,
     opened.2 = Returned (Some signal_data)
     ∧ dict_get signal_data "action" = VStr "buy") →
  opened.1.2 = table
  ∧ (∃ p, trader.position opened.1.1 = Some p ∧ trader.id p = None)
  ∧ ∀ df' ex' failing now',
      (live.tick opened.1.1 opened.1.2 df' ex' failing now').1.2 = table.
Proof.
  intros opened (signal_data & Hresult & Haction). subst opened.
  unfold live.tick in Hresult |- *.
  destruct (trader.run_analysis self (live.world df ex table true now))
    as [self' r] eqn:Hrun. cbn [fst snd] in Hresult |- *. subst r.
  destruct (run_analysis_cases _ _ _ _ Hrun)
    as [(_ & _ & Hnone)
       |[(x & Hflat & Hnumber & _ & Hposition & Hcalls & _)
        |(p & x & why & _ & _ & _ & _ & [= ->])]].
  - by destruct (Hnone signal_data).
  - change (trader.save_trade (live.world df ex table true now) (live.opened self x None))
      with (@None Z) in Hposition.
    assert (Hsame : foldl (fun t call => live.store t true now call) table
                      (drop (length (trader.storage_calls self))
                         (trader.storage_calls self')) = table).
    { by rewrite Hcalls, drop_app_length. }
    rewrite Hsame. split_and!; [done|by eexists|].
    intros df' ex' failing now'. unfold live.tick.
    destruct (trader.run_analysis self' (live.world df' ex' table failing now'))
      as [self'' r'] eqn:Hnext. cbn [fst snd].
    destruct (run_analysis_cases _ _ _ _ Hnext)
      as [(_ & -> & _)
         |[(? & Hflat' & _)
          |(p & x' & why & Hopen & _ & _ & -> & _)]].
    + by rewrite drop_all.
    + rewrite Hflat' in Hposition. discriminate.
    + rewrite drop_app_length. cbn [foldl live.store].
      rewrite Hopen in Hposition. injection Hposition as ->.
      unfold storage.close_trade. cbn [trader.id live.opened]. by destruct failing.
  - vm_compute in Haction. discriminate.
Qed.

(** Witness for X20: the rising sample in paper trading, the database
    failing. *)
Lemma failed_save_is_never_stored_witness :
  let paper := {| exchange.paper_trading := true;
                  exchange.ccxt_fetch_ticker := fun _ => None;
                  exchange.ccxt_create_order := fun _ _ _ _ => None |} in
  let opened := live.tick (trader.Trader_init None) [] samples.rising paper true 0 in
  (∃ signal_data,
     opened.2 = Returned (Some signal_data)
     ∧ dict_get signal_data "action" = VStr "buy")
  ∧ opened.1.2 = []
  ∧ ∃ p, trader.position opened.1.1 = Some p ∧ trader.id p = None.
Proof.
  intros paper opened.
  assert (Hbuy : ∃ signal_data,
            opened.2 = Returned (Some signal_data)
            ∧ dict_get signal_data "action" = VStr "buy").
  { eexists. split; vm_compute; reflexivity. }
  split; [exact Hbuy|].
  pose proof (failed_save_is_never_stored (trader.Trader_init None) [] samples.rising
                paper 0 Hbuy) as (Htable & Hheld & _).
  split; [exact Htable|exact Hheld].
Defined.

(** ** The status endpoint *)

Lemma run_analysis_latest (self : trader.Trader) (world : trader.World) frame analysis :
  is_empty (trader.fetch_ohlcv world) = false →
  strategy.analyze (trader.strategy_ self) (trader.fetch_ohlcv world)
  = (frame, Returned analysis) →
  trader.latest_analysis (trader.run_analysis self world).1 = Some analysis.
Proof.
  intros Hempty Hanalysis. unfold trader.run_analysis. rewrite Hempty, Hanalysis.
  unfold trader.trade, trader.open_position, trader.close_position.
  repeat case_match; reflexivity.
Qed.

Lemma evaluate_rsi (self : strategy.Strategy) (last prev : strategy.Row) :
  strategy.evaluate self last prev !! "rsi" = Some (VFloat (strategy.r_rsi last)).
Proof.
  unfold strategy.evaluate.
  destruct (strategy.sell_conditions _ _ _ _) as [signal reason]. reflexivity.
Qed.

Lemma evaluate_macd (self : strategy.Strategy) (last prev : strategy.Row) :
  strategy.evaluate self last prev !! "macd" = Some (VFloat (strategy.r_macd last)).
Proof.
  unfold strategy.evaluate.
  destruct (strategy.sell_conditions _ _ _ _) as [signal reason]. reflexivity.
Qed.

Lemma evaluate_volume_confirmed (self : strategy.Strategy) (last prev : strategy.Row) :
  strategy.evaluate self last prev !! "volume_confirmed"
  = Some (VBool (strategy.volume_confirmed self last)).
Proof.
  unfold strategy.evaluate.
  destruct (strategy.sell_conditions _ _ _ _) as [signal reason]. reflexivity.
Qed.

(** X21. What [/api/status] answers after a tick of the trader.  When the
    ticker could not be fetched ([get_ticker] gave [None]) the request
    fails with an AttributeError: the defaults written for that case are
    not reached.  An empty ticker gives the price 0, a ticker with values
    but no last price a KeyError.  With a ticker that has a last price, the
    answer is active with that price.  After a tick on a series that is not empty
    but too short it shows no signal, the reason 'Insufficient data' and
    the placeholders RSI 50, MACD 0, trend 'neutral', volume not confirmed
    and volume ratio 1; after a tick on a series that passes the warm-up it
    shows the figures of the analysis, whose trend is never 'neutral'. *)
Theorem status_after_tick (self : trader.Trader) (world : trader.World) :
  let self' := (trader.run_analysis self world).1 in
  let df := trader.fetch_ohlcv world in
  api.get_status (Some self') None = api.Failed api.AttributeError
  ∧ (∃ s, api.get_status (Some self') (Some ∅) = api.Active s ∧ api.price s = VFloat 0)
  ∧ (∀ ticker, ticker ≠ ∅ → ticker !! "last" = None →
       api.get_status (Some self') (Some ticker) = api.Failed api.KeyError)
  ∧ ∀ ticker last,
      ticker !! "last" = Some last →
      ∃ s, api.get_status (Some self') (Some ticker) = api.Active s
        ∧ api.price s = last
        ∧ api.symbol s = trader.symbol_ self
        ∧ (is_empty df = false → strategy.insufficient (trader.strategy_ self) df = true →
             api.last_signal s = VNone
             ∧ api.signal_reason s = VStr "Insufficient data"
             ∧ api.rsi s = VFloat 50 ∧ api.macd s = VFloat 0
             ∧ api.trend s = VStr "neutral"
             ∧ api.volume_confirmed s = VBool false
             ∧ api.volume_ratio s = VFloat 1)
        ∧ (strategy.insufficient (trader.strategy_ self) df = false → (2 ≤ len df)%nat →
             ∃ row reason,
               strategy.iloc_back (strategy.add_indicators (trader.strategy_ self) df) 1
               = Some row
               ∧ api.last_signal s ∈ [VNone; VStr "buy"; VStr "sell"]
               ∧ api.signal_reason s = VJoined reason ∧ reason ≠ []
               ∧ api.rsi s = VFloat (strategy.r_rsi row)
               ∧ api.macd s = VFloat (strategy.r_macd row)
               ∧ api.trend s ∈ [VStr "uptrend"; VStr "downtrend"]
               ∧ api.volume_confirmed s
                 = VBool (strategy.volume_confirmed (trader.strategy_ self) row)).
Proof.
  intros self' df. subst self' df. split; [reflexivity|].
  split.
  { eexists. split; reflexivity. }
  split.
  { intros ticker Hticker Hlast. unfold api.get_status.
    rewrite bool_decide_eq_false_2, Hlast; [done|].
    by rewrite map_size_empty_iff. }
  intros ticker last Hlast. unfold api.get_status.
  rewrite bool_decide_eq_false_2, Hlast by (by eapply dict_not_empty).
  eexists. split; [reflexivity|].
  cbn [api.price api.symbol api.last_signal api.signal_reason api.rsi api.macd api.trend
       api.volume_confirmed api.volume_ratio].
  destruct (run_analysis_settings self world (trader.run_analysis self world).1
              (trader.run_analysis self world).2)
    as (_ & Hsymbol & _ & _); [by destruct (trader.run_analysis self world)|].
  split_and!; [done|done| |].
  - intros Hempty Hguard.
    rewrite (run_analysis_latest self world (trader.fetch_ohlcv world)
               strategy.insufficient_data Hempty)
      by (by apply analyze_insufficient).
    by split_and!.
  - intros Hguard Hlen.
    assert (Hempty : is_empty (trader.fetch_ohlcv world) = false).
    { unfold strategy.insufficient in Hguard. by apply orb_false_iff in Hguard as [? _]. }
    destruct (analyze_sufficient (trader.strategy_ self) _ Hguard Hlen)
      as (row & prev & Hrow & Hprev & Hrun).
    rewrite (run_analysis_latest self world _ _ Hempty Hrun). cbn [default from_option id].
    unfold dict_get_default.
    rewrite evaluate_signal, evaluate_reason, evaluate_rsi, evaluate_macd, evaluate_trend,
      evaluate_volume_confirmed. cbn [default from_option id].
    eexists row, _. split_and!; try reflexivity.
    + exact Hrow.
    + unfold strategy.sell_conditions, strategy.buy_conditions.
      repeat case_match; simpl; by repeat constructor.
    + apply sell_conditions_trail_nonempty, buy_conditions_trail_nonempty.
    + unfold strategy.trend. case_match; by repeat constructor.
Qed.
